(** * FillForge: a shallow embedding of the edit-composition pipeline

    The development follows the layout of the repository:

    - [JS]        the fragment of JavaScript semantics the sources rely on
                  (numbers with [NaN], truthiness, [parseInt], string
                  splitting, rejected promises as an error result);
    - [Env]       the interface of the external collaborators (pdf-lib,
                  [atob], the clock), taken as a parameter;
    - [PdfUtils]  [src/pdf/pdfUtils.js];
    - [Main]      [electron/main.cjs], the signing handler;
    - [App]       the React component holding the draft store and the
                  export flow;
    - [Reference] a small concrete environment to evaluate examples in;
    - [Spec]      the vocabulary of the statements.

    The theorems follow, grouped by component.

    Numbers that are coordinates or font measures are modelled as exact
    rationals [Q]; equalities between them are stated with [==]. *)

From Stdlib Require Import ZArith QArith Qminmax Qabs Qround Bool List String Ascii.
From Stdlib Require Import Lia Lqa DecimalString.
From Stdlib Require Qcanon.
Import ListNotations.

Local Open Scope string_scope.

(* ================================================================== *)
(** * JavaScript values and helpers *)
(* ================================================================== *)

Module JS.

(** An awaited call either yields a value or rejects with an [Error]
    carrying a message. *)
Inductive Result (A : Type) : Type :=
| Ok (a : A)
| Throw (message : string).
Arguments Ok {A} a.
Arguments Throw {A} message.

Definition bind {A B : Type} (r : Result A) (k : A -> Result B) : Result B :=
  match r with
  | Ok a => k a
  | Throw m => Throw m
  end.

Notation "x <- c ;; k" := (bind c (fun x => k))
  (at level 61, c at next level, right associativity).
Notation "' pat <- c ;; k" := (bind c (fun x => match x with pat => k end))
  (at level 61, pat pattern, c at next level, right associativity).

(** IEEE numbers, up to rounding: the finite ones are rationals. *)
Inductive number : Type :=
| NaN
| NegInfinity
| Fin (q : Q)
| Infinity.

Inductive value : Type :=
| undefined
| null
| boolean (b : bool)
| num (n : number)
| str (s : string).

Definition truthy_number (n : number) : bool :=
  match n with
  | NaN => false
  | Fin q => negb (Qeq_bool q 0)
  | NegInfinity | Infinity => true
  end.

Definition truthy (v : value) : bool :=
  match v with
  | undefined | null => false
  | boolean b => b
  | num n => truthy_number n
  | str s => negb (String.eqb s "")
  end.

(** [a || b] on numbers. *)
Definition or_number (a b : number) : number :=
  if truthy_number a then a else b.

Definition Math_max (a b : number) : number :=
  match a, b with
  | NaN, _ | _, NaN => NaN
  | Infinity, _ | _, Infinity => Infinity
  | NegInfinity, x | x, NegInfinity => x
  | Fin p, Fin q => Fin (Qmax p q)
  end.

Definition Math_min (a b : number) : number :=
  match a, b with
  | NaN, _ | _, NaN => NaN
  | NegInfinity, _ | _, NegInfinity => NegInfinity
  | Infinity, x | x, Infinity => x
  | Fin p, Fin q => Fin (Qmin p q)
  end.

Definition divide (a : number) (d : Z) : number :=
  match a with
  | Fin q => Fin (q / inject_Z d)
  | other => other
  end.

(** [Number(v)]; the numeric reading of a string literal is left to the
    parameter [StringToNumber]. *)
Definition Number (StringToNumber : string -> number) (v : value) : number :=
  match v with
  | undefined => NaN
  | null => Fin 0
  | boolean true => Fin 1
  | boolean false => Fin 0
  | num n => n
  | str s => StringToNumber s
  end.

(** [String(v)] on the values the form bridge passes around. *)
Definition String_of (NumberToString : number -> string) (v : value) : string :=
  match v with
  | undefined => "undefined"
  | null => "null"
  | boolean true => "true"
  | boolean false => "false"
  | num n => NumberToString n
  | str s => s
  end.

(** [arr[i]] for a number [i]: defined only at an integral index in range. *)
Definition index {A : Type} (arr : list A) (i : number) : option A :=
  match i with
  | Fin q =>
      let r := Qred q in
      if (Zpos (Qden r) =? 1)%Z && (0 <=? Qnum r)%Z
      then nth_error arr (Z.to_nat (Qnum r))
      else None
  | _ => None
  end.

(** ** Strings.  A character is a code unit below 256. *)

Definition code (c : ascii) : Z := Z.of_N (N_of_ascii c).

(** The code units below 256 matched by [\s]. *)
Definition isWhiteSpace (c : ascii) : bool :=
  let n := code c in
  ((9 <=? n) && (n <=? 13) || (n =? 32) || (n =? 160))%Z.

Fixpoint trimStart (s : string) : string :=
  match s with
  | String c rest => if isWhiteSpace c then trimStart rest else s
  | EmptyString => EmptyString
  end.

(** [s.trimEnd()] and [s.trim()] *)
Fixpoint trimEnd (s : string) : string :=
  match s with
  | String c rest =>
      let kept := trimEnd rest in
      if isWhiteSpace c && String.eqb kept "" then EmptyString
      else String c kept
  | EmptyString => EmptyString
  end.

Definition trim (s : string) : string := trimEnd (trimStart s).

(** [Math.round] on a finite number. *)
Definition Math_round (q : Q) : Q := inject_Z (Qfloor (q + (1 # 2))).

Definition hexDigit (c : ascii) : option Z :=
  let n := code c in
  if ((48 <=? n) && (n <=? 57))%Z then Some (n - 48)%Z
  else if ((65 <=? n) && (n <=? 70))%Z then Some (n - 55)%Z
  else if ((97 <=? n) && (n <=? 102))%Z then Some (n - 87)%Z
  else None.

(** Value of the longest prefix of hexadecimal digits, if not empty. *)
Fixpoint hexPrefix (s : string) (acc : option Z) : option Z :=
  match s with
  | String c rest =>
      match hexDigit c with
      | Some d =>
          hexPrefix rest
            (Some (16 * match acc with Some a => a | None => 0 end + d)%Z)
      | None => acc
      end
  | EmptyString => acc
  end.

(** [parseInt(s, 16)]: leading white space is skipped, then an optional
    sign and an optional [0x] prefix; the digits that follow are read up to
    the first character that is not one. *)
Definition parseInt16 (s : string) : number :=
  let s1 := trimStart s in
  let '(sign, s2) :=
    match s1 with
    | String c rest =>
        if (code c =? 45)%Z then ((-1)%Z, rest)
        else if (code c =? 43)%Z then (1%Z, rest)
        else (1%Z, s1)
    | EmptyString => (1%Z, s1)
    end in
  let s3 :=
    match s2 with
    | String z (String x rest) =>
        if ((code z =? 48) && ((code x =? 120) || (code x =? 88)))%Z
        then rest else s2
    | _ => s2
    end in
  match hexPrefix s3 None with
  | Some z => Fin (inject_Z (sign * z))
  | None => NaN
  end.

(** [s.replace(c, '')] with a one-character pattern: the first occurrence
    goes. *)
Fixpoint removeFirst (c : ascii) (s : string) : string :=
  match s with
  | String d rest => if Ascii.eqb c d then rest else String d (removeFirst c rest)
  | EmptyString => EmptyString
  end.

(** [s.slice(i, j)] for [0 <= i <= j]. *)
Definition slice (i j : nat) (s : string) : string := substring i (j - i) s.

(** [s.split(c)] with a one-character separator. *)
Fixpoint splitOn (c : ascii) (s : string) : list string :=
  match s with
  | EmptyString => [EmptyString]
  | String d rest =>
      if Ascii.eqb c d then EmptyString :: splitOn c rest
      else match splitOn c rest with
           | piece :: pieces => String d piece :: pieces
           | [] => [String d EmptyString]
           end
  end.

(** [s.split(/\s+/).filter(Boolean)]: the maximal runs of characters that
    are not white space, in order.  [cur] is the run being read. *)
Fixpoint wordsFrom (cur : string) (s : string) : list string :=
  match s with
  | EmptyString => if String.eqb cur "" then [] else [cur]
  | String c rest =>
      if isWhiteSpace c
      then if String.eqb cur "" then wordsFrom "" rest
           else cur :: wordsFrom "" rest
      else wordsFrom (cur ++ String c EmptyString) rest
  end.

Definition words (s : string) : list string := wordsFrom "" s.

End JS.

Import JS.

(* ================================================================== *)
(** * The external collaborators *)
(* ================================================================== *)

(** A [Uint8Array]. *)
Definition bytes : Type := list Z.

Inductive StandardFonts : Type :=
| Courier | CourierBold | CourierOblique | CourierBoldOblique
| Helvetica | HelveticaBold | HelveticaOblique | HelveticaBoldOblique
| TimesRoman | TimesRomanBold | TimesRomanItalic | TimesRomanBoldItalic.

(** The classes a form field can be an instance of. *)
Inductive FieldKind : Type :=
| PDFTextField | PDFCheckBox | PDFDropdown | PDFOptionList | PDFRadioGroup
| PDFOtherField.

Record Color : Type := mkColor { red : Q; green : Q; blue : Q }.

(** pdf-lib's [rgb]: it builds the colour and rejects a channel that is
    not a number between 0 and 1. *)
Definition inUnit (n : number) : option Q :=
  match n with
  | Fin q => if Qle_bool 0 q && Qle_bool q 1 then Some q else None
  | _ => None
  end.

Definition rgb (r g b : number) : Result Color :=
  match inUnit r, inUnit g, inUnit b with
  | Some r', Some g', Some b' => Ok (mkColor r' g' b')
  | None, _, _ => Throw "`red` must be at least 0 and at most 1"
  | _, None, _ => Throw "`green` must be at least 0 and at most 1"
  | _, _, None => Throw "`blue` must be at least 0 and at most 1"
  end.

(** The rectangle a field or an image is given on its page. *)
Record Area : Type := mkArea {
  area_x : Q;
  area_y : Q;
  area_width : Q;
  area_height : Q
}.

(** pdf-lib, the browser's [atob], the clock and the runtime's conversions
    between numbers and their literals.  A page is referred to by its
    position in [getPages()]; [None] stands for [undefined].  Every call
    that mutates the document returns the document after it. *)
Record Env : Type := {
  Doc : Type;
  Font : Type;
  Image : Type;
  Field : Type;
  load : bytes -> Result Doc;
  save : Doc -> Result bytes;
  pageCount : Doc -> nat;
  embedFont : Doc -> StandardFonts -> Result (Doc * Font);
  widthOfTextAtSize : Font -> string -> Q -> Q;
  drawText :
    Doc -> option nat -> string -> Q -> Q -> Q -> Font -> Color -> Result Doc;
  drawLine :
    Doc -> option nat -> Q * Q -> Q * Q -> Q -> Color -> Result Doc;
  createTextField : Doc -> string -> Result (Doc * Field);
  createCheckBox : Doc -> string -> Result (Doc * Field);
  addToPage : Doc -> Field -> option nat -> Area -> Result Doc;
  updateFieldAppearances : Doc -> Font -> Result Doc;
  getField : Doc -> string -> Result (option Field);
  fieldKind : Field -> FieldKind;
  setText : Doc -> Field -> string -> Result Doc;
  check : Doc -> Field -> Result Doc;
  uncheck : Doc -> Field -> Result Doc;
  select : Doc -> Field -> string -> Result Doc;
  embedPng : Doc -> bytes -> Result (Doc * Image);
  imageWidth : Image -> Q;
  imageHeight : Image -> Q;
  drawImage : Doc -> option nat -> Image -> Area -> Result Doc;
  atob : string -> Result string;
  btoa : string -> string;
  Date_now : Z;
  NumberToString : number -> string;
  StringToNumber : string -> number
}.

(* ================================================================== *)
(** * src/pdf/pdfUtils.js *)
(* ================================================================== *)

Module PdfUtils.

Definition newline : ascii := ascii_of_nat 10.

Definition nonEmpty (s : string) : bool := negb (String.eqb s "").

(** [a || b] on finite numbers. *)
Definition orQ (a b : Q) : Q := if Qeq_bool a 0 then b else a.

Definition charCodes (binary : string) : bytes :=
  map code (list_ascii_of_string binary).

Definition decodeBase64 (L : Env) (base64 : string) : Result bytes :=
  binary <- atob L base64 ;;
  Ok (charCodes binary).

(** [dataUrl.split(',')[1]] is [undefined] when there is no comma, and
    [atob] then reads the text [undefined]. *)
Definition dataUrlToBytes (L : Env) (dataUrl : option string)
  : Result (option bytes) :=
  match dataUrl with
  | None => Ok None
  | Some url =>
      if nonEmpty url then
        let base64 :=
          match nth_error (splitOn "," url) 1 with
          | Some body => body
          | None => "undefined"
          end in
        imageBytes <- decodeBase64 L base64 ;;
        Ok (Some imageBytes)
      else Ok None
  end.

(** [pages[Math.min(pageIndex, pages.length - 1)] || pages[0]] *)
Definition resolvePage (L : Env) (pdfDoc : Doc L) (pageIndex : nat)
  : option nat :=
  match pageCount L pdfDoc with
  | O => None
  | S lastIndex => Some (Nat.min pageIndex lastIndex)
  end.

Definition lowerChar (c : ascii) : ascii :=
  let n := code c in
  if ((65 <=? n) && (n <=? 90) ||
      (192 <=? n) && (n <=? 222) && negb (n =? 215))%Z
  then ascii_of_N (Z.to_N (n + 32)) else c.

Fixpoint toLowerCase (s : string) : string :=
  match s with
  | String c rest => String (lowerChar c) (toLowerCase rest)
  | EmptyString => EmptyString
  end.

Definition orString (a : option string) (b : string) : string :=
  match a with
  | Some s => if nonEmpty s then s else b
  | None => b
  end.

Definition resolveFontName (family weight style : option string)
  : StandardFonts :=
  let isBold := match weight with Some w => String.eqb w "bold" | None => false end in
  let isItalic := match style with Some s => String.eqb s "italic" | None => false end in
  let key := toLowerCase (orString family "helvetica") in
  if String.eqb key "times" then
    if isBold && isItalic then TimesRomanBoldItalic
    else if isBold then TimesRomanBold
    else if isItalic then TimesRomanItalic
    else TimesRoman
  else if String.eqb key "courier" then
    if isBold && isItalic then CourierBoldOblique
    else if isBold then CourierBold
    else if isItalic then CourierOblique
    else Courier
  else
    if isBold && isItalic then HelveticaBoldOblique
    else if isBold then HelveticaBold
    else if isItalic then HelveticaOblique
    else Helvetica.

Definition defaultInk : Result Color :=
  rgb (Fin (8 # 100)) (Fin (1 # 10)) (Fin (14 # 100)).

Definition hexToRgb (hex : option string) : Result Color :=
  match hex with
  | None => defaultInk
  | Some hex =>
      if negb (nonEmpty hex) then defaultInk
      else
        let clean := removeFirst "#" hex in
        if negb (String.length clean =? 6)%nat then defaultInk
        else
          let r := divide (parseInt16 (slice 0 2 clean)) 255 in
          let g := divide (parseInt16 (slice 2 4 clean)) 255 in
          let b := divide (parseInt16 (slice 4 6 clean)) 255 in
          rgb r g b
  end.

(** The inner [words.forEach] of [wrapText]: [line] is the line being
    filled; the result is the lines pushed meanwhile and the line left. *)
Fixpoint wrapWords (measure : string -> Q) (maxWidth : Q) (line : string)
  (ws : list string) : list string * string :=
  match ws with
  | [] => ([], line)
  | word :: rest =>
      let testLine := if nonEmpty line then line ++ " " ++ word else word in
      let lineWidth := measure testLine in
      if negb (Qle_bool lineWidth maxWidth) && nonEmpty line
      then let '(pushed, last) := wrapWords measure maxWidth word rest in
           (line :: pushed, last)
      else wrapWords measure maxWidth testLine rest
  end.

(** One round of [paragraphs.forEach]; [more] says that another paragraph
    follows ([index < paragraphs.length - 1]). *)
Definition wrapParagraph (measure : string -> Q) (maxWidth : Q)
  (paragraph : string) (more : bool) : list string :=
  let '(pushed, line) := wrapWords measure maxWidth "" (words paragraph) in
  pushed
  ++ (if nonEmpty line || String.eqb paragraph "" then [line] else [])
  ++ (if more then [""] else []).

Fixpoint wrapParagraphs (measure : string -> Q) (maxWidth : Q)
  (paragraphs : list string) : list string :=
  match paragraphs with
  | [] => []
  | paragraph :: rest =>
      wrapParagraph measure maxWidth paragraph
        (match rest with [] => false | _ :: _ => true end)
      ++ wrapParagraphs measure maxWidth rest
  end.

Definition wrapText (L : Env) (text : string) (font : Font L) (size : Q)
  (maxWidth : Q) : list string :=
  if negb (nonEmpty text) then [""]
  else if Qeq_bool maxWidth 0 then splitOn newline text
  else wrapParagraphs (fun t => widthOfTextAtSize L font t size) maxWidth
         (splitOn newline text).

Record TextOptions : Type := {
  text_pageIndex : nat;
  text_x : Q;
  text_y : Q;
  text_text : string;
  text_size : Q;
  text_fontFamily : option string;
  text_fontWeight : option string;
  text_fontStyle : option string;
  text_underline : bool;
  text_color : option string;
  text_maxWidth : Q;
  text_lineHeight : Q
}.

(** The body of [lines.forEach] in [addTextToPdf], from line [index] on. *)
Fixpoint drawLines (L : Env) (pdfDoc : Doc L) (page : option nat)
  (font : Font L) (ink : Color) (x y effectiveSize effectiveLineHeight : Q)
  (underline : bool) (index : nat) (lines : list string) : Result (Doc L) :=
  match lines with
  | [] => Ok pdfDoc
  | line :: rest =>
      let lineY := y - inject_Z (Z.of_nat index) * effectiveLineHeight in
      pdfDoc <- drawText L pdfDoc page line x lineY effectiveSize font ink ;;
      pdfDoc <-
        (if underline then
           let width := widthOfTextAtSize L font line effectiveSize in
           let thickness := Qmax (effectiveSize / 16) (8 # 10) in
           drawLine L pdfDoc page (x, lineY - 2) (x + width, lineY - 2)
             thickness ink
         else Ok pdfDoc) ;;
      drawLines L pdfDoc page font ink x y effectiveSize effectiveLineHeight
        underline (S index) rest
  end.

Definition addTextToPdf (L : Env) (data : bytes) (o : TextOptions)
  : Result bytes :=
  pdfDoc <- load L data ;;
  let page := resolvePage L pdfDoc (text_pageIndex o) in
  let fontName :=
    resolveFontName (text_fontFamily o) (text_fontWeight o) (text_fontStyle o) in
  '(pdfDoc, font) <- embedFont L pdfDoc fontName ;;
  ink <- hexToRgb (text_color o) ;;
  let effectiveSize := orQ (text_size o) 12 in
  let effectiveLineHeight :=
    orQ (text_lineHeight o) (effectiveSize * (12 # 10)) in
  let lines := wrapText L (text_text o) font effectiveSize (text_maxWidth o) in
  pdfDoc <- drawLines L pdfDoc page font ink (text_x o) (text_y o)
              effectiveSize effectiveLineHeight (text_underline o) 0 lines ;;
  save L pdfDoc.

Definition decimal (z : Z) : string := NilZero.string_of_int (Z.to_int z).

Record TextFieldOptions : Type := {
  tf_pageIndex : nat;
  tf_x : Q;
  tf_y : Q;
  tf_width : Q;
  tf_height : Q;
  tf_name : option string
}.

Definition addTextFieldToPdf (L : Env) (data : bytes) (o : TextFieldOptions)
  : Result bytes :=
  pdfDoc <- load L data ;;
  let page := resolvePage L pdfDoc (tf_pageIndex o) in
  '(pdfDoc, font) <- embedFont L pdfDoc Helvetica ;;
  let fieldName := orString (tf_name o) ("TextField-" ++ decimal (Date_now L)) in
  '(pdfDoc, textField) <- createTextField L pdfDoc fieldName ;;
  pdfDoc <- addToPage L pdfDoc textField page
              (mkArea (tf_x o) (tf_y o) (tf_width o) (tf_height o)) ;;
  pdfDoc <- updateFieldAppearances L pdfDoc font ;;
  save L pdfDoc.

Record CheckBoxOptions : Type := {
  cb_pageIndex : nat;
  cb_x : Q;
  cb_y : Q;
  cb_size : Q;
  cb_name : option string
}.

Definition addCheckBoxToPdf (L : Env) (data : bytes) (o : CheckBoxOptions)
  : Result bytes :=
  pdfDoc <- load L data ;;
  let page := resolvePage L pdfDoc (cb_pageIndex o) in
  '(pdfDoc, font) <- embedFont L pdfDoc Helvetica ;;
  let fieldName := orString (cb_name o) ("Checkbox-" ++ decimal (Date_now L)) in
  '(pdfDoc, checkBox) <- createCheckBox L pdfDoc fieldName ;;
  pdfDoc <- addToPage L pdfDoc checkBox page
              (mkArea (cb_x o) (cb_y o) (cb_size o) (cb_size o)) ;;
  pdfDoc <- updateFieldAppearances L pdfDoc font ;;
  save L pdfDoc.

(** [value ?? ''] *)
Definition orEmpty (v : value) : value :=
  match v with
  | undefined | null => str ""
  | other => other
  end.

(** The write [setFormFieldValue] performs on a field it found, chosen by
    the class of the field. *)
Definition writeField (L : Env) (pdfDoc : Doc L) (field : Field L) (v : value)
  : Result (Doc L) :=
  match fieldKind L field with
  | PDFTextField =>
      setText L pdfDoc field (String_of (NumberToString L) (orEmpty v))
  | PDFCheckBox =>
      if truthy v then check L pdfDoc field else uncheck L pdfDoc field
  | PDFDropdown | PDFOptionList =>
      if truthy v then select L pdfDoc field (String_of (NumberToString L) v)
      else Ok pdfDoc
  | PDFRadioGroup =>
      if truthy v then select L pdfDoc field (String_of (NumberToString L) v)
      else Ok pdfDoc
  | PDFOtherField => Ok pdfDoc
  end.

Definition setFormFieldValue (L : Env) (data : bytes) (fieldName : string)
  (v : value) : Result bytes :=
  pdfDoc <- load L data ;;
  '(pdfDoc, font) <- embedFont L pdfDoc Helvetica ;;
  match getField L pdfDoc fieldName with
  | Throw _ => Ok data
  | Ok None => Ok data
  | Ok (Some field) =>
      pdfDoc <- writeField L pdfDoc field v ;;
      pdfDoc <- updateFieldAppearances L pdfDoc font ;;
      save L pdfDoc
  end.

Record SignatureOptions : Type := {
  sig_pageIndex : nat;
  sig_x : Q;
  sig_y : Q;
  sig_width : Q;
  sig_height : Q;
  sig_dataUrl : option string
}.

Definition addSignatureToPdf (L : Env) (data : bytes) (o : SignatureOptions)
  : Result bytes :=
  pdfDoc <- load L data ;;
  let page := resolvePage L pdfDoc (sig_pageIndex o) in
  imageBytes <- dataUrlToBytes L (sig_dataUrl o) ;;
  match imageBytes with
  | None => Ok data
  | Some imageBytes =>
      '(pdfDoc, pngImage) <- embedPng L pdfDoc imageBytes ;;
      let width := sig_width o in
      let height := sig_height o in
      let '(targetWidth, targetHeight) :=
        if Qeq_bool height 0 then
          let scale := width / imageWidth L pngImage in
          (width, imageHeight L pngImage * scale)
        else if Qeq_bool width 0 then
          let scale := height / imageHeight L pngImage in
          (imageWidth L pngImage * scale, height)
        else (width, height) in
      pdfDoc <- drawImage L pdfDoc page pngImage
                  (mkArea (sig_x o) (sig_y o) targetWidth targetHeight) ;;
      save L pdfDoc
  end.

End PdfUtils.

(* ================================================================== *)
(** * electron/main.cjs *)
(* ================================================================== *)

Module Main.

Import PdfUtils.

Definition MAX_PDF_BYTES : Z := 50 * 1024 * 1024.
Definition MAX_CERT_BYTES : Z := 5 * 1024 * 1024.

(** The [rect] entry of the payload: an array, an object whose entries may
    be missing, or nothing. *)
Inductive RectArg : Type :=
| RectArray (corners : list Q)
| RectObject (x y width height : option Q)
| RectMissing.

Record Placeholder : Type := {
  ph_page : option nat;
  ph_reason : string;
  ph_contactInfo : string;
  ph_name : string;
  ph_location : string;
  ph_signatureLength : Z;
  ph_widgetRect : list Q
}.

(** What the main process is given: the sender check, [Buffer], the three
    signing modules loaded on demand (an import may reject, and an export
    may be absent) and the serialisation without object streams. *)
Record Node (L : Env) : Type := {
  Event : Type;
  isTrustedSender : Event -> bool;
  Buffer_from_base64 : string -> bytes;
  Buffer_to_base64 : bytes -> string;
  import_placeholder :
    Result (option (Doc L -> Placeholder -> Result (Doc L)));
  import_signer : Result bool;
  import_signpdf : Result (option (bytes -> bytes -> string -> Result bytes));
  save_without_object_streams : Doc L -> Result bytes
}.
Arguments Event {L} _.
Arguments isTrustedSender {L} _ _.
Arguments Buffer_from_base64 {L} _ _.
Arguments Buffer_to_base64 {L} _ _.
Arguments import_placeholder {L} _.
Arguments import_signer {L} _.
Arguments import_signpdf {L} _.
Arguments save_without_object_streams {L} _ _.

Record SignPayload : Type := {
  pdfBase64 : value;
  certBase64 : value;
  password : option string;
  name : option string;
  reason : option string;
  location : option string;
  contactInfo : option string;
  pageIndex : value;
  rect : RectArg
}.

(** What a handler answers: [{ error }] or [{ data }]. *)
Inductive Reply : Type :=
| ReplyError (error : string)
| ReplyData (data : string).

(** The calls the signing handler makes to its collaborators, in order. *)
Inductive Call : Type :=
| CallImport (module : string)
| CallLoad
| CallAddPlaceholder (p : Placeholder)
| CallSave
| CallSign.

(** A computation that records the calls made so far and may throw. *)
Definition Traced (A : Type) : Type := list Call * Result A.

Definition tret {A : Type} (a : A) : Traced A := ([], Ok a).

Definition tbind {A B : Type} (m : Traced A) (k : A -> Traced B) : Traced B :=
  match m with
  | (t, Ok a) => let '(t', r) := k a in ((t ++ t')%list, r)
  | (t, Throw e) => (t, Throw e)
  end.

Definition call {A : Type} (c : Call) (r : Result A) : Traced A := ([c], r).
Definition quiet {A : Type} (r : Result A) : Traced A := ([], r).

Notation "x <~ c ;; k" := (tbind c (fun x => k))
  (at level 61, c at next level, right associativity).

Definition decodeBase64Payload {L : Env} (N : Node L) (data : value)
  (maxBytes : Z) (label : string) : Result bytes :=
  match data with
  | str s =>
      if nonEmpty s then
        let estimatedBytes := (Z.of_nat (String.length s) * 3 / 4)%Z in
        if (estimatedBytes >? maxBytes)%Z then Throw (label ++ " is too large.")
        else
          let buffer := Buffer_from_base64 N s in
          if (Z.of_nat (List.length buffer) >? maxBytes)%Z
          then Throw (label ++ " is too large.")
          else Ok buffer
      else Throw (label ++ " data is missing.")
  | _ => Throw (label ++ " data is missing.")
  end.

(** [Math.min(Math.max(Number(pageIndex) || 0, 0), pages.length - 1)] *)
Definition safePageIndex (L : Env) (pageIndex : value) (pagesLength : nat)
  : number :=
  Math_min
    (Math_max (or_number (Number (StringToNumber L) pageIndex) (Fin 0)) (Fin 0))
    (Fin (inject_Z (Z.of_nat pagesLength - 1))).

Definition orZero (q : option Q) : Q :=
  match q with
  | Some v => v
  | None => 0
  end.

Definition widgetRect (r : RectArg) : list Q :=
  match r with
  | RectArray corners => corners
  | RectObject x y width height =>
      [orZero x; orZero y; orZero x + orZero width; orZero y + orZero height]
  | RectMissing => [0; 0; 0 + 0; 0 + 0]
  end.

(** The [try] block of the handler. *)
Definition signWithP12_try {L : Env} (N : Node L) (payload : SignPayload)
  : Traced Reply :=
  pdfBuffer <~ quiet (decodeBase64Payload N (pdfBase64 payload) MAX_PDF_BYTES "PDF") ;;
  certBuffer <~ quiet (decodeBase64Payload N (certBase64 payload)
                         MAX_CERT_BYTES "Certificate") ;;
  placeholderModule <~ call (CallImport "@signpdf/placeholder-pdf-lib")
                         (import_placeholder N) ;;
  signerModule <~ call (CallImport "@signpdf/signer-p12") (import_signer N) ;;
  signModule <~ call (CallImport "@signpdf/signpdf") (import_signpdf N) ;;
  match placeholderModule, signerModule, signModule with
  | Some pdflibAddPlaceholder, true, Some sign =>
      pdfDoc <~ call CallLoad (load L pdfBuffer) ;;
      let pages := seq 0 (pageCount L pdfDoc) in
      let safe := safePageIndex L (pageIndex payload) (List.length pages) in
      let page := JS.index pages safe in
      let p := {| ph_page := page;
                  ph_reason := orString (reason payload) "Signed with FillForge";
                  ph_contactInfo := orString (contactInfo payload) "";
                  ph_name := orString (name payload) "FillForge User";
                  ph_location := orString (location payload) "";
                  ph_signatureLength := 8192;
                  ph_widgetRect := widgetRect (rect payload) |} in
      pdfDoc <~ call (CallAddPlaceholder p) (pdflibAddPlaceholder pdfDoc p) ;;
      pdfWithPlaceholder <~ call CallSave (save_without_object_streams N pdfDoc) ;;
      signedPdf <~ call CallSign
                     (sign pdfWithPlaceholder certBuffer
                        (orString (password payload) "")) ;;
      tret (ReplyData (Buffer_to_base64 N signedPdf))
  | _, _, _ => tret (ReplyError "Signing modules not available.")
  end.

(** [try { ... } catch (error) { return { error: error.message || ... } }] *)
Definition signWithP12 {L : Env} (N : Node L) (payload : SignPayload)
  : list Call * Reply :=
  match signWithP12_try N payload with
  | (t, Ok reply) => (t, reply)
  | (t, Throw message) =>
      (t, ReplyError (if nonEmpty message then message else "Failed to sign PDF."))
  end.

(** [withTrustedSender(handler)] *)
Definition withTrustedSender {L : Env} (N : Node L)
  (handler : SignPayload -> list Call * Reply)
  (event : Event N) (payload : SignPayload) : list Call * Reply :=
  if negb (isTrustedSender N event) then ([], ReplyError "Untrusted request origin.")
  else handler payload.

(** The handler registered for [pdf:signWithP12]. *)
Definition pdf_signWithP12 {L : Env} (N : Node L)
  : Event N -> SignPayload -> list Call * Reply :=
  withTrustedSender N (signWithP12 N).

(** ** The save handlers and the approved paths *)

(** What the main process does to its host: dialogs shown, keys
    generated, files written. *)
Inductive HostEffect : Type :=
| ShowSaveDialog (title defaultPath : string)
| GenerateKeyPair (bits : Z)
| WriteFile (path : string) (data : bytes).

(** What a certificate is made from; [cert_years] is what is added to the
    current year for [notAfter]. *)
Record CertSpec : Type := {
  cert_serial : string;
  cert_years : number;
  cert_subject : list (string * string);
  cert_password : string
}.

(** The host of the main process: [path.resolve], [path.basename], the
    platform, and node-forge from the key pair to the DER bytes of the
    PKCS#12 container. *)
Record Host : Type := {
  path_resolve : string -> string;
  path_basename : string -> string;
  win32 : bool;
  forge_pkcs12 : CertSpec -> Result bytes
}.

(** The module state ([allowedWritePaths], a [Set] kept in insertion
    order) and the effects so far. *)
Record MainState : Type := {
  allowedWritePaths : list string;
  hostEffects : list HostEffect
}.

(** What a save dialog returns. *)
Record DialogResult : Type := {
  canceled : bool;
  filePath : option string
}.

Definition normalizePath (H : Host) (file : option string) : string :=
  match file with
  | None => ""
  | Some f =>
      if nonEmpty f then
        let resolved := path_resolve H f in
        if win32 H then toLowerCase resolved else resolved
      else ""
  end.

(** [set.has(p)] and [set.add(p)] *)
Definition has (set : list string) (p : string) : bool :=
  existsb (String.eqb p) set.

Definition add (set : list string) (p : string) : list string :=
  if has set p then set else (set ++ [p])%list.

Definition rememberWritePath (H : Host) (file : option string)
  (st : MainState) : MainState :=
  match file with
  | None => st
  | Some f =>
      if nonEmpty f then
        {| allowedWritePaths :=
             add (allowedWritePaths st) (normalizePath H (Some f));
           hostEffects := hostEffects st |}
      else st
  end.

Definition perform (e : HostEffect) (st : MainState) : MainState :=
  {| allowedWritePaths := allowedWritePaths st;
     hostEffects := (hostEffects st ++ [e])%list |}.

(** What a save handler answers: [null], [{ path }] or [{ error }]. *)
Inductive SaveReply : Type :=
| SaveNull
| SavePath (path : string)
| SaveError (error : string).

(** [withTrustedSender] around a handler that returns [run]. *)
Definition guarded {L : Env} (N : Node L) {A : Type} (event : Event N)
  (untrusted run : A) : A :=
  if negb (isTrustedSender N event) then untrusted else run.

(** The path a dialog gave, unless it was dismissed. *)
Definition chosen (dialog : DialogResult) : option string :=
  if canceled dialog then None
  else match filePath dialog with
       | Some f => if nonEmpty f then Some f else None
       | None => None
       end.

(** [dialog:savePdf]: [dialog] is what the user does with the dialog. *)
Definition dialog_savePdf {L : Env} (N : Node L) (H : Host)
  (event : Event N) (dialog : DialogResult) (name : option string)
  (data : value) (st : MainState) : MainState * Result SaveReply :=
  guarded N event (st, Ok (SaveError "Untrusted request origin."))
    (let st :=
       perform (ShowSaveDialog "Export PDF"
                  (orString name "fillforge-export.pdf")) st in
     match chosen dialog with
     | None => (st, Ok SaveNull)
     | Some file =>
         match decodeBase64Payload N data MAX_PDF_BYTES "PDF" with
         | Throw e => (st, Throw e)
         | Ok buffer =>
             (rememberWritePath H (Some file) (perform (WriteFile file buffer) st),
              Ok (SavePath file))
         end
     end).

(** [dialog:savePdfPath] *)
Definition dialog_savePdfPath {L : Env} (N : Node L) (H : Host)
  (event : Event N) (dialog : DialogResult) (name : option string)
  (st : MainState) : MainState * Result SaveReply :=
  guarded N event (st, Ok (SaveError "Untrusted request origin."))
    (let st :=
       perform (ShowSaveDialog "Export PDF"
                  (orString name "fillforge-export.pdf")) st in
     match chosen dialog with
     | None => (st, Ok SaveNull)
     | Some file => (rememberWritePath H (Some file) st, Ok (SavePath file))
     end).

(** [file:writePdf] *)
Definition file_writePdf {L : Env} (N : Node L) (H : Host)
  (event : Event N) (file : option string) (data : value) (st : MainState)
  : MainState * Result SaveReply :=
  guarded N event (st, Ok (SaveError "Untrusted request origin."))
    (match file with
     | None => (st, Ok SaveNull)
     | Some f =>
         if negb (nonEmpty f) || negb (truthy data) then (st, Ok SaveNull)
         else
           let normalizedPath := normalizePath H (Some f) in
           if negb (has (allowedWritePaths st) normalizedPath)
           then (st, Ok (SaveError "Save path not approved."))
           else
             match decodeBase64Payload N data MAX_PDF_BYTES "PDF" with
             | Throw e => (st, Throw e)
             | Ok buffer => (perform (WriteFile f buffer) st, Ok (SavePath f))
             end
     end).

(** ** Self-signed certificates *)

Record CertForm : Type := {
  form_commonName : option string;
  form_organization : option string;
  form_orgUnit : option string;
  form_country : option string;
  form_state : option string;
  form_locality : option string;
  form_email : option string;
  form_password : option string;
  form_validityYears : value
}.

(** [value ? { name, value } : null], kept by [filter(Boolean)] when not
    [null]. *)
Definition attribute (label : string) (v : option string)
  : list (string * string) :=
  match v with
  | Some text => if nonEmpty text then [(label, text)] else []
  | None => []
  end.

Definition subjectOf (form : CertForm) : list (string * string) :=
  ([("commonName", orString (form_commonName form) "FillForge User")]
   ++ attribute "organizationName" (form_organization form)
   ++ attribute "organizationalUnitName" (form_orgUnit form)
   ++ attribute "countryName" (form_country form)
   ++ attribute "stateOrProvinceName" (form_state form)
   ++ attribute "localityName" (form_locality form)
   ++ attribute "emailAddress" (form_email form))%list.

(** What [cert:createSelfSigned] answers. *)
Inductive CertReply : Type :=
| CertNull
| CertError (error : string)
| CertCreated (path name data : string).

(** [cert:createSelfSigned]; the whole body is in a [try]. *)
Definition cert_createSelfSigned {L : Env} (N : Node L) (H : Host)
  (event : Event N) (dialog : DialogResult) (form : CertForm)
  (st : MainState) : MainState * CertReply :=
  guarded N event (st, CertError "Untrusted request origin.")
    (if negb (nonEmpty (orString (form_password form) ""))
     then (st, CertError "Certificate password is required.")
     else
       let st :=
         perform (ShowSaveDialog "Save Certificate" "fillforge-certificate.p12")
           st in
       match chosen dialog with
       | None => (st, CertNull)
       | Some file =>
           let st := perform (GenerateKeyPair 2048) st in
           let spec :=
             {| cert_serial := decimal (Date_now L);
                cert_years :=
                  or_number
                    (Number (StringToNumber L) (form_validityYears form))
                    (Fin 2);
                cert_subject := subjectOf form;
                cert_password := orString (form_password form) "" |} in
           match forge_pkcs12 H spec with
           | Throw message =>
               (st, CertError (if nonEmpty message then message
                               else "Failed to create certificate."))
           | Ok buffer =>
               (rememberWritePath H (Some file)
                  (perform (WriteFile file buffer) st),
                CertCreated file (path_basename H file)
                  (Buffer_to_base64 N buffer))
           end
       end).

End Main.

(* ================================================================== *)
(** * The application component: draft store, gestures and export *)
(* ================================================================== *)

Module App.

Import PdfUtils.

Inductive Tool : Type := PAN | TEXT | TEXT_FIELD | CHECKBOX | SIGNATURE.

Definition Tool_eqb (a b : Tool) : bool :=
  match a, b with
  | PAN, PAN | TEXT, TEXT | TEXT_FIELD, TEXT_FIELD
  | CHECKBOX, CHECKBOX | SIGNATURE, SIGNATURE => true
  | _, _ => false
  end.

(** [placementDefaults[tool]], when the table has the entry. *)
Definition placementDefaults (tool : Tool) : option (Q * Q) :=
  match tool with
  | TEXT_FIELD => Some (220, 36)
  | CHECKBOX => Some (28, 28)
  | SIGNATURE => Some (200, 80)
  | _ => None
  end.

Definition bytesToBase64 (L : Env) (data : bytes) : string :=
  btoa L (string_of_list_ascii (map (fun v => ascii_of_N (Z.to_N v)) data)).

Definition base64ToBytes (L : Env) (base64 : string) : Result bytes :=
  binary <- atob L base64 ;;
  Ok (charCodes binary).

Definition clamp (value min max : Q) : Q := Qmin (Qmax value min) max.

(** A pending edit.  An entry the object does not have is [None]. *)
Record Draft : Type := mkDraft {
  draft_id : string;
  draft_type : Tool;
  draft_pageIndex : nat;
  draft_x : Q;
  draft_y : Q;
  draft_width : Q;
  draft_height : Q;
  draft_text : option string;
  draft_size : option Q;
  draft_fontFamily : option string;
  draft_fontWeight : option string;
  draft_fontStyle : option string;
  draft_underline : option bool;
  draft_color : option string;
  draft_fieldName : option string;
  draft_dataUrl : option string
}.

(** A draft with the given identity and rectangle and no other entry. *)
Definition newDraft (id : string) (type : Tool) (pageIndex : nat)
  (x y width height : Q) : Draft :=
  mkDraft id type pageIndex x y width height
    None None None None None None None None None.

Definition withRect (x y width height : Q) (d : Draft) : Draft :=
  mkDraft (draft_id d) (draft_type d) (draft_pageIndex d) x y width height
    (draft_text d) (draft_size d) (draft_fontFamily d) (draft_fontWeight d)
    (draft_fontStyle d) (draft_underline d) (draft_color d)
    (draft_fieldName d) (draft_dataUrl d).

(** The viewport pdf.js returns for a page at the current scale. *)
Record Viewport : Type := {
  vp_width : Q;
  vp_height : Q;
  convertToPdfPoint : Q -> Q -> Q * Q
}.

(** The rectangle being drawn during a drag-to-draw gesture. *)
Record DraftBox : Type := {
  box_pageIndex : nat;
  box_x : Q;
  box_y : Q;
  box_width : Q;
  box_height : Q
}.

(** A drag-to-draw gesture: the page, the canvas corner on screen and the
    point where it started. *)
Record Drag : Type := {
  drag_pageIndex : nat;
  drag_left : Q;
  drag_top : Q;
  drag_startX : Q;
  drag_startY : Q;
  drag_didDrag : bool
}.

Inductive Mode : Type := Move | Resize.

(** A gesture on an existing draft. *)
Record DragState : Type := {
  ds_id : string;
  ds_startX : Q;
  ds_startY : Q;
  ds_draft : Draft;
  ds_mode : Mode;
  ds_handle : string
}.

(** What [pdfBytes] may hold: [normalizePdfBytes] tells the three apart. *)
Inductive PdfData : Type :=
| AsUint8Array (data : bytes)
| AsArrayBuffer (data : bytes)
| AsString (base64 : string).

(** What leaves the component: console messages and the calls that hand
    bytes to the save collaborator or to the browser. *)
Inductive Effect : Type :=
| ConsoleError (label message : string)
| WritePdf (path data : string)
| SavePdf (name data : string)
| Download (data : bytes) (filename : string).

(** The state variables and refs of the component the modelled handlers
    touch; [log] collects the effects. *)
Record State : Type := mkState {
  pdfBytes : option PdfData;
  pdfName : string;
  isSigned : bool;
  activeTool : Tool;
  scale : Q;
  textDraft : string;
  fieldNameDraft : string;
  signatureDataUrl : string;
  drafts : list Draft;
  selectedDraftId : option string;
  textFieldDraft : option DraftBox;
  textDraftBox : option DraftBox;
  certificateData : string;
  certificatePassword : string;
  signerName : string;
  signReason : string;
  signLocation : string;
  signContact : string;
  includeVisualSignature : bool;
  signError : string;
  statusMessage : option (string * string);
  pageViewports : list (option Viewport);
  dragState : option DragState;
  lastScale : Q;
  textFieldDrag : option Drag;
  textDrag : option Drag;
  log : list Effect
}.

Definition set_pdfBytes (v : option PdfData) (s : State) : State :=
  mkState v (pdfName s) (isSigned s) (activeTool s) (scale s) (textDraft s)
    (fieldNameDraft s) (signatureDataUrl s) (drafts s) (selectedDraftId s)
    (textFieldDraft s) (textDraftBox s) (certificateData s)
    (certificatePassword s) (signerName s) (signReason s) (signLocation s)
    (signContact s) (includeVisualSignature s) (signError s)
    (statusMessage s) (pageViewports s) (dragState s) (lastScale s)
    (textFieldDrag s) (textDrag s) (log s).

Definition set_pdfName (v : string) (s : State) : State :=
  mkState (pdfBytes s) v (isSigned s) (activeTool s) (scale s) (textDraft s)
    (fieldNameDraft s) (signatureDataUrl s) (drafts s) (selectedDraftId s)
    (textFieldDraft s) (textDraftBox s) (certificateData s)
    (certificatePassword s) (signerName s) (signReason s) (signLocation s)
    (signContact s) (includeVisualSignature s) (signError s)
    (statusMessage s) (pageViewports s) (dragState s) (lastScale s)
    (textFieldDrag s) (textDrag s) (log s).

Definition set_isSigned (v : bool) (s : State) : State :=
  mkState (pdfBytes s) (pdfName s) v (activeTool s) (scale s) (textDraft s)
    (fieldNameDraft s) (signatureDataUrl s) (drafts s) (selectedDraftId s)
    (textFieldDraft s) (textDraftBox s) (certificateData s)
    (certificatePassword s) (signerName s) (signReason s) (signLocation s)
    (signContact s) (includeVisualSignature s) (signError s)
    (statusMessage s) (pageViewports s) (dragState s) (lastScale s)
    (textFieldDrag s) (textDrag s) (log s).

Definition set_scale (v : Q) (s : State) : State :=
  mkState (pdfBytes s) (pdfName s) (isSigned s) (activeTool s) v
    (textDraft s) (fieldNameDraft s) (signatureDataUrl s) (drafts s)
    (selectedDraftId s) (textFieldDraft s) (textDraftBox s)
    (certificateData s) (certificatePassword s) (signerName s)
    (signReason s) (signLocation s) (signContact s)
    (includeVisualSignature s) (signError s) (statusMessage s)
    (pageViewports s) (dragState s) (lastScale s) (textFieldDrag s)
    (textDrag s) (log s).

Definition set_drafts (v : list Draft) (s : State) : State :=
  mkState (pdfBytes s) (pdfName s) (isSigned s) (activeTool s) (scale s)
    (textDraft s) (fieldNameDraft s) (signatureDataUrl s) v
    (selectedDraftId s) (textFieldDraft s) (textDraftBox s)
    (certificateData s) (certificatePassword s) (signerName s)
    (signReason s) (signLocation s) (signContact s)
    (includeVisualSignature s) (signError s) (statusMessage s)
    (pageViewports s) (dragState s) (lastScale s) (textFieldDrag s)
    (textDrag s) (log s).

Definition set_selectedDraftId (v : option string) (s : State) : State :=
  mkState (pdfBytes s) (pdfName s) (isSigned s) (activeTool s) (scale s)
    (textDraft s) (fieldNameDraft s) (signatureDataUrl s) (drafts s) v
    (textFieldDraft s) (textDraftBox s) (certificateData s)
    (certificatePassword s) (signerName s) (signReason s) (signLocation s)
    (signContact s) (includeVisualSignature s) (signError s)
    (statusMessage s) (pageViewports s) (dragState s) (lastScale s)
    (textFieldDrag s) (textDrag s) (log s).

Definition set_textFieldDraft (v : option DraftBox) (s : State) : State :=
  mkState (pdfBytes s) (pdfName s) (isSigned s) (activeTool s) (scale s)
    (textDraft s) (fieldNameDraft s) (signatureDataUrl s) (drafts s)
    (selectedDraftId s) v (textDraftBox s) (certificateData s)
    (certificatePassword s) (signerName s) (signReason s) (signLocation s)
    (signContact s) (includeVisualSignature s) (signError s)
    (statusMessage s) (pageViewports s) (dragState s) (lastScale s)
    (textFieldDrag s) (textDrag s) (log s).

Definition set_textDraftBox (v : option DraftBox) (s : State) : State :=
  mkState (pdfBytes s) (pdfName s) (isSigned s) (activeTool s) (scale s)
    (textDraft s) (fieldNameDraft s) (signatureDataUrl s) (drafts s)
    (selectedDraftId s) (textFieldDraft s) v (certificateData s)
    (certificatePassword s) (signerName s) (signReason s) (signLocation s)
    (signContact s) (includeVisualSignature s) (signError s)
    (statusMessage s) (pageViewports s) (dragState s) (lastScale s)
    (textFieldDrag s) (textDrag s) (log s).

Definition set_signError (v : string) (s : State) : State :=
  mkState (pdfBytes s) (pdfName s) (isSigned s) (activeTool s) (scale s)
    (textDraft s) (fieldNameDraft s) (signatureDataUrl s) (drafts s)
    (selectedDraftId s) (textFieldDraft s) (textDraftBox s)
    (certificateData s) (certificatePassword s) (signerName s)
    (signReason s) (signLocation s) (signContact s)
    (includeVisualSignature s) v (statusMessage s) (pageViewports s)
    (dragState s) (lastScale s) (textFieldDrag s) (textDrag s) (log s).

Definition set_statusMessage (v : option (string * string)) (s : State) : State :=
  mkState (pdfBytes s) (pdfName s) (isSigned s) (activeTool s) (scale s)
    (textDraft s) (fieldNameDraft s) (signatureDataUrl s) (drafts s)
    (selectedDraftId s) (textFieldDraft s) (textDraftBox s)
    (certificateData s) (certificatePassword s) (signerName s)
    (signReason s) (signLocation s) (signContact s)
    (includeVisualSignature s) (signError s) v (pageViewports s)
    (dragState s) (lastScale s) (textFieldDrag s) (textDrag s) (log s).

Definition set_dragState (v : option DragState) (s : State) : State :=
  mkState (pdfBytes s) (pdfName s) (isSigned s) (activeTool s) (scale s)
    (textDraft s) (fieldNameDraft s) (signatureDataUrl s) (drafts s)
    (selectedDraftId s) (textFieldDraft s) (textDraftBox s)
    (certificateData s) (certificatePassword s) (signerName s)
    (signReason s) (signLocation s) (signContact s)
    (includeVisualSignature s) (signError s) (statusMessage s)
    (pageViewports s) v (lastScale s) (textFieldDrag s) (textDrag s) (log s).

Definition set_lastScale (v : Q) (s : State) : State :=
  mkState (pdfBytes s) (pdfName s) (isSigned s) (activeTool s) (scale s)
    (textDraft s) (fieldNameDraft s) (signatureDataUrl s) (drafts s)
    (selectedDraftId s) (textFieldDraft s) (textDraftBox s)
    (certificateData s) (certificatePassword s) (signerName s)
    (signReason s) (signLocation s) (signContact s)
    (includeVisualSignature s) (signError s) (statusMessage s)
    (pageViewports s) (dragState s) v (textFieldDrag s) (textDrag s) (log s).

Definition set_textFieldDrag (v : option Drag) (s : State) : State :=
  mkState (pdfBytes s) (pdfName s) (isSigned s) (activeTool s) (scale s)
    (textDraft s) (fieldNameDraft s) (signatureDataUrl s) (drafts s)
    (selectedDraftId s) (textFieldDraft s) (textDraftBox s)
    (certificateData s) (certificatePassword s) (signerName s)
    (signReason s) (signLocation s) (signContact s)
    (includeVisualSignature s) (signError s) (statusMessage s)
    (pageViewports s) (dragState s) (lastScale s) v (textDrag s) (log s).

Definition set_textDrag (v : option Drag) (s : State) : State :=
  mkState (pdfBytes s) (pdfName s) (isSigned s) (activeTool s) (scale s)
    (textDraft s) (fieldNameDraft s) (signatureDataUrl s) (drafts s)
    (selectedDraftId s) (textFieldDraft s) (textDraftBox s)
    (certificateData s) (certificatePassword s) (signerName s)
    (signReason s) (signLocation s) (signContact s)
    (includeVisualSignature s) (signError s) (statusMessage s)
    (pageViewports s) (dragState s) (lastScale s) (textFieldDrag s) v
    (log s).

Definition set_log (v : list Effect) (s : State) : State :=
  mkState (pdfBytes s) (pdfName s) (isSigned s) (activeTool s) (scale s)
    (textDraft s) (fieldNameDraft s) (signatureDataUrl s) (drafts s)
    (selectedDraftId s) (textFieldDraft s) (textDraftBox s)
    (certificateData s) (certificatePassword s) (signerName s)
    (signReason s) (signLocation s) (signContact s)
    (includeVisualSignature s) (signError s) (statusMessage s)
    (pageViewports s) (dragState s) (lastScale s) (textFieldDrag s)
    (textDrag s) v.

(** The canvas under the pointer: its page and its corner on screen. *)
Record Canvas : Type := {
  canvas_pageIndex : nat;
  canvas_left : Q;
  canvas_top : Q
}.

Record PointerEvent : Type := {
  clientX : Q;
  clientY : Q;
  onOverlay : bool;
  canvas : option Canvas
}.

(** [!pdfBytes] *)
Definition noPdf (s : State) : bool :=
  match pdfBytes s with
  | None => true
  | Some (AsString base64) => negb (nonEmpty base64)
  | Some _ => false
  end.

(** [pageViewportsRef.current[pageIndex]] *)
Definition viewportAt (s : State) (pageIndex : nat) : option Viewport :=
  match nth_error (pageViewports s) pageIndex with
  | Some (Some viewport) => Some viewport
  | _ => None
  end.

(** [flashStatus(message, tone)]; the timer that clears the message later
    is not modelled. *)
Definition flashStatus (message tone : string) (s : State) : State :=
  set_statusMessage (Some (message, tone)) s.

Definition addDraft (draft : Draft) (s : State) : State :=
  set_selectedDraftId (Some (draft_id draft))
    (set_drafts (drafts s ++ [draft]) s).

(** [newId] is what [createDraftId()] returns for this call. *)
Definition handleCanvasClick (newId : string) (event : PointerEvent)
  (s : State) : State :=
  if noPdf s || isSigned s then s
  else
    match activeTool s with
    | PAN => set_selectedDraftId None s
    | TEXT_FIELD | TEXT => s
    | tool =>
        match canvas event with
        | None => s
        | Some cv =>
            let pageIndex := canvas_pageIndex cv in
            let clickX := clientX event - canvas_left cv in
            let clickY := clientY event - canvas_top cv in
            match viewportAt s pageIndex with
            | None => s
            | Some viewport =>
                let '(width, height) :=
                  match placementDefaults tool with
                  | Some defaults => defaults
                  | None => (140, 40)
                  end in
                if Tool_eqb tool SIGNATURE && negb (nonEmpty (signatureDataUrl s))
                then s
                else
                  let maxX := vp_width viewport - width in
                  let maxY := vp_height viewport - height in
                  let draft :=
                    newDraft newId tool pageIndex
                      (clamp (clickX - width / 2) 0 maxX)
                      (clamp (clickY - height / 2) 0 maxY)
                      width height in
                  let draft :=
                    if Tool_eqb tool TEXT_FIELD || Tool_eqb tool CHECKBOX
                    then mkDraft (draft_id draft) (draft_type draft)
                           (draft_pageIndex draft) (draft_x draft) (draft_y draft)
                           (draft_width draft) (draft_height draft)
                           None None None None None None None
                           (Some (trim (fieldNameDraft s))) None
                    else draft in
                  let draft :=
                    if Tool_eqb tool SIGNATURE
                    then mkDraft (draft_id draft) (draft_type draft)
                           (draft_pageIndex draft) (draft_x draft) (draft_y draft)
                           (draft_width draft) (draft_height draft)
                           None None None None None None None
                           (draft_fieldName draft) (Some (signatureDataUrl s))
                    else draft in
                  addDraft draft s
            end
        end
    end.

(** The rectangle spanned by the start of a drag and the pointer, the
    pointer being held within the viewport. *)
Definition dragBox (drag : Drag) (viewport : Viewport) (event : PointerEvent)
  : DraftBox :=
  let x := clamp (clientX event - drag_left drag) 0 (vp_width viewport) in
  let y := clamp (clientY event - drag_top drag) 0 (vp_height viewport) in
  let left := Qmin (drag_startX drag) x in
  let top := Qmin (drag_startY drag) y in
  let width := Qabs (x - drag_startX drag) in
  let height := Qabs (y - drag_startY drag) in
  {| box_pageIndex := drag_pageIndex drag;
     box_x := left; box_y := top; box_width := width; box_height := height |}.

Definition dragged (drag : Drag) : Drag :=
  {| drag_pageIndex := drag_pageIndex drag;
     drag_left := drag_left drag; drag_top := drag_top drag;
     drag_startX := drag_startX drag; drag_startY := drag_startY drag;
     drag_didDrag := true |}.

Definition handleTextFieldPointerMove (event : PointerEvent) (s : State)
  : State :=
  match textFieldDrag s with
  | None => s
  | Some drag =>
      match viewportAt s (drag_pageIndex drag) with
      | None => s
      | Some viewport =>
          set_textFieldDraft (Some (dragBox drag viewport event))
            (set_textFieldDrag (Some (dragged drag)) s)
      end
  end.

Definition handleTextFieldPointerUp (newId : string) (s : State) : State :=
  match textFieldDrag s with
  | None => s
  | Some drag =>
      let draftState := textFieldDraft s in
      let s := set_textFieldDrag None s in
      match draftState with
      | None => set_textFieldDraft None s
      | Some box =>
          if negb (Qle_bool 8 (box_width box)) || negb (Qle_bool 8 (box_height box))
          then set_textFieldDraft None s
          else
            let draft :=
              mkDraft newId TEXT_FIELD (box_pageIndex box)
                (box_x box) (box_y box) (box_width box) (box_height box)
                None None None None None None None
                (Some (trim (fieldNameDraft s))) None in
            addDraft draft (set_textFieldDraft None s)
      end
  end.

Definition handleTextPointerMove (event : PointerEvent) (s : State) : State :=
  match textDrag s with
  | None => s
  | Some drag =>
      match viewportAt s (drag_pageIndex drag) with
      | None => s
      | Some viewport =>
          set_textDraftBox (Some (dragBox drag viewport event))
            (set_textDrag (Some (dragged drag)) s)
      end
  end.

Definition handleTextPointerUp (newId : string) (s : State) : State :=
  match textDrag s with
  | None => s
  | Some drag =>
      let draftState := textDraftBox s in
      let s := set_textDrag None s in
      let minWidth := 140 in
      let minHeight := 32 in
      let viewport := viewportAt s (drag_pageIndex drag) in
      let width :=
        Qmax (match draftState with Some box => box_width box | None => 0 end)
          minWidth in
      let height :=
        Qmax (match draftState with Some box => box_height box | None => 0 end)
          minHeight in
      let startX :=
        match draftState with Some box => box_x box | None => drag_startX drag end in
      let startY :=
        match draftState with Some box => box_y box | None => drag_startY drag end in
      let maxX :=
        match viewport with Some v => Qmax (vp_width v - width) 0 | None => 0 end in
      let maxY :=
        match viewport with Some v => Qmax (vp_height v - height) 0 | None => 0 end in
      let draft :=
        mkDraft newId TEXT (drag_pageIndex drag)
          (clamp startX 0 maxX) (clamp startY 0 maxY) width height
          (Some (trim (textDraft s)))
          (Some (clamp (Math_round (height * (6 # 10))) 10 36))
          (Some "helvetica") (Some "normal") (Some "normal") (Some false)
          (Some "#0d1117") None None in
      addDraft draft (set_textDraftBox None s)
  end.

Definition handleViewerPointerDown (event : PointerEvent) (s : State) : State :=
  if noPdf s || isSigned s || isSigned s then s
  else if negb (Tool_eqb (activeTool s) TEXT_FIELD)
          && negb (Tool_eqb (activeTool s) TEXT) then s
  else if onOverlay event then s
  else
    match canvas event with
    | None => s
    | Some cv =>
        let pageIndex := canvas_pageIndex cv in
        let startX := clientX event - canvas_left cv in
        let startY := clientY event - canvas_top cv in
        let drag :=
          {| drag_pageIndex := pageIndex;
             drag_left := canvas_left cv; drag_top := canvas_top cv;
             drag_startX := startX; drag_startY := startY;
             drag_didDrag := false |} in
        let box :=
          {| box_pageIndex := pageIndex; box_x := startX; box_y := startY;
             box_width := 1; box_height := 1 |} in
        if Tool_eqb (activeTool s) TEXT_FIELD
        then set_textFieldDraft (Some box) (set_textFieldDrag (Some drag) s)
        else set_textDraftBox (Some box) (set_textDrag (Some drag) s)
    end.

Definition updateDraft (draftId : string) (updates : Draft -> Draft)
  (s : State) : State :=
  set_drafts
    (map (fun draft =>
            if String.eqb (draft_id draft) draftId then updates draft else draft)
       (drafts s)) s.

Definition removeDraft (draftId : string) (s : State) : State :=
  set_selectedDraftId
    (match selectedDraftId s with
     | Some current => if String.eqb current draftId then None else Some current
     | None => None
     end)
    (set_drafts
       (filter (fun draft => negb (String.eqb (draft_id draft) draftId))
          (drafts s)) s).

Definition clampDraft (s : State) (next : Draft) : Draft :=
  match viewportAt s (draft_pageIndex next) with
  | None => next
  | Some viewport =>
      let width := Qmin (draft_width next) (vp_width viewport) in
      let height := Qmin (draft_height next) (vp_height viewport) in
      let maxX := Qmax 0 (vp_width viewport - width) in
      let maxY := Qmax 0 (vp_height viewport - height) in
      withRect (clamp (draft_x next) 0 maxX) (clamp (draft_y next) 0 maxY)
        width height next
  end.

Definition startDrag (event : PointerEvent) (draft : Draft) (mode : Mode)
  (handle : string) (s : State) : State :=
  if isSigned s then s
  else
    set_dragState
      (Some {| ds_id := draft_id draft;
               ds_startX := clientX event; ds_startY := clientY event;
               ds_draft := draft; ds_mode := mode; ds_handle := handle |})
      (set_selectedDraftId (Some (draft_id draft)) s).

Definition handleDraftPointerDown (event : PointerEvent) (draft : Draft)
  : State -> State :=
  startDrag event draft Move "".

Definition handleDraftHandlePointerDown (event : PointerEvent) (draft : Draft)
  (handle : string) : State -> State :=
  startDrag event draft Resize handle.

(** [handle.includes(c)] for a one-character [c]. *)
Fixpoint includes (c : ascii) (handle : string) : bool :=
  match handle with
  | String d rest => Ascii.eqb c d || includes c rest
  | EmptyString => false
  end.

(** The rectangle a gesture asks for, before it is clamped. *)
Definition draggedDraft (drag : DragState) (event : PointerEvent) : Draft :=
  let deltaX := clientX event - ds_startX drag in
  let deltaY := clientY event - ds_startY drag in
  let d := ds_draft drag in
  let minSize := if Tool_eqb (draft_type d) CHECKBOX then 18 else 36 in
  match ds_mode drag with
  | Move =>
      withRect (draft_x d + deltaX) (draft_y d + deltaY)
        (draft_width d) (draft_height d) d
  | Resize =>
      let handle := ds_handle drag in
      let width :=
        if includes "e" handle then Qmax minSize (draft_width d + deltaX)
        else draft_width d in
      let height :=
        if includes "s" handle then Qmax minSize (draft_height d + deltaY)
        else draft_height d in
      let '(x, width) :=
        if includes "w" handle then
          let newWidth := Qmax minSize (draft_width d - deltaX) in
          (draft_x d + (draft_width d - newWidth), newWidth)
        else (draft_x d, width) in
      let '(y, height) :=
        if includes "n" handle then
          let newHeight := Qmax minSize (draft_height d - deltaY) in
          (draft_y d + (draft_height d - newHeight), newHeight)
        else (draft_y d, height) in
      withRect x y width height d
  end.

Definition handleDraftPointerMove (event : PointerEvent) (s : State) : State :=
  match dragState s with
  | None => s
  | Some drag =>
      let next := clampDraft s (draggedDraft drag event) in
      set_drafts
        (map (fun draft =>
                if String.eqb (draft_id draft) (ds_id drag) then next else draft)
           (drafts s)) s
  end.

Definition handleDraftPointerUp (s : State) : State := set_dragState None s.

(** The effect that follows a change of [scale] or of the number of
    drafts. *)
Definition rescaleDraft (ratio : Q) (draft : Draft) : Draft :=
  withRect (draft_x draft * ratio) (draft_y draft * ratio)
    (draft_width draft * ratio) (draft_height draft * ratio) draft.

Definition rescaleEffect (s : State) : State :=
  let last := lastScale s in
  let s' :=
    if negb (Nat.eqb (List.length (drafts s)) 0)
       && negb (Qeq_bool last 0)
       && negb (Qeq_bool (scale s) last)
    then
      let ratio := scale s / last in
      set_drafts (map (rescaleDraft ratio) (drafts s)) s
    else s in
  set_lastScale (scale s) s'.

(** [setScale(value)] followed by the effect it triggers. *)
Definition changeScale (value : Q) (s : State) : State :=
  rescaleEffect (set_scale value s).

(** ** Export *)

(** [window.pdfApi]: each entry may be absent; a call may reject.  The
    save dialog answers with a path or with nothing. *)
Record PdfApi : Type := {
  savePdfPath : option (string -> Result (option string));
  writePdf : option (string -> string -> Result unit);
  savePdf : option (string -> string -> Result unit);
  signPdf : option (Main.SignPayload -> Result (option Main.Reply))
}.

Definition entry {A : Type} (window : option PdfApi)
  (get : PdfApi -> option A) : option A :=
  match window with
  | Some api => get api
  | None => None
  end.

Definition normalizePdfBytes (L : Env) (v : option PdfData) : option bytes :=
  match v with
  | None => None
  | Some (AsUint8Array data) => Some data
  | Some (AsArrayBuffer data) => Some data
  | Some (AsString base64) =>
      if nonEmpty base64 then
        match base64ToBytes L base64 with
        | Ok data => Some data
        | Throw _ => None
        end
      else None
  end.

Definition hasPdfHeader (data : bytes) : bool :=
  match data with
  | b0 :: b1 :: b2 :: b3 :: _ =>
      ((b0 =? 37) && (b1 =? 80) && (b2 =? 68) && (b3 =? 70))%Z
  | _ => false
  end.

Definition invalidAfter (context : string) : string :=
  "Invalid PDF data after " ++ context ++ ".".

Definition ensurePdf (data : bytes) (context : string) : Result unit :=
  if negb (hasPdfHeader data) then Throw (invalidAfter context) else Ok tt.

Record PdfRect : Type := {
  rect_pageIndex : nat;
  rect_x : Q;
  rect_y : Q;
  rect_width : Q;
  rect_height : Q
}.

Definition resolveDraftRect (s : State) (draft : Draft) : option PdfRect :=
  match viewportAt s (draft_pageIndex draft) with
  | None => None
  | Some viewport =>
      let '(pdfX1, pdfY1) :=
        convertToPdfPoint viewport (draft_x draft) (draft_y draft) in
      let '(pdfX2, pdfY2) :=
        convertToPdfPoint viewport (draft_x draft + draft_width draft)
          (draft_y draft + draft_height draft) in
      Some {| rect_pageIndex := draft_pageIndex draft;
              rect_x := Qmin pdfX1 pdfX2;
              rect_y := Qmin pdfY1 pdfY2;
              rect_width := Qabs (pdfX2 - pdfX1);
              rect_height := Qabs (pdfY2 - pdfY1) |}
  end.

(** [draft.size || 16] *)
Definition sizeOr16 (draft : Draft) : Q :=
  match draft_size draft with
  | Some size => orQ size 16
  | None => 16
  end.

(** [draft.fieldName || undefined] *)
Definition nameOrUndefined (draft : Draft) : option string :=
  match draft_fieldName draft with
  | Some n => if nonEmpty n then Some n else None
  | None => None
  end.

Definition textOptions (draft : Draft) (rect : PdfRect) : TextOptions :=
  let textY :=
    rect_y rect + rect_height rect - Qmin (sizeOr16 draft) (rect_height rect) in
  let size := sizeOr16 draft in
  {| text_pageIndex := rect_pageIndex rect;
     text_x := rect_x rect + 4;
     text_y := textY;
     text_text := orString (draft_text draft) "";
     text_size := size;
     text_fontFamily := Some (orString (draft_fontFamily draft) "helvetica");
     text_fontWeight := Some (orString (draft_fontWeight draft) "normal");
     text_fontStyle := Some (orString (draft_fontStyle draft) "normal");
     text_underline :=
       match draft_underline draft with Some b => b | None => false end;
     text_color := Some (orString (draft_color draft) "#0d1117");
     text_maxWidth := Qmax (rect_width rect - 8) 40;
     text_lineHeight := size * (12 # 10) |}.

(** The composite call the export loop makes for a draft, with the name
    under which its result is checked; [None] when the loop moves on
    without a call. *)
Definition compositeStep (L : Env) (includeVisual : bool) (nextBytes : bytes)
  (draft : Draft) (rect : PdfRect) : option (Result bytes * string) :=
  match draft_type draft with
  | TEXT =>
      Some (addTextToPdf L nextBytes (textOptions draft rect), "adding text")
  | TEXT_FIELD =>
      Some (addTextFieldToPdf L nextBytes
              {| tf_pageIndex := rect_pageIndex rect;
                 tf_x := rect_x rect; tf_y := rect_y rect;
                 tf_width := rect_width rect; tf_height := rect_height rect;
                 tf_name := nameOrUndefined draft |},
            "adding text field")
  | CHECKBOX =>
      Some (addCheckBoxToPdf L nextBytes
              {| cb_pageIndex := rect_pageIndex rect;
                 cb_x := rect_x rect; cb_y := rect_y rect;
                 cb_size := Qmin (rect_width rect) (rect_height rect);
                 cb_name := nameOrUndefined draft |},
            "adding checkbox")
  | SIGNATURE =>
      if negb includeVisual then None
      else
        match draft_dataUrl draft with
        | None => None
        | Some url =>
            if negb (nonEmpty url) then None
            else
              Some (addSignatureToPdf L nextBytes
                      {| sig_pageIndex := rect_pageIndex rect;
                         sig_x := rect_x rect; sig_y := rect_y rect;
                         sig_width := rect_width rect;
                         sig_height := rect_height rect;
                         sig_dataUrl := Some url |},
                    "adding signature")
        end
  | PAN => None
  end.

(** One round of [for (const draft of drafts)]. *)
Definition applyDraft (L : Env) (s : State) (nextBytes : bytes) (draft : Draft)
  : Result bytes :=
  match resolveDraftRect s draft with
  | None => Ok nextBytes
  | Some rect =>
      match compositeStep L (includeVisualSignature s) nextBytes draft rect with
      | None => Ok nextBytes
      | Some (step, context) =>
          nextBytes <- step ;;
          _ <- ensurePdf nextBytes context ;;
          Ok nextBytes
      end
  end.

Fixpoint composeDrafts (L : Env) (s : State) (nextBytes : bytes)
  (ds : list Draft) : Result bytes :=
  match ds with
  | [] => Ok nextBytes
  | draft :: rest =>
      nextBytes <- applyDraft L s nextBytes draft ;;
      composeDrafts L s nextBytes rest
  end.

(** How the [try] block ends when nothing is thrown: the export goes on
    with the bytes, or the handler has returned leaving a state. *)
Inductive Outcome : Type :=
| Proceed (nextBytes : bytes) (didSign : bool)
| Stop (s : State).

Definition lastSignatureDraft (s : State) : option Draft :=
  last (map Some (filter (fun draft => Tool_eqb (draft_type draft) SIGNATURE)
                    (drafts s))) None.

Definition signRequest (L : Env) (s : State) (nextBytes : bytes)
  (rect : PdfRect) : Main.SignPayload :=
  {| Main.pdfBase64 := str (bytesToBase64 L nextBytes);
     Main.certBase64 := str (certificateData s);
     Main.password := Some (certificatePassword s);
     Main.name := Some (signerName s);
     Main.reason := Some (signReason s);
     Main.location := Some (signLocation s);
     Main.contactInfo := Some (signContact s);
     Main.pageIndex := num (Fin (inject_Z (Z.of_nat (rect_pageIndex rect))));
     Main.rect :=
       Main.RectObject (Some (rect_x rect)) (Some (rect_y rect))
         (Some (rect_width rect)) (Some (rect_height rect)) |}.

Definition signStage (L : Env) (window : option PdfApi) (s : State)
  (nextBytes : bytes) : Result Outcome :=
  match lastSignatureDraft s with
  | None => Ok (Proceed nextBytes false)
  | Some signatureDraft =>
      if negb (nonEmpty (certificateData s)) then Ok (Proceed nextBytes false)
      else
        match entry window signPdf with
        | None =>
            let message :=
              "Digital signing is only available in the desktop app." in
            Ok (Stop (flashStatus message "error" (set_signError message s)))
        | Some sign =>
            match resolveDraftRect s signatureDraft with
            | None => Ok (Stop s)
            | Some rect =>
                result <- sign (signRequest L s nextBytes rect) ;;
                match result with
                | Some (Main.ReplyError error) =>
                    if nonEmpty error
                    then Ok (Stop (flashStatus error "error"
                                     (set_signError error s)))
                    else Ok (Proceed nextBytes false)
                | Some (Main.ReplyData data) =>
                    if nonEmpty data then
                      signed <- base64ToBytes L data ;;
                      _ <- ensurePdf signed "signing" ;;
                      Ok (Proceed signed true)
                    else Ok (Proceed nextBytes false)
                | None => Ok (Proceed nextBytes false)
                end
            end
        end
  end.

(** The write that hands the bytes over, and whether it went through. *)
Definition deliver (window : option PdfApi) (savePath : option string)
  (name data : string) (nextBytes : bytes) : Effect * Result unit :=
  match entry window writePdf, savePath with
  | Some write, Some path => (WritePdf path data, write path data)
  | _, _ =>
      match entry window savePdf with
      | Some save => (SavePdf name data, save name data)
      | None =>
          (Download nextBytes
             (if nonEmpty name then name else "fillforge-export.pdf"), Ok tt)
      end
  end.

Fixpoint isPrefix (p s : string) : bool :=
  match p, s with
  | EmptyString, _ => true
  | String a p', String b s' => Ascii.eqb a b && isPrefix p' s'
  | String _ _, EmptyString => false
  end.

(** [s.includes(p)] *)
Fixpoint includesString (p s : string) : bool :=
  isPrefix p s ||
  match s with
  | String _ rest => includesString p rest
  | EmptyString => false
  end.

(** Does [/\\.pdf$/i] match the whole of [s]: a backslash, one character
    that is not a line break, then [pdf] in either case. *)
Definition matchesSuffix (s : string) : bool :=
  match s with
  | String b (String any rest) =>
      (code b =? 92)%Z
      && negb ((code any =? 10) || (code any =? 13))%Z
      && String.eqb (toLowerCase rest) "pdf"
  | _ => false
  end.

(** [s.replace(/\\.pdf$/i, '')] *)
Fixpoint dropSuffix (s : string) : string :=
  if matchesSuffix s then EmptyString
  else match s with
       | String c rest => String c (dropSuffix rest)
       | EmptyString => EmptyString
       end.

Definition logEffect (e : Effect) (s : State) : State :=
  set_log (log s ++ [e])%list s.

Definition reportFailure (label error message : string) (s : State) : State :=
  flashStatus message "error"
    (set_signError message (logEffect (ConsoleError label error) s)).

(** The tail of [handleExport], once the bytes are written. *)
Definition finishExport (savePath : option string) (nextBytes : bytes)
  (didSign : bool) (s : State) : State :=
  let s := match savePath with
           | Some _ => flashStatus "Export complete." "success" s
           | None => s
           end in
  let s := set_selectedDraftId None
             (set_drafts [] (set_pdfBytes (Some (AsUint8Array nextBytes)) s)) in
  if didSign then
    let s :=
      if negb (includesString "signed" (toLowerCase (pdfName s)))
      then set_pdfName (dropSuffix (pdfName s) ++ "-signed.pdf") s
      else s in
    set_isSigned true s
  else s.

(** [handleExport] from the [try] block on. *)
Definition exportFrom (L : Env) (window : option PdfApi)
  (savePath : option string) (nextBytes : bytes) (s : State) : State :=
  match (composed <- composeDrafts L s nextBytes (drafts s) ;;
         signStage L window s composed) with
  | Throw error =>
      reportFailure "Export failed" error
        "Export failed. Please try again or reopen the PDF." s
  | Ok (Stop s') => s'
  | Ok (Proceed nextBytes didSign) =>
      let data := bytesToBase64 L nextBytes in
      let '(effect, written) :=
        deliver window savePath (pdfName s) data nextBytes in
      let s := logEffect effect s in
      match written with
      | Throw error =>
          reportFailure "Write failed" error
            "Failed to write the PDF. Please try again." s
      | Ok _ => finishExport savePath nextBytes didSign s
      end
  end.

Definition handleExport (L : Env) (window : option PdfApi) (s : State)
  : State :=
  if noPdf s then s
  else
    let s := set_signError "" s in
    match normalizePdfBytes L (pdfBytes s) with
    | None =>
        let message := "PDF data is invalid. Please reopen the document." in
        flashStatus message "error" (set_signError message s)
    | Some nextBytes =>
        if negb (hasPdfHeader nextBytes) then
          let message := "PDF data is invalid. Please reopen the document." in
          flashStatus message "error" (set_signError message s)
        else
          match entry window savePdfPath with
          | Some ask =>
              match ask (pdfName s) with
              | Ok (Some path) =>
                  if nonEmpty path
                  then exportFrom L window (Some path) nextBytes s
                  else s
              | Ok None => s
              | Throw error =>
                  flashStatus "Save dialog failed. Please try again." "error"
                    (logEffect (ConsoleError "Save dialog failed" error) s)
              end
          | None => exportFrom L window None nextBytes s
          end
    end.

End App.

(* ================================================================== *)
(** * A small environment to evaluate the definitions in *)
(* ================================================================== *)

Module Reference.

Import PdfUtils.

(** ** Base64, as [atob] and [btoa] read and write it *)

Definition alphabet : string :=
  "ABCDEFGHIJKLMNOPQRSTUVWXYZabcdefghijklmnopqrstuvwxyz0123456789+/".

Fixpoint position (c : ascii) (s : string) (n : Z) : option Z :=
  match s with
  | String d rest => if Ascii.eqb c d then Some n else position c rest (n + 1)
  | EmptyString => None
  end.

Definition sextet (c : ascii) : option Z := position c alphabet 0.

Definition letter (v : Z) : ascii :=
  match get (Z.to_nat v) alphabet with
  | Some c => c
  | None => "="%char
  end.

Definition isAsciiSpace (c : ascii) : bool :=
  let n := code c in
  ((n =? 9) || (n =? 10) || (n =? 12) || (n =? 13) || (n =? 32))%Z.

Fixpoint sextets (cs : list ascii) : option (list Z) :=
  match cs with
  | [] => Some []
  | c :: rest =>
      match sextet c, sextets rest with
      | Some v, Some vs => Some (v :: vs)
      | _, _ => None
      end
  end.

Fixpoint octets (vs : list Z) : list Z :=
  match vs with
  | a :: b :: c :: d :: rest =>
      (a * 4 + b / 16) :: (b mod 16 * 16 + c / 4) :: (c mod 4 * 64 + d)
      :: octets rest
  | [a; b; c] => [a * 4 + b / 16; b mod 16 * 16 + c / 4]
  | [a; b] => [a * 4 + b / 16]
  | _ => []
  end%Z.

Definition dropPadding (cs : list ascii) : list ascii :=
  if (List.length cs mod 4 =? 0)%nat then
    match rev cs with
    | "="%char :: "="%char :: rest => rev rest
    | "="%char :: rest => rev rest
    | _ => cs
    end
  else cs.

Definition decode64 (data : string) : Result string :=
  let cs :=
    dropPadding
      (filter (fun c => negb (isAsciiSpace c)) (list_ascii_of_string data)) in
  if (List.length cs mod 4 =? 1)%nat
  then Throw "The string to be decoded is not correctly encoded."
  else
    match sextets cs with
    | Some vs =>
        Ok (string_of_list_ascii
              (map (fun v => ascii_of_N (Z.to_N v)) (octets vs)))
    | None => Throw "The string to be decoded is not correctly encoded."
    end.

Fixpoint quartets (data : list Z) : list ascii :=
  match data with
  | a :: b :: c :: rest =>
      letter (a / 4) :: letter (a mod 4 * 16 + b / 16)
      :: letter (b mod 16 * 4 + c / 64) :: letter (c mod 64) :: quartets rest
  | [a; b] =>
      [letter (a / 4); letter (a mod 4 * 16 + b / 16); letter (b mod 16 * 4);
       "="%char]
  | [a] => [letter (a / 4); letter (a mod 4 * 16); "="%char; "="%char]
  | [] => []
  end%Z.

Definition encode64 (binary : string) : string :=
  string_of_list_ascii (quartets (charCodes binary)).

(** ** Documents *)

(** A document is its bytes; a call that changes it appends a mark. *)
Definition pdfHeader : bytes := [37; 80; 68; 70]%Z.
Definition pngHeader : bytes := [137; 80; 78; 71]%Z.

Definition startsWith (header data : bytes) : bool :=
  match header, data with
  | [a; b; c; d], a' :: b' :: c' :: d' :: _ =>
      ((a =? a') && (b =? b') && (c =? c') && (d =? d'))%Z
  | _, _ => false
  end.

Definition mark (m : Z) (doc : bytes) : Result bytes := Ok (doc ++ [m])%list.

(** The fields every reference document has. *)
Definition lookup (fieldName : string) : Result (option FieldKind) :=
  if String.eqb fieldName "name" then Ok (Some PDFTextField)
  else if String.eqb fieldName "agree" then Ok (Some PDFCheckBox)
  else if String.eqb fieldName "country" then Ok (Some PDFDropdown)
  else Throw ("PDFDocument has no form field with the name " ++ fieldName).

(** Integers print in decimal; the other numbers are not needed here. *)
Definition printNumber (n : number) : string :=
  match n with
  | NaN => "NaN"
  | Infinity => "Infinity"
  | NegInfinity => "-Infinity"
  | Fin q => decimal (Qfloor q)
  end.

Fixpoint digitsValue (s : string) (acc : Z) : option Z :=
  match s with
  | EmptyString => Some acc
  | String c rest =>
      let n := code c in
      if ((48 <=? n) && (n <=? 57))%Z then digitsValue rest (10 * acc + (n - 48))
      else None
  end.

(** Decimal integer literals are read; every other text is [NaN] here. *)
Definition readNumber (s : string) : number :=
  match s with
  | EmptyString => Fin 0
  | String "-" rest =>
      match rest, digitsValue rest 0 with
      | String _ _, Some v => Fin (inject_Z (- v))
      | _, _ => NaN
      end
  | _ =>
      match digitsValue s 0 with
      | Some v => Fin (inject_Z v)
      | None => NaN
      end
  end.

(** The environment, given how a document is serialised. *)
Definition env_with (serialize : bytes -> Result bytes) : Env :=
  {| Doc := bytes;
     Font := StandardFonts;
     Image := Q * Q;
     Field := FieldKind;
     load := fun data =>
       if startsWith pdfHeader data then Ok data
       else Throw "Failed to parse PDF document: no PDF header found";
     save := serialize;
     pageCount := fun _ => 1%nat;
     embedFont := fun doc f => Ok (doc, f);
     widthOfTextAtSize := fun _ t size =>
       inject_Z (Z.of_nat (String.length t)) * size * (1 # 2);
     drawText := fun doc _ _ _ _ _ _ _ => mark 1 doc;
     drawLine := fun doc _ _ _ _ _ => mark 2 doc;
     createTextField := fun doc _ => Ok (doc, PDFTextField);
     createCheckBox := fun doc _ => Ok (doc, PDFCheckBox);
     addToPage := fun doc _ _ _ => mark 3 doc;
     updateFieldAppearances := fun doc _ => mark 4 doc;
     getField := fun _ fieldName => lookup fieldName;
     fieldKind := fun kind => kind;
     setText := fun doc _ _ => mark 5 doc;
     check := fun doc _ => mark 6 doc;
     uncheck := fun doc _ => mark 7 doc;
     select := fun doc _ _ => mark 8 doc;
     embedPng := fun doc data =>
       if startsWith pngHeader data then Ok (doc, (1, 1))
       else Throw "Input is not a PNG image";
     imageWidth := fun img => fst img;
     imageHeight := fun img => snd img;
     drawImage := fun doc _ _ _ => mark 9 doc;
     atob := decode64;
     btoa := encode64;
     Date_now := 1700000000000;
     NumberToString := printNumber;
     StringToNumber := readNumber |}.

Definition env : Env := env_with (fun doc => Ok doc).

(** A serialiser that loses the document. *)
Definition broken : Env := env_with (fun _ => Ok []).

(** The main process: the sender is trusted when the event says so; the
    placeholder leaves the document as it is and the signature is the
    certificate appended to it. *)
Definition node (L : Env) : Main.Node L :=
  {| Main.Event := bool;
     Main.isTrustedSender := fun trusted => trusted;
     Main.Buffer_from_base64 := fun data =>
       match decode64 data with
       | Ok binary => charCodes binary
       | Throw _ => []
       end;
     Main.Buffer_to_base64 := fun data =>
       encode64 (string_of_list_ascii (map (fun v => ascii_of_N (Z.to_N v)) data));
     Main.import_placeholder := Ok (Some (fun doc _ => Ok doc));
     Main.import_signer := Ok true;
     Main.import_signpdf := Ok (Some (fun pdf cert _ => Ok (pdf ++ cert)%list));
     Main.save_without_object_streams := save L |}.

End Reference.

(* ================================================================== *)
(** * Vocabulary of the statements *)
(* ================================================================== *)

Module Spec.

Import PdfUtils.

(** The hexadecimal digits a six-character colour is made of. *)
Fixpoint hexDigits (s : string) : option (list Z) :=
  match s with
  | EmptyString => Some []
  | String c rest =>
      match hexDigit c, hexDigits rest with
      | Some d, Some ds => Some (d :: ds)
      | _, _ => None
      end
  end.

(** A colour argument [hexToRgb] does not read as six characters. *)
Definition missingOrWrongLength (hex : option string) : Prop :=
  match hex with
  | None => True
  | Some h => h = "" \/ String.length (removeFirst "#" h) <> 6%nat
  end.

Definition channel (high low : Z) : Q := inject_Z (16 * high + low) / inject_Z 255.

Definition inUnitInterval (q : Q) : Prop := 0 <= q /\ q <= 1.

(** A page index at or past the page count. *)
Definition pastLastPage (pagesLength : nat) (k : number) : Prop :=
  match k with
  | Infinity => True
  | Fin q => inject_Z (Z.of_nat pagesLength) <= q
  | _ => False
  end.

(** A page index that is negative or not a number. *)
Definition negativeOrNaN (k : number) : Prop :=
  match k with
  | NaN | NegInfinity => True
  | Fin q => q < 0
  | Infinity => False
  end.

(** A certificate entry that is absent or is the empty text. *)
Definition emptyOrMissing (v : value) : Prop :=
  match v with
  | undefined | null => True
  | str s => s = ""
  | _ => False
  end.

(** A request to sign without a certificate. *)
Definition unsignedRequest : Main.SignPayload :=
  {| Main.pdfBase64 := str "JVBERg==";
     Main.certBase64 := str "";
     Main.password := Some "secret";
     Main.name := None; Main.reason := None; Main.location := None;
     Main.contactInfo := None;
     Main.pageIndex := num (Fin 0);
     Main.rect := Main.RectMissing |}.

(** What follows the write in [setFormFieldValue]. *)
Definition regenerateAndSave (L : Env) (font : Font L) (r : Result (Doc L))
  : Result bytes :=
  pdfDoc <- r ;;
  pdfDoc <- updateFieldAppearances L pdfDoc font ;;
  save L pdfDoc.

(** A data URL that carries nothing after its comma, or has no comma. *)
Definition noBase64Body (url : string) : Prop :=
  match nth_error (splitOn "," url) 1 with
  | Some body => body = ""
  | None => True
  end.

(** An image payload that is missing or empty, in the wide sense: no data
    URL at all, or a data URL without a base64 body. *)
Definition missingOrEmptyPayload (dataUrl : option string) : Prop :=
  match dataUrl with
  | None => True
  | Some url => noBase64Body url
  end.

(** A signature placement with the given image payload. *)
Definition stamp (dataUrl : option string) : SignatureOptions :=
  {| sig_pageIndex := 0; sig_x := 72; sig_y := 72;
     sig_width := 200; sig_height := 80; sig_dataUrl := dataUrl |}.

(** ** Drafts *)

(** The rectangle of a draft lies within the viewport of its page. *)
Definition inside (viewport : App.Viewport) (d : App.Draft) : Prop :=
  0 <= App.draft_x d
  /\ App.draft_x d + App.draft_width d <= App.vp_width viewport
  /\ 0 <= App.draft_y d
  /\ App.draft_y d + App.draft_height d <= App.vp_height viewport.

(** The rectangle being drawn lies within the viewport. *)
Definition boxInside (viewport : App.Viewport) (box : option App.DraftBox)
  : Prop :=
  match box with
  | Some b =>
      0 <= App.box_x b
      /\ App.box_x b + App.box_width b <= App.vp_width viewport
      /\ 0 <= App.box_y b
      /\ App.box_y b + App.box_height b <= App.vp_height viewport
  | None => True
  end.

(** The rectangle being drawn is no larger than the viewport. *)
Definition boxFits (viewport : App.Viewport) (box : option App.DraftBox)
  : Prop :=
  match box with
  | Some b =>
      App.box_width b <= App.vp_width viewport
      /\ App.box_height b <= App.vp_height viewport
  | None => True
  end.

(** The viewport has room for what a click with the tool places. *)
Definition placementFits (viewport : App.Viewport) (tool : App.Tool) : Prop :=
  match App.placementDefaults tool with
  | Some (width, height) =>
      width <= App.vp_width viewport /\ height <= App.vp_height viewport
  | None => 140 <= App.vp_width viewport /\ 40 <= App.vp_height viewport
  end.

(** [d'] is [d] with its rectangle multiplied by [ratio]. *)
Definition scaledBy (ratio : Q) (d d' : App.Draft) : Prop :=
  App.draft_id d' = App.draft_id d
  /\ App.draft_x d' == App.draft_x d * ratio
  /\ App.draft_y d' == App.draft_y d * ratio
  /\ App.draft_width d' == App.draft_width d * ratio
  /\ App.draft_height d' == App.draft_height d * ratio.

Definition sameRect (d d' : App.Draft) : Prop :=
  App.draft_id d' = App.draft_id d
  /\ App.draft_x d' == App.draft_x d
  /\ App.draft_y d' == App.draft_y d
  /\ App.draft_width d' == App.draft_width d
  /\ App.draft_height d' == App.draft_height d.

(** A Letter page shown at scale 1: the conversion flips the vertical
    axis. *)
Definition letterViewport : App.Viewport :=
  {| App.vp_width := 612;
     App.vp_height := 792;
     App.convertToPdfPoint := fun x y => (x, 792 - y) |}.

(** A page too narrow for the default sizes. *)
Definition stripViewport : App.Viewport :=
  {| App.vp_width := 100;
     App.vp_height := 100;
     App.convertToPdfPoint := fun x y => (x, 100 - y) |}.

(** A session on a one-page document shown in the given viewport, holding
    the given bytes and drafts, with the given tool. *)
Definition session (viewport : App.Viewport) (data : bytes)
  (tool : App.Tool) (ds : list App.Draft) : App.State :=
  App.mkState (Some (App.AsUint8Array data)) "form.pdf" false tool 1
    "" "" "data:image/png;base64,iVBORw==" ds None None None
    "" "" "" "" "" "" true "" None [Some viewport] None 1 None None [].

Definition pointerAt (x y : Q) : App.PointerEvent :=
  {| App.clientX := x; App.clientY := y; App.onOverlay := false;
     App.canvas := Some {| App.canvas_pageIndex := 0;
                           App.canvas_left := 0; App.canvas_top := 0 |} |}.

Definition dragFrom (x y : Q) : App.Drag :=
  {| App.drag_pageIndex := 0; App.drag_left := 0; App.drag_top := 0;
     App.drag_startX := x; App.drag_startY := y; App.drag_didDrag := false |}.

Definition checkboxAt (x y : Q) : App.Draft :=
  App.mkDraft "draft-1" App.CHECKBOX 0 x y 28 28
    None None None None None None None (Some "agree") None.

(** ** Export *)

(** The effect hands over exactly the bytes [data]. *)
Definition carries (L : Env) (data : bytes) (e : App.Effect) : Prop :=
  match e with
  | App.WritePdf _ written | App.SavePdf _ written =>
      written = App.bytesToBase64 L data
  | App.Download written _ => written = data
  | App.ConsoleError _ _ => False
  end.

Definition isConsoleError (e : App.Effect) : Prop :=
  match e with
  | App.ConsoleError _ _ => True
  | _ => False
  end.

(** The save dialog, when there is one, answered with [savePath]. *)
Definition saveTarget (window : option App.PdfApi) (name : string)
  (savePath : option string) : Prop :=
  match App.entry window App.savePdfPath with
  | None => savePath = None
  | Some ask =>
      exists path,
        ask name = Ok (Some path) /\ nonEmpty path = true
        /\ savePath = Some path
  end.

(** The name of the composite step of each kind of draft. *)
Definition stepName (type : App.Tool) : string :=
  match type with
  | App.TEXT => "adding text"
  | App.TEXT_FIELD => "adding text field"
  | App.CHECKBOX => "adding checkbox"
  | App.SIGNATURE => "adding signature"
  | App.PAN => ""
  end.

(** ** Wrapped text *)

(** The words joined by single spaces. *)
Fixpoint unwords (ws : list string) : string :=
  match ws with
  | [] => ""
  | w :: rest =>
      match rest with
      | [] => w
      | _ :: _ => w ++ " " ++ unwords rest
      end
  end.

Fixpoint spaceFree (w : string) : bool :=
  match w with
  | EmptyString => true
  | String c rest => negb (isWhiteSpace c) && spaceFree rest
  end.

(** A word: not empty, and without white space. *)
Definition isWord (w : string) : Prop := w <> "" /\ spaceFree w = true.

(** A line made of the words [group] fits: it is at most one word, or it
    measures no more than the width allowed. *)
Definition fits (measure : string -> Q) (maxWidth : Q) (group : list string)
  : Prop :=
  (List.length group <= 1)%nat \/ measure (unwords group) <= maxWidth.

(** Putting text before or after a space never makes a text narrower. *)
Definition monotone (measure : string -> Q) : Prop :=
  forall a b : string,
    measure a <= measure (a ++ " " ++ b) /\ measure b <= measure (a ++ " " ++ b).

(** ** The main process *)

(** The calls of a signing that runs to its end, in order. *)
Definition signingCalls (p : Main.Placeholder) : list Main.Call :=
  [Main.CallImport "@signpdf/placeholder-pdf-lib";
   Main.CallImport "@signpdf/signer-p12";
   Main.CallImport "@signpdf/signpdf";
   Main.CallLoad;
   Main.CallAddPlaceholder p;
   Main.CallSave;
   Main.CallSign].

(** A host whose paths are already resolved and whose certificates are two
    bytes long. *)
Definition plainHost : Main.Host :=
  {| Main.path_resolve := fun f => f;
     Main.path_basename := fun f => f;
     Main.win32 := false;
     Main.forge_pkcs12 := fun _ => Ok [48; 130]%Z |}.

Definition freshMain : Main.MainState :=
  {| Main.allowedWritePaths := []; Main.hostEffects := [] |}.

Definition picked (file : string) : Main.DialogResult :=
  {| Main.canceled := false; Main.filePath := Some file |}.

Definition certForm (password : option string) : Main.CertForm :=
  {| Main.form_commonName := None;
     Main.form_organization := Some "Forge Ltd";
     Main.form_orgUnit := Some "";
     Main.form_country := Some "US";
     Main.form_state := None;
     Main.form_locality := None;
     Main.form_email := None;
     Main.form_password := password;
     Main.form_validityYears := num (Fin 2) |}.

(** What the certificate handler asks node-forge for. *)
Definition certSpecOf (L : Env) (form : Main.CertForm) : Main.CertSpec :=
  {| Main.cert_serial := PdfUtils.decimal (Date_now L);
     Main.cert_years :=
       or_number (Number (StringToNumber L) (Main.form_validityYears form))
         (Fin 2);
     Main.cert_subject := Main.subjectOf form;
     Main.cert_password := PdfUtils.orString (Main.form_password form) "" |}.

(** ** More on the export and the store *)

(** The export left the document, the drafts, the selection, the signed
    flag and the name as they were. *)
Definition documentUntouched (s s' : App.State) : Prop :=
  App.pdfBytes s' = App.pdfBytes s
  /\ App.drafts s' = App.drafts s
  /\ App.selectedDraftId s' = App.selectedDraftId s
  /\ App.isSigned s' = App.isSigned s
  /\ App.pdfName s' = App.pdfName s.

(** The export replaced the document by bytes that carry the PDF header
    and emptied the store. *)
Definition documentReplaced (s' : App.State) : Prop :=
  exists data,
    App.pdfBytes s' = Some (App.AsUint8Array data)
    /\ App.hasPdfHeader data = true
    /\ App.drafts s' = []
    /\ App.selectedDraftId s' = None.

(** The drafts the export loop makes a composite call for. *)
Definition composited (s : App.State) (d : App.Draft) : bool :=
  match App.resolveDraftRect s d with
  | None => false
  | Some _ =>
      match App.draft_type d with
      | App.PAN => false
      | App.SIGNATURE =>
          App.includeVisualSignature s
          && match App.draft_dataUrl d with
             | Some url => PdfUtils.nonEmpty url
             | None => false
             end
      | _ => true
      end
  end.

(** The binary string [bytesToBase64] builds from the bytes. *)
Definition binaryOf (data : bytes) : string :=
  string_of_list_ascii (map (fun v => ascii_of_N (Z.to_N v)) data).

(** [d'] differs from [d] in its rectangle at most. *)
Definition sameButRect (d d' : App.Draft) : Prop :=
  App.withRect (App.draft_x d) (App.draft_y d) (App.draft_width d)
    (App.draft_height d) d' = d.

(** A viewport that scales by [k] and flips the vertical axis of a page of
    height [pageHeight]. *)
Definition scalesAndFlips (vp : App.Viewport) (k pageHeight : Q) : Prop :=
  forall x y,
    fst (App.convertToPdfPoint vp x y) == x / k
    /\ snd (App.convertToPdfPoint vp x y) == pageHeight - y / k.

Definition signatureAt (id : string) (x y : Q) : App.Draft :=
  App.mkDraft id App.SIGNATURE 0 x y 200 80
    None None None None None None None None
    (Some "data:image/png;base64,iVBORw==").

(** The smallest side a resize gives a draft of the given type. *)
Definition minSize (type : App.Tool) : Q :=
  if App.Tool_eqb type App.CHECKBOX then 18 else 36.

(** What a gesture on [d] does to a draft [a] of the store: one with the
    id of [d] becomes [d] with another rectangle, any other is kept. *)
Definition movedOrKept (d a b : App.Draft) : Prop :=
  (App.draft_id a = App.draft_id d /\ sameButRect d b)
  \/ (App.draft_id a <> App.draft_id d /\ b = a).

(** The scale set to each of [vs] in turn. *)
Definition zoom (vs : list Q) (s : App.State) : App.State :=
  fold_left (fun st v => App.changeScale v st) vs s.

(** The handler added nothing, or appended one draft with the new id and
    selected it. *)
Definition appendedOrKept (newId : string) (s s' : App.State) : Prop :=
  App.drafts s' = App.drafts s
  \/ exists d,
       App.drafts s' = (App.drafts s ++ [d])%list
       /\ App.draft_id d = newId
       /\ App.selectedDraftId s' = Some newId.

(** Lines broken no sooner than needed: of two lines that follow each
    other, neither of them empty, the first would measure more than the
    width allowed with the first word of the second added to it. *)
Fixpoint brokenLate (measure : string -> Q) (maxWidth : Q)
  (lines : list string) : Prop :=
  match lines with
  | [] => True
  | a :: rest =>
      match rest with
      | [] => True
      | b :: _ =>
          (a <> "" -> b <> "" ->
           exists w,
             nth_error (words b) 0 = Some w
             /\ maxWidth < measure (a ++ " " ++ w))
          /\ brokenLate measure maxWidth rest
      end
  end.

(** A desktop bridge whose save fails: no dialog, no write by path, and a
    [savePdf] that rejects. *)
Definition fullDisk : App.PdfApi :=
  {| App.savePdfPath := None;
     App.writePdf := None;
     App.savePdf := Some (fun _ _ => Throw "ENOSPC: no space left on device");
     App.signPdf := None |}.

(** ** Drawing gestures *)

(** A text box drawn: the press, the pointer moves and the release. *)
Definition drawTextBox (newId : string) (press : App.PointerEvent)
  (moves : list App.PointerEvent) (s : App.State) : App.State :=
  App.handleTextPointerUp newId
    (fold_left (fun st move => App.handleTextPointerMove move st) moves
       (App.handleViewerPointerDown press s)).

(** A text field drawn: the press, the pointer moves and the release. *)
Definition drawTextField (newId : string) (press : App.PointerEvent)
  (moves : list App.PointerEvent) (s : App.State) : App.State :=
  App.handleTextFieldPointerUp newId
    (fold_left (fun st move => App.handleTextFieldPointerMove move st) moves
       (App.handleViewerPointerDown press s)).

(** The press starts a drawing gesture with [tool] on the canvas [cv]. *)
Definition startsDrawing (tool : App.Tool) (press : App.PointerEvent)
  (cv : App.Canvas) (s : App.State) : Prop :=
  App.noPdf s = false /\ App.isSigned s = false /\ App.activeTool s = tool
  /\ App.onOverlay press = false /\ App.canvas press = Some cv.

(** The press is inside the viewport shown on the canvas. *)
Definition pressedInside (press : App.PointerEvent) (cv : App.Canvas)
  (vp : App.Viewport) : Prop :=
  0 <= App.clientX press - App.canvas_left cv
  /\ App.clientX press - App.canvas_left cv <= App.vp_width vp
  /\ 0 <= App.clientY press - App.canvas_top cv
  /\ App.clientY press - App.canvas_top cv <= App.vp_height vp.

(** A gesture in progress that began with [press] on the canvas [cv]. *)
Definition beganAt (press : App.PointerEvent) (cv : App.Canvas)
  (drag : option App.Drag) : Prop :=
  exists dr,
    drag = Some dr
    /\ App.drag_pageIndex dr = App.canvas_pageIndex cv
    /\ App.drag_startX dr = App.clientX press - App.canvas_left cv
    /\ App.drag_startY dr = App.clientY press - App.canvas_top cv.

(** The preview of a text field on the page of [cv]: still too small to
    become a field, or inside the viewport. *)
Definition fieldPreview (cv : App.Canvas) (vp : App.Viewport)
  (box : option App.DraftBox) : Prop :=
  exists b,
    box = Some b
    /\ App.box_pageIndex b = App.canvas_pageIndex cv
    /\ (App.box_width b < 8 \/ boxInside vp (Some b)).

(** ** Signing during the export *)

(** The bridge [api] with another signer. *)
Definition withSigner
  (sign : Main.SignPayload -> Result (option Main.Reply)) (api : App.PdfApi)
  : App.PdfApi :=
  {| App.savePdfPath := App.savePdfPath api;
     App.writePdf := App.writePdf api;
     App.savePdf := App.savePdf api;
     App.signPdf := Some sign |}.

(** A signer that refuses every request and says where on the page the
    widget it was asked for begins. *)
Definition refusingSigner (request : Main.SignPayload)
  : Result (option Main.Reply) :=
  match Main.rect request with
  | Main.RectObject (Some x) _ _ _ =>
      if Qeq_bool x 50 then Throw "no key for the widget at 50"
      else Throw "no key for another widget"
  | _ => Throw "no widget"
  end.

Definition refusingBridge : App.PdfApi :=
  {| App.savePdfPath := None;
     App.writePdf := None;
     App.savePdf := None;
     App.signPdf := Some refusingSigner |}.

(** A session like [session], with a certificate loaded. *)
Definition signingSession (ds : list App.Draft) : App.State :=
  App.mkState (Some (App.AsUint8Array Reference.pdfHeader)) "form.pdf" false
    App.PAN 1 "" "" "data:image/png;base64,iVBORw==" ds None None None
    "MIIKcQ==" "secret" "Ada" "" "" "" true "" None [Some letterViewport]
    None 1 None None [].

End Spec.

(* ================================================================== *)
(** * Colours *)
(* ================================================================== *)

Section Colours.

Import PdfUtils Spec.

Lemma hexDigit_inv (c : ascii) (d : Z) :
  hexDigit c = Some d ->
  (0 <= d <= 15)%Z /\ isWhiteSpace c = false /\
  (code c =? 45)%Z = false /\ (code c =? 43)%Z = false /\
  (code c =? 120)%Z = false /\ (code c =? 88)%Z = false.
Proof.
  unfold hexDigit, isWhiteSpace.
  generalize (code c); intros n H.
  repeat match type of H with
         | context [(?a <=? ?b)%Z] => destruct (Z.leb_spec a b); cbn in H
         end;
    try discriminate; injection H as <-;
    repeat split; try lia;
    repeat match goal with
           | |- context [(?a <=? ?b)%Z] => destruct (Z.leb_spec a b); try lia
           | |- context [(?a =? ?b)%Z] => destruct (Z.eqb_spec a b); try lia
           end; reflexivity.
Qed.

Lemma parseInt16_two_digits (c1 c2 : ascii) (d1 d2 : Z) :
  hexDigit c1 = Some d1 -> hexDigit c2 = Some d2 ->
  parseInt16 (String c1 (String c2 EmptyString))
  = Fin (inject_Z (16 * d1 + d2)).
Proof.
  intros H1 H2.
  destruct (hexDigit_inv _ _ H1) as (_ & W1 & M1 & P1 & _ & _).
  destruct (hexDigit_inv _ _ H2) as (_ & _ & _ & _ & X2 & X2').
  unfold parseInt16. cbn [trimStart]. rewrite W1, M1, P1, X2, X2'.
  rewrite Bool.andb_false_r. cbn [hexPrefix]. rewrite H1, H2.
  f_equal. f_equal. lia.
Qed.

Lemma channel_in_unit (d1 d2 : Z) :
  (0 <= d1 <= 15)%Z -> (0 <= d2 <= 15)%Z ->
  inUnit (Fin (channel d1 d2)) = Some (channel d1 d2) /\
  inUnitInterval (channel d1 d2).
Proof.
  intros R1 R2.
  assert (L : 0 <= channel d1 d2).
  { unfold channel. apply Qle_shift_div_l; [reflexivity |].
    rewrite Qmult_0_l. change 0 with (inject_Z 0). rewrite <- Zle_Qle. lia. }
  assert (U : channel d1 d2 <= 1).
  { unfold channel. apply Qle_shift_div_r; [reflexivity |].
    rewrite Qmult_1_l. rewrite <- Zle_Qle. lia. }
  split; [| split; assumption].
  unfold inUnit.
  apply Qle_bool_iff in L. apply Qle_bool_iff in U.
  rewrite L, U. reflexivity.
Qed.

(** C9, as the code has it.  A colour that is missing, empty, or not six
    characters long once its first [#] is removed is drawn in the default
    near-black (0.08, 0.1, 0.14).  A colour made of six hexadecimal digits
    is drawn with each channel equal to its two digits, read in base 16,
    over 255, which lies in the interval from 0 to 1. *)
Theorem hexToRgb_fallback_and_channels :
  (forall hex : option string,
      missingOrWrongLength hex ->
      hexToRgb hex = Ok (mkColor (8 # 100) (1 # 10) (14 # 100)))
  /\
  (forall (h : string) (r1 r2 g1 g2 b1 b2 : Z),
      h <> "" ->
      String.length (removeFirst "#" h) = 6%nat ->
      hexDigits (removeFirst "#" h) = Some [r1; r2; g1; g2; b1; b2] ->
      hexToRgb (Some h)
      = Ok (mkColor (channel r1 r2) (channel g1 g2) (channel b1 b2))
      /\ inUnitInterval (channel r1 r2)
      /\ inUnitInterval (channel g1 g2)
      /\ inUnitInterval (channel b1 b2)).
Proof.
  split.
  - intros [h |] M; [| reflexivity].
    unfold hexToRgb. destruct (nonEmpty h) eqn:E; [| reflexivity].
    cbn [negb]. destruct M as [-> | M]; [discriminate E |].
    apply Nat.eqb_neq in M. rewrite M. reflexivity.
  - intros h r1 r2 g1 g2 b1 b2 Hne Hlen Hdig.
    unfold hexToRgb.
    assert (E : nonEmpty h = true).
    { unfold nonEmpty. destruct (String.eqb_spec h ""); [contradiction | reflexivity]. }
    rewrite E. cbn [negb]. rewrite Hlen. cbn [Nat.eqb negb].
    destruct (removeFirst "#" h) as [| c1 [| c2 [| c3 [| c4 [| c5 [| c6 [| ? ?]]]]]]];
      try discriminate Hlen.
    cbn [hexDigits] in Hdig.
    destruct (hexDigit c1) as [e1 |] eqn:D1; [| discriminate Hdig].
    destruct (hexDigit c2) as [e2 |] eqn:D2; [| discriminate Hdig].
    destruct (hexDigit c3) as [e3 |] eqn:D3; [| discriminate Hdig].
    destruct (hexDigit c4) as [e4 |] eqn:D4; [| discriminate Hdig].
    destruct (hexDigit c5) as [e5 |] eqn:D5; [| discriminate Hdig].
    destruct (hexDigit c6) as [e6 |] eqn:D6; [| discriminate Hdig].
    injection Hdig as <- <- <- <- <- <-.
    assert (S1 : slice 0 2 (String c1 (String c2 (String c3 (String c4
                   (String c5 (String c6 EmptyString))))))
                 = String c1 (String c2 EmptyString)) by reflexivity.
    assert (S2 : slice 2 4 (String c1 (String c2 (String c3 (String c4
                   (String c5 (String c6 EmptyString))))))
                 = String c3 (String c4 EmptyString)) by reflexivity.
    assert (S3 : slice 4 6 (String c1 (String c2 (String c3 (String c4
                   (String c5 (String c6 EmptyString))))))
                 = String c5 (String c6 EmptyString)) by reflexivity.
    rewrite S1, S2, S3.
    rewrite (parseInt16_two_digits _ _ _ _ D1 D2),
      (parseInt16_two_digits _ _ _ _ D3 D4),
      (parseInt16_two_digits _ _ _ _ D5 D6).
    pose proof (hexDigit_inv _ _ D1) as (R1 & _).
    pose proof (hexDigit_inv _ _ D2) as (R2 & _).
    pose proof (hexDigit_inv _ _ D3) as (R3 & _).
    pose proof (hexDigit_inv _ _ D4) as (R4 & _).
    pose proof (hexDigit_inv _ _ D5) as (R5 & _).
    pose proof (hexDigit_inv _ _ D6) as (R6 & _).
    destruct (channel_in_unit e1 e2 R1 R2) as (I1 & U1).
    destruct (channel_in_unit e3 e4 R3 R4) as (I2 & U2).
    destruct (channel_in_unit e5 e6 R5 R6) as (I3 & U3).
    unfold rgb, divide. fold (channel e1 e2) (channel e3 e4) (channel e5 e6).
    rewrite I1, I2, I3. auto.
Qed.

Lemma hexToRgb_fallback_and_channels_witness :
  hexToRgb (Some "abc") = Ok (mkColor (8 # 100) (1 # 10) (14 # 100)) /\
  hexToRgb (Some "#0d1117")
  = Ok (mkColor (channel 0 13) (channel 1 1) (channel 1 7)).
Proof.
  split.
  - apply (proj1 hexToRgb_fallback_and_channels (Some "abc")).
    right. cbn. discriminate.
  - apply (proj2 hexToRgb_fallback_and_channels "#0d1117" 0 13 1 1 1 7)%Z.
    + discriminate.
    + reflexivity.
    + reflexivity.
Defined.

(** The colour [#1g0000] has a character that is not a hexadecimal digit,
    yet it is not drawn in the default colour: its red channel is 1/255. *)
Lemma hexToRgb_non_hex_keeps_prefix :
  hexDigits (removeFirst "#" "#1g0000") = None /\
  hexToRgb (Some "#1g0000") = Ok (mkColor (1 # 255) (0 # 255) (0 # 255)) /\
  defaultInk = Ok (mkColor (8 # 100) (1 # 10) (14 # 100)) /\
  ~ (1 # 255 == 8 # 100) /\
  hexToRgb (Some "#1g0000") <> defaultInk.
Proof.
  repeat split; try reflexivity.
  - intro H. vm_compute in H. discriminate H.
  - intro H. vm_compute in H. discriminate H.
Qed.

End Colours.

(* ================================================================== *)
(** * The signing handler *)
(* ================================================================== *)

Section Signing.

Import PdfUtils Main Spec.

Lemma Qmax_left (x y : Q) : y <= x -> Qmax x y = x.
Proof.
  intro H. unfold Qmax, GenericMinMax.gmax.
  destruct (x ?= y)%Q eqn:E; try reflexivity.
  apply Qlt_alt in E. lra.
Qed.

Lemma Qmax_right (x y : Q) : x < y -> Qmax x y = y.
Proof.
  intro H. unfold Qmax, GenericMinMax.gmax.
  destruct (x ?= y)%Q eqn:E; try reflexivity.
  - apply Qeq_alt in E. lra.
  - apply Qgt_alt in E. lra.
Qed.

Lemma Qmin_left (x y : Q) : x <= y -> Qmin x y = x.
Proof.
  intro H. unfold Qmin, GenericMinMax.gmin.
  destruct (x ?= y)%Q eqn:E; try reflexivity.
  apply Qgt_alt in E. lra.
Qed.

Lemma Qmin_right (x y : Q) : y < x -> Qmin x y = y.
Proof.
  intro H. unfold Qmin, GenericMinMax.gmin.
  destruct (x ?= y)%Q eqn:E; try reflexivity.
  - apply Qeq_alt in E. lra.
  - apply Qlt_alt in E. lra.
Qed.

Lemma index_seq (n k : nat) :
  (k < n)%nat -> JS.index (seq 0 n) (Fin (inject_Z (Z.of_nat k))) = Some k.
Proof.
  intro H. unfold JS.index.
  rewrite Qcanon.Qred_identity by (cbn; apply Z.gcd_1_r).
  cbn [Qden Qnum inject_Z]. rewrite Z.eqb_refl.
  destruct (Z.leb_spec 0 (Z.of_nat k)); [| lia].
  cbn [andb]. rewrite Nat2Z.id.
  rewrite nth_error_nth' with (d := 0%nat) by (rewrite length_seq; exact H).
  rewrite seq_nth by exact H. reflexivity.
Qed.

Lemma last_page_number (n : nat) :
  (1 <= n)%nat ->
  inject_Z (Z.of_nat n - 1) = inject_Z (Z.of_nat (n - 1)).
Proof. intro H. f_equal. lia. Qed.

(** The clamp for an index that has already been read as a number. *)
Lemma clamp_past_last (n : nat) (k : number) :
  (1 <= n)%nat -> pastLastPage n k ->
  Math_min (Math_max (or_number k (Fin 0)) (Fin 0))
    (Fin (inject_Z (Z.of_nat n - 1)))
  = Fin (inject_Z (Z.of_nat n - 1)).
Proof.
  intros Hn Hk.
  assert (P : 0 <= inject_Z (Z.of_nat n - 1))
    by (change 0 with (inject_Z 0); rewrite <- Zle_Qle; lia).
  destruct k as [| | q |]; cbn in Hk; try contradiction.
  - assert (Q1 : inject_Z (Z.of_nat n - 1) < q).
    { eapply Qlt_le_trans; [| exact Hk]. rewrite <- Zlt_Qlt. lia. }
    unfold or_number, truthy_number.
    destruct (Qeq_bool q 0) eqn:E.
    + apply Qeq_bool_iff in E. lra.
    + cbn [negb Math_max Math_min].
      rewrite Qmax_left by lra. rewrite Qmin_right by lra. reflexivity.
  - reflexivity.
Qed.

Lemma clamp_negative (n : nat) (k : number) :
  (1 <= n)%nat -> negativeOrNaN k ->
  Math_min (Math_max (or_number k (Fin 0)) (Fin 0))
    (Fin (inject_Z (Z.of_nat n - 1)))
  = Fin 0.
Proof.
  intros Hn Hk.
  assert (P : 0 <= inject_Z (Z.of_nat n - 1))
    by (change 0 with (inject_Z 0); rewrite <- Zle_Qle; lia).
  destruct k as [| | q |]; cbn in Hk; try contradiction.
  - cbn. rewrite Qmin_left by exact P. reflexivity.
  - cbn. rewrite Qmin_left by exact P. reflexivity.
  - unfold or_number, truthy_number.
    destruct (Qeq_bool q 0) eqn:E.
    + apply Qeq_bool_iff in E. lra.
    + cbn [negb Math_max Math_min].
      rewrite Qmax_right by lra. rewrite Qmin_left by exact P. reflexivity.
Qed.

Lemma clamp_in_range (n : nat) (k : number) :
  (1 <= n)%nat ->
  exists q,
    Math_min (Math_max (or_number k (Fin 0)) (Fin 0))
      (Fin (inject_Z (Z.of_nat n - 1))) = Fin q
    /\ 0 <= q /\ q <= inject_Z (Z.of_nat n - 1).
Proof.
  intro Hn.
  assert (P : 0 <= inject_Z (Z.of_nat n - 1))
    by (change 0 with (inject_Z 0); rewrite <- Zle_Qle; lia).
  assert (F : forall x,
             0 <= x ->
             0 <= Qmin x (inject_Z (Z.of_nat n - 1))
             /\ Qmin x (inject_Z (Z.of_nat n - 1))
                <= inject_Z (Z.of_nat n - 1)).
  { intros x Hx. split.
    - apply Q.min_glb; [exact Hx | exact P].
    - apply Q.le_min_r. }
  destruct k as [| | q |].
  - eexists. split; [reflexivity |]. apply F. apply Q.le_max_r.
  - eexists. split; [reflexivity |]. apply F. lra.
  - unfold or_number, truthy_number. destruct (Qeq_bool q 0).
    + eexists. split; [reflexivity |]. apply F. apply Q.le_max_r.
    + eexists. split; [reflexivity |]. apply F. apply Q.le_max_r.
  - exists (inject_Z (Z.of_nat n - 1)). split; [reflexivity | lra].
Qed.

(** C3, as the code has it.  In a document with at least one page the page
    index the signing handler uses always lies between 0 and the last
    index.  An index at or past the page count resolves to the last page; an
    index that is negative or is not a number resolves to index 0, the
    first page; in both cases the page handed to the placeholder exists. *)
Theorem safePageIndex_clamps (L : Env) (pageIndex : value) (n : nat) :
  (1 <= n)%nat ->
  let k := Number (StringToNumber L) pageIndex in
  (exists q, safePageIndex L pageIndex n = Fin q
             /\ 0 <= q /\ q <= inject_Z (Z.of_nat n - 1))
  /\ (pastLastPage n k ->
      safePageIndex L pageIndex n = Fin (inject_Z (Z.of_nat n - 1))
      /\ JS.index (seq 0 n) (safePageIndex L pageIndex n) = Some (n - 1)%nat)
  /\ (negativeOrNaN k ->
      safePageIndex L pageIndex n = Fin 0
      /\ JS.index (seq 0 n) (safePageIndex L pageIndex n) = Some 0%nat).
Proof.
  intros Hn k. unfold safePageIndex. fold k.
  split; [apply clamp_in_range; exact Hn |].
  split; intro Hk.
  - rewrite (clamp_past_last n k Hn Hk). split; [reflexivity |].
    rewrite last_page_number by exact Hn. apply index_seq. lia.
  - rewrite (clamp_negative n k Hn Hk). split; [reflexivity |].
    apply (index_seq n 0). lia.
Qed.

Lemma safePageIndex_clamps_witness :
  safePageIndex Reference.env (num (Fin 7)) 3 = Fin (inject_Z (Z.of_nat 3 - 1))
  /\ JS.index (seq 0 3) (safePageIndex Reference.env (num (Fin 7)) 3)
     = Some 2%nat
  /\ safePageIndex Reference.env (str "none") 3 = Fin 0.
Proof.
  assert (H3 : (1 <= 3)%nat) by lia.
  split; [| split].
  - apply (proj1 (proj2 (safePageIndex_clamps Reference.env (num (Fin 7)) 3 H3))).
    cbn. unfold Qle. cbn. lia.
  - apply (proj1 (proj2 (safePageIndex_clamps Reference.env (num (Fin 7)) 3 H3))).
    cbn. unfold Qle. cbn. lia.
  - apply (proj2 (proj2 (safePageIndex_clamps Reference.env (str "none") 3 H3))).
    cbn. exact I.
Defined.

Lemma decode_without_payload {L : Env} (N : Node L) (v : value)
  (maxBytes : Z) (label : string) :
  emptyOrMissing v ->
  decodeBase64Payload N v maxBytes label = Throw (label ++ " data is missing.").
Proof.
  destruct v as [| | b | n | s]; cbn; try contradiction; try reflexivity.
  intros ->. reflexivity.
Qed.

(** In a document of three pages the index -1 is out of range, and it
    resolves to the first page, not to the last one. *)
Lemma negative_index_resolves_to_first_page :
  negativeOrNaN (Number (StringToNumber Reference.env) (num (Fin (-1))))
  /\ safePageIndex Reference.env (num (Fin (-1))) 3 = Fin 0
  /\ JS.index (seq 0 3) (safePageIndex Reference.env (num (Fin (-1))) 3)
     = Some 0%nat
  /\ JS.index (seq 0 3) (safePageIndex Reference.env (num (Fin (-1))) 3)
     <> nth_error (seq 0 3) (3 - 1).
Proof.
  repeat split; try reflexivity.
  intro H. vm_compute in H. discriminate H.
Qed.

(** C2.  A call of the signing handler whose certificate entry is empty or
    missing is answered with an error and makes no call at all to the
    signing modules, to the parser or to the placeholder.  When the sender
    is trusted and the PDF entry is accepted, the error is the one for the
    missing certificate. *)
Theorem sign_without_certificate {L : Env} (N : Node L) (event : Event N)
  (payload : SignPayload) :
  emptyOrMissing (certBase64 payload) ->
  fst (pdf_signWithP12 N event payload) = []
  /\ (exists message, snd (pdf_signWithP12 N event payload) = ReplyError message)
  /\ (isTrustedSender N event = true ->
      forall pdfBuffer,
        decodeBase64Payload N (pdfBase64 payload) MAX_PDF_BYTES "PDF"
        = Ok pdfBuffer ->
        pdf_signWithP12 N event payload
        = ([], ReplyError "Certificate data is missing.")).
Proof.
  intro Hc.
  pose proof (decode_without_payload N _ MAX_CERT_BYTES "Certificate" Hc) as Hd.
  unfold pdf_signWithP12, withTrustedSender.
  destruct (isTrustedSender N event); cbn [negb].
  - unfold signWithP12, signWithP12_try.
    destruct (decodeBase64Payload N (pdfBase64 payload) MAX_PDF_BYTES "PDF")
      as [pdfBuffer | message] eqn:Hp.
    + cbn [quiet tbind]. rewrite Hd. cbn.
      split; [reflexivity |]. split; [eexists; reflexivity |].
      intros _ b _. reflexivity.
    + cbn [quiet tbind fst snd].
      split; [reflexivity |]. split; [eexists; reflexivity |].
      intros _ b Hb. discriminate Hb.
  - cbn. split; [reflexivity |]. split; [eexists; reflexivity |].
    intro H. discriminate H.
Qed.

Lemma sign_without_certificate_witness :
  pdf_signWithP12 (Reference.node Reference.env) true unsignedRequest
  = ([], ReplyError "Certificate data is missing.").
Proof.
  assert (Hc : emptyOrMissing (certBase64 unsignedRequest)) by reflexivity.
  apply (proj2 (proj2 (sign_without_certificate
                         (Reference.node Reference.env) true unsignedRequest Hc))
           eq_refl [37; 80; 68; 70]%Z).
  reflexivity.
Defined.

End Signing.

(* ================================================================== *)
(** * The form field bridge and the signature image *)
(* ================================================================== *)

Section Bridge.

Import PdfUtils Spec.

(** C4.  Once the bytes are parsed and the helper font embedded, a name
    that resolves to no field gives the input bytes back unchanged.  A
    name that resolves to a field leads to the write that fits the class of
    the field: the text of a text field is replaced, a check box is checked
    or unchecked by the truthiness of the value, and a dropdown, an option
    list or a radio group selects the value only if it is truthy, that is,
    not empty; the appearances are then regenerated and the document
    saved. *)
Theorem setFormFieldValue_dispatch (L : Env) (data : bytes)
  (fieldName : string) (v : value) (doc doc' : Doc L) (font : Font L) :
  load L data = Ok doc ->
  embedFont L doc Helvetica = Ok (doc', font) ->
  ((getField L doc' fieldName = Ok None
    \/ exists e, getField L doc' fieldName = Throw e) ->
   setFormFieldValue L data fieldName v = Ok data)
  /\
  (forall field : Field L,
      getField L doc' fieldName = Ok (Some field) ->
      let text := String_of (NumberToString L) in
      match fieldKind L field with
      | PDFTextField =>
          setFormFieldValue L data fieldName v
          = regenerateAndSave L font (setText L doc' field (text (orEmpty v)))
      | PDFCheckBox =>
          setFormFieldValue L data fieldName v
          = regenerateAndSave L font
              (if truthy v then check L doc' field else uncheck L doc' field)
      | PDFDropdown | PDFOptionList | PDFRadioGroup =>
          setFormFieldValue L data fieldName v
          = regenerateAndSave L font
              (if truthy v then select L doc' field (text v) else Ok doc')
      | PDFOtherField =>
          setFormFieldValue L data fieldName v
          = regenerateAndSave L font (Ok doc')
      end).
Proof.
  intros Hload Hfont. unfold setFormFieldValue.
  rewrite Hload. cbn [bind]. rewrite Hfont. cbn [bind].
  split.
  - intros [H | [e H]]; rewrite H; reflexivity.
  - intros field H. rewrite H.
    unfold regenerateAndSave, writeField.
    destruct (fieldKind L field); reflexivity.
Qed.

Lemma setFormFieldValue_dispatch_witness :
  setFormFieldValue Reference.env Reference.pdfHeader "ghost-field" (str "x")
  = Ok Reference.pdfHeader
  /\ setFormFieldValue Reference.env Reference.pdfHeader "agree" (boolean true)
     = Ok (Reference.pdfHeader ++ [6; 4])%list%Z.
Proof.
  split.
  - apply (proj1 (setFormFieldValue_dispatch Reference.env Reference.pdfHeader
                    "ghost-field" (str "x") Reference.pdfHeader
                    Reference.pdfHeader Helvetica eq_refl eq_refl)).
    right. eexists. reflexivity.
  - exact (proj2 (setFormFieldValue_dispatch Reference.env Reference.pdfHeader
                    "agree" (boolean true) Reference.pdfHeader
                    Reference.pdfHeader Helvetica eq_refl eq_refl)
             PDFCheckBox eq_refl).
Defined.

(** C10, as the code has it.  With a document that parses, an image
    payload that is absent or is the empty text gives the input bytes back
    unchanged.  A data URL that is not empty but carries nothing after its
    comma is decoded to an empty byte array, which is handed to the PNG
    embedder: the call then fails as the embedder does. *)
Theorem addSignatureToPdf_without_image (L : Env) (data : bytes)
  (o : SignatureOptions) (doc : Doc L) :
  load L data = Ok doc ->
  ((sig_dataUrl o = None \/ sig_dataUrl o = Some "") ->
   addSignatureToPdf L data o = Ok data)
  /\
  (forall url e,
      sig_dataUrl o = Some url -> url <> "" ->
      nth_error (splitOn "," url) 1 = Some "" ->
      atob L "" = Ok "" ->
      embedPng L doc [] = Throw e ->
      addSignatureToPdf L data o = Throw e).
Proof.
  intro Hload. unfold addSignatureToPdf. rewrite Hload. cbn [bind].
  split.
  - intros [H | H]; rewrite H; reflexivity.
  - intros url e H Hne Hbody Hatob Hpng. rewrite H.
    unfold dataUrlToBytes.
    assert (E : nonEmpty url = true).
    { unfold nonEmpty. destruct (String.eqb_spec url ""); [contradiction | reflexivity]. }
    rewrite E, Hbody. unfold decodeBase64. rewrite Hatob. cbn.
    rewrite Hpng. reflexivity.
Qed.

Lemma addSignatureToPdf_without_image_witness :
  addSignatureToPdf Reference.env Reference.pdfHeader (stamp (Some ""))
  = Ok Reference.pdfHeader
  /\ addSignatureToPdf Reference.env Reference.pdfHeader
       (stamp (Some "data:image/png;base64,"))
     = Throw "Input is not a PNG image".
Proof.
  split.
  - apply (proj1 (addSignatureToPdf_without_image Reference.env
                    Reference.pdfHeader (stamp (Some "")) Reference.pdfHeader
                    eq_refl)).
    right. reflexivity.
  - apply (proj2 (addSignatureToPdf_without_image Reference.env
                    Reference.pdfHeader
                    (stamp (Some "data:image/png;base64,"))
                    Reference.pdfHeader eq_refl)
             "data:image/png;base64,").
    + reflexivity.
    + discriminate.
    + reflexivity.
    + reflexivity.
    + reflexivity.
Defined.

(** The data URL [data:image/png;base64,] has no base64 body, and the
    document parses, yet the bytes do not come back unchanged: the call
    is rejected by the PNG embedder. *)
Lemma addSignatureToPdf_empty_body_raises :
  ~ (forall (L : Env) (data : bytes) (o : SignatureOptions) (doc : Doc L),
        load L data = Ok doc ->
        missingOrEmptyPayload (sig_dataUrl o) ->
        addSignatureToPdf L data o = Ok data).
Proof.
  intro H.
  specialize (H Reference.env Reference.pdfHeader
                (stamp (Some "data:image/png;base64,")) Reference.pdfHeader
                eq_refl eq_refl).
  vm_compute in H. discriminate H.
Qed.

End Bridge.

(* ================================================================== *)
(** * The draft store *)
(* ================================================================== *)

Section DraftStore.

Import PdfUtils App Spec.

Lemma rescaleEffect_lastScale (s : State) : lastScale (rescaleEffect s) = scale s.
Proof. unfold rescaleEffect. reflexivity. Qed.

Lemma rescaleEffect_drafts (s : State) :
  drafts (rescaleEffect s)
  = if negb (Nat.eqb (List.length (drafts s)) 0)
       && negb (Qeq_bool (lastScale s) 0)
       && negb (Qeq_bool (scale s) (lastScale s))
    then map (rescaleDraft (scale s / lastScale s)) (drafts s)
    else drafts s.
Proof.
  unfold rescaleEffect.
  destruct (negb (Nat.eqb (List.length (drafts s)) 0)
            && negb (Qeq_bool (lastScale s) 0)
            && negb (Qeq_bool (scale s) (lastScale s))); reflexivity.
Qed.

Lemma changeScale_drafts (value : Q) (s : State) :
  drafts (changeScale value s)
  = if negb (Nat.eqb (List.length (drafts s)) 0)
       && negb (Qeq_bool (lastScale s) 0)
       && negb (Qeq_bool value (lastScale s))
    then map (rescaleDraft (value / lastScale s)) (drafts s)
    else drafts s.
Proof. unfold changeScale. rewrite rescaleEffect_drafts. reflexivity. Qed.

Lemma changeScale_lastScale (value : Q) (s : State) :
  lastScale (changeScale value s) = value.
Proof. reflexivity. Qed.

Lemma Qeq_bool_false (x y : Q) : ~ x == y -> Qeq_bool x y = false.
Proof.
  intro H. destruct (Qeq_bool x y) eqn:E; [| reflexivity].
  apply Qeq_bool_iff in E. contradiction.
Qed.

Lemma Qeq_bool_true (x y : Q) : x == y -> Qeq_bool x y = true.
Proof. intro H. apply Qeq_bool_iff. exact H. Qed.

Lemma scaledBy_map (ratio : Q) (ds : list Draft) :
  Forall2 (scaledBy ratio) ds (map (rescaleDraft ratio) ds).
Proof.
  induction ds as [| d ds IH]; constructor; [| exact IH].
  repeat split; reflexivity.
Qed.

Lemma sameRect_refl (ds : list Draft) : Forall2 sameRect ds ds.
Proof.
  induction ds as [| d ds IH]; constructor; [| exact IH].
  repeat split; reflexivity.
Qed.

Lemma sameRect_there_and_back (a b : Q) (ds : list Draft) :
  ~ a == 0 -> ~ b == 0 ->
  Forall2 sameRect ds
    (map (rescaleDraft (a / b)) (map (rescaleDraft (b / a)) ds)).
Proof.
  intros Ha Hb.
  induction ds as [| d ds IH]; constructor; [| exact IH].
  repeat split; cbn; try reflexivity; field; split; assumption.
Qed.

(** C7.  With [s1] the scale the drafts were last laid out at, a change of
    scale to a different [s2] multiplies the [x], [y], [width] and [height]
    of every draft by [s2 / s1]; and changing the scale to [s2] and then
    back to [s1] gives every draft its rectangle back, in exact
    arithmetic. *)
Theorem rescale_round_trip (s : State) (s2 : Q) :
  0 < lastScale s -> 0 < s2 ->
  (~ s2 == lastScale s ->
   Forall2 (scaledBy (s2 / lastScale s)) (drafts s) (drafts (changeScale s2 s)))
  /\ Forall2 sameRect (drafts s)
       (drafts (changeScale (lastScale s) (changeScale s2 s))).
Proof.
  intros H1 H2.
  assert (N1 : ~ lastScale s == 0) by lra.
  assert (N2 : ~ s2 == 0) by lra.
  split.
  - intro Hne. rewrite changeScale_drafts.
    rewrite (Qeq_bool_false _ _ N1), (Qeq_bool_false _ _ Hne).
    destruct (drafts s) as [| d ds] eqn:E; [constructor |].
    cbn [List.length Nat.eqb negb andb]. apply scaledBy_map.
  - rewrite changeScale_drafts, changeScale_lastScale, changeScale_drafts.
    rewrite (Qeq_bool_false _ _ N1), (Qeq_bool_false _ _ N2).
    destruct (Qeq_bool s2 (lastScale s)) eqn:E.
    + apply Qeq_bool_iff in E.
      rewrite (Qeq_bool_true (lastScale s) s2) by (symmetry; exact E).
      rewrite !Bool.andb_false_r. apply sameRect_refl.
    + apply Qeq_bool_neq in E.
      rewrite (Qeq_bool_false (lastScale s) s2) by (intro F; apply E; symmetry; exact F).
      destruct (drafts s) as [| d ds] eqn:Ed; [constructor |].
      cbn [List.length Nat.eqb negb andb map].
      apply (sameRect_there_and_back (lastScale s) s2 (d :: ds)); assumption.
Qed.

Lemma rescale_round_trip_witness :
  Forall2 (scaledBy (2 / 1)) [checkboxAt 100 100]
    (drafts (changeScale 2
               (session letterViewport Reference.pdfHeader PAN
                  [checkboxAt 100 100])))
  /\ Forall2 sameRect [checkboxAt 100 100]
       (drafts (changeScale 1 (changeScale 2
                  (session letterViewport Reference.pdfHeader PAN
                     [checkboxAt 100 100])))).
Proof.
  split.
  - apply (proj1 (rescale_round_trip
                    (session letterViewport Reference.pdfHeader PAN
                       [checkboxAt 100 100]) 2 eq_refl eq_refl)).
    intro H. discriminate H.
  - exact (proj2 (rescale_round_trip
                    (session letterViewport Reference.pdfHeader PAN
                       [checkboxAt 100 100]) 2 eq_refl eq_refl)).
Defined.

Lemma clamp_bounds (v hi : Q) :
  0 <= hi -> 0 <= clamp v 0 hi /\ clamp v 0 hi <= hi.
Proof.
  intro H. unfold clamp. split.
  - apply Q.min_glb; [apply Q.le_max_r | exact H].
  - apply Q.le_min_r.
Qed.

Lemma clampDraft_pageIndex (s : State) (next : Draft) :
  draft_pageIndex (clampDraft s next) = draft_pageIndex next.
Proof.
  unfold clampDraft. destruct (viewportAt s (draft_pageIndex next)); reflexivity.
Qed.

Lemma clampDraft_inside (s : State) (next : Draft) (vp : Viewport) :
  viewportAt s (draft_pageIndex next) = Some vp ->
  inside vp (clampDraft s next).
Proof.
  intro H. unfold clampDraft. rewrite H. unfold inside.
  cbn [withRect draft_x draft_y draft_width draft_height].
  pose proof (Q.le_min_r (draft_width next) (vp_width vp)) as W.
  pose proof (Q.le_min_r (draft_height next) (vp_height vp)) as Hh.
  set (w := Qmin (draft_width next) (vp_width vp)) in *.
  set (h := Qmin (draft_height next) (vp_height vp)) in *.
  assert (MX : Qmax 0 (vp_width vp - w) <= vp_width vp - w)
    by (apply Q.max_lub; lra).
  assert (MY : Qmax 0 (vp_height vp - h) <= vp_height vp - h)
    by (apply Q.max_lub; lra).
  destruct (clamp_bounds (draft_x next) (Qmax 0 (vp_width vp - w)))
    as [X0 X1]; [apply Q.le_max_l |].
  destruct (clamp_bounds (draft_y next) (Qmax 0 (vp_height vp - h)))
    as [Y0 Y1]; [apply Q.le_max_l |].
  repeat split; lra.
Qed.

Lemma moved_or_resized_inside (event : PointerEvent) (s : State) (d : Draft) :
  In d (drafts (handleDraftPointerMove event s)) ->
  In d (drafts s)
  \/ forall vp, viewportAt s (draft_pageIndex d) = Some vp -> inside vp d.
Proof.
  unfold handleDraftPointerMove.
  destruct (dragState s) as [drag |]; [| intro H; left; exact H].
  cbn [drafts set_drafts]. intro H. apply in_map_iff in H.
  destruct H as (d0 & E & H0).
  destruct (String.eqb (draft_id d0) (ds_id drag)).
  - right. intros vp Hvp. subst d.
    rewrite clampDraft_pageIndex in Hvp. apply clampDraft_inside. exact Hvp.
  - left. subst d. exact H0.
Qed.

Lemma dragBox_inside (drag : Drag) (vp : Viewport) (event : PointerEvent) :
  0 <= drag_startX drag -> drag_startX drag <= vp_width vp ->
  0 <= drag_startY drag -> drag_startY drag <= vp_height vp ->
  boxInside vp (Some (dragBox drag vp event)).
Proof.
  intros X0 X1 Y0 Y1. unfold boxInside, dragBox.
  cbn [box_x box_y box_width box_height].
  destruct (clamp_bounds (clientX event - drag_left drag) (vp_width vp))
    as [A0 A1]; [lra |].
  destruct (clamp_bounds (clientY event - drag_top drag) (vp_height vp))
    as [B0 B1]; [lra |].
  set (x := clamp (clientX event - drag_left drag) 0 (vp_width vp)) in *.
  set (y := clamp (clientY event - drag_top drag) 0 (vp_height vp)) in *.
  assert (F : forall a b, Qmin a b + Qabs (b - a) == Qmax a b).
  { intros a b. destruct (Qlt_le_dec b a) as [L | L].
    - rewrite (Q.min_r a b), (Q.max_l a b) by lra.
      rewrite Qabs_neg by lra. ring.
    - rewrite (Q.min_l a b), (Q.max_r a b) by lra.
      rewrite Qabs_pos by lra. ring. }
  repeat split.
  - apply Q.min_glb; assumption.
  - rewrite F. apply Q.max_lub; assumption.
  - apply Q.min_glb; assumption.
  - rewrite F. apply Q.max_lub; assumption.
Qed.

Lemma boxInside_fits (vp : Viewport) (box : option DraftBox) :
  boxInside vp box -> boxFits vp box.
Proof.
  destruct box as [b |]; [| trivial]. cbn. intros (X0 & X1 & Y0 & Y1).
  split; lra.
Qed.

Lemma drawn_field_inside (newId : string) (s : State) (d : Draft) :
  In d (drafts (handleTextFieldPointerUp newId s)) ->
  In d (drafts s)
  \/ forall vp, viewportAt s (draft_pageIndex d) = Some vp ->
                boxInside vp (textFieldDraft s) -> inside vp d.
Proof.
  unfold handleTextFieldPointerUp.
  destruct (textFieldDrag s) as [drag |]; [| intro H; left; exact H].
  cbn zeta. cbn [textFieldDraft set_textFieldDrag].
  destruct (textFieldDraft s) as [box |]; [| intro H; left; exact H].
  destruct (negb (Qle_bool 8 (box_width box))
            || negb (Qle_bool 8 (box_height box))); [intro H; left; exact H |].
  unfold addDraft. cbn [drafts set_drafts set_selectedDraftId
                          set_textFieldDraft set_textFieldDrag].
  intro H. apply in_app_or in H. destruct H as [H | [H | []]]; [left; exact H |].
  right. intros vp _ B. subst d. exact B.
Qed.

Lemma drawn_text_inside (newId : string) (s : State) (d : Draft) :
  In d (drafts (handleTextPointerUp newId s)) ->
  In d (drafts s)
  \/ forall vp, viewportAt s (draft_pageIndex d) = Some vp ->
                140 <= vp_width vp -> 32 <= vp_height vp ->
                boxFits vp (textDraftBox s) -> inside vp d.
Proof.
  unfold handleTextPointerUp.
  destruct (textDrag s) as [drag |]; [| intro H; left; exact H].
  cbn zeta. unfold addDraft.
  cbn [drafts set_drafts set_selectedDraftId set_textDraftBox set_textDrag
         textDraftBox textDraft].
  intro H. apply in_app_or in H. destruct H as [H | [H | []]]; [left; exact H |].
  right. intros vp Hvp W140 H32 Fits. subst d.
  cbn [draft_pageIndex] in Hvp.
  assert (V : viewportAt (set_textDrag None s) (drag_pageIndex drag) = Some vp)
    by exact Hvp.
  rewrite V. unfold inside. cbn [draft_x draft_y draft_width draft_height].
  set (bw := match textDraftBox s with Some box => box_width box | None => 0 end).
  set (bh := match textDraftBox s with Some box => box_height box | None => 0 end).
  assert (BW : bw <= vp_width vp /\ bh <= vp_height vp).
  { subst bw bh. destruct (textDraftBox s) as [box |]; cbn in Fits.
    - exact Fits.
    - split; lra. }
  destruct BW as [BW BH].
  assert (W : Qmax bw 140 <= vp_width vp) by (apply Q.max_lub; assumption).
  assert (Hh : Qmax bh 32 <= vp_height vp) by (apply Q.max_lub; assumption).
  set (w := Qmax bw 140) in *. set (h := Qmax bh 32) in *.
  assert (MX : Qmax (vp_width vp - w) 0 <= vp_width vp - w)
    by (apply Q.max_lub; lra).
  assert (MY : Qmax (vp_height vp - h) 0 <= vp_height vp - h)
    by (apply Q.max_lub; lra).
  match goal with
  | |- 0 <= clamp ?a 0 ?m /\ _ =>
      destruct (clamp_bounds a m) as [X0 X1]; [apply Q.le_max_r |]
  end.
  match goal with
  | |- _ /\ _ /\ 0 <= clamp ?a 0 ?m /\ _ =>
      destruct (clamp_bounds a m) as [Y0 Y1]; [apply Q.le_max_r |]
  end.
  repeat split; lra.
Qed.

Lemma placed_inside (newId : string) (event : PointerEvent) (s : State)
  (d : Draft) :
  In d (drafts (handleCanvasClick newId event s)) ->
  In d (drafts s)
  \/ forall vp, viewportAt s (draft_pageIndex d) = Some vp ->
                placementFits vp (activeTool s) -> inside vp d.
Proof.
  unfold handleCanvasClick.
  destruct (noPdf s || isSigned s); [intro H; left; exact H |].
  destruct (activeTool s) eqn:T; try (intro H; left; exact H).
  - (* check box *)
    destruct (canvas event) as [cv |]; [| intro H; left; exact H].
    destruct (viewportAt s (canvas_pageIndex cv)) as [vp0 |] eqn:V;
      [| intro H; left; exact H].
    cbn -[clamp Qdiv]. unfold addDraft. cbn -[clamp Qdiv].
    intro H. apply in_app_or in H. destruct H as [H | [H | []]]; [left; exact H |].
    right. intros vp Hvp Fits. subst d. cbn -[clamp Qdiv] in *.
    rewrite V in Hvp. injection Hvp as <-.
    unfold placementFits in Fits. cbn in Fits. destruct Fits as [FW FH].
    unfold inside. cbn -[clamp Qdiv].
    match goal with
    | |- 0 <= clamp ?a 0 ?m /\ _ =>
        destruct (clamp_bounds a m) as [X0 X1]; [lra |]
    end.
    match goal with
    | |- _ /\ _ /\ 0 <= clamp ?a 0 ?m /\ _ =>
        destruct (clamp_bounds a m) as [Y0 Y1]; [lra |]
    end.
    repeat split; lra.
  - (* signature *)
    destruct (canvas event) as [cv |]; [| intro H; left; exact H].
    destruct (viewportAt s (canvas_pageIndex cv)) as [vp0 |] eqn:V;
      [| intro H; left; exact H].
    cbn -[clamp Qdiv nonEmpty].
    destruct (negb (nonEmpty (signatureDataUrl s))); [intro H; left; exact H |].
    unfold addDraft. cbn -[clamp Qdiv].
    intro H. apply in_app_or in H. destruct H as [H | [H | []]]; [left; exact H |].
    right. intros vp Hvp Fits. subst d. cbn -[clamp Qdiv] in *.
    rewrite V in Hvp. injection Hvp as <-.
    unfold placementFits in Fits. cbn in Fits. destruct Fits as [FW FH].
    unfold inside. cbn -[clamp Qdiv].
    match goal with
    | |- 0 <= clamp ?a 0 ?m /\ _ =>
        destruct (clamp_bounds a m) as [X0 X1]; [lra |]
    end.
    match goal with
    | |- _ /\ _ /\ 0 <= clamp ?a 0 ?m /\ _ =>
        destruct (clamp_bounds a m) as [Y0 Y1]; [lra |]
    end.
    repeat split; lra.
Qed.

Lemma field_box_after_move (event : PointerEvent) (s : State) (drag : Drag)
  (vp : Viewport) :
  textFieldDrag s = Some drag ->
  viewportAt s (drag_pageIndex drag) = Some vp ->
  0 <= drag_startX drag -> drag_startX drag <= vp_width vp ->
  0 <= drag_startY drag -> drag_startY drag <= vp_height vp ->
  boxInside vp (textFieldDraft (handleTextFieldPointerMove event s)).
Proof.
  intros Hd Hv X0 X1 Y0 Y1. unfold handleTextFieldPointerMove.
  rewrite Hd, Hv. cbn [textFieldDraft set_textFieldDraft].
  apply dragBox_inside; assumption.
Qed.

Lemma text_box_after_move (event : PointerEvent) (s : State) (drag : Drag)
  (vp : Viewport) :
  textDrag s = Some drag ->
  viewportAt s (drag_pageIndex drag) = Some vp ->
  0 <= drag_startX drag -> drag_startX drag <= vp_width vp ->
  0 <= drag_startY drag -> drag_startY drag <= vp_height vp ->
  boxFits vp (textDraftBox (handleTextPointerMove event s)).
Proof.
  intros Hd Hv X0 X1 Y0 Y1. unfold handleTextPointerMove.
  rewrite Hd, Hv. cbn [textDraftBox set_textDraftBox].
  apply boxInside_fits. apply dragBox_inside; assumption.
Qed.

Lemma viewportAt_same (s st : State) (i : nat) :
  pageViewports st = pageViewports s -> viewportAt st i = viewportAt s i.
Proof. unfold viewportAt. intros ->. reflexivity. Qed.

Lemma text_moves_keep (press : PointerEvent) (cv : Canvas) (vp : Viewport)
  (s : State) (moves : list PointerEvent) (st : State) :
  pressedInside press cv vp ->
  viewportAt s (canvas_pageIndex cv) = Some vp ->
  beganAt press cv (textDrag st) ->
  pageViewports st = pageViewports s ->
  drafts st = drafts s ->
  boxFits vp (textDraftBox st) ->
  beganAt press cv
    (textDrag (fold_left (fun st move => handleTextPointerMove move st) moves st))
  /\ pageViewports
       (fold_left (fun st move => handleTextPointerMove move st) moves st)
     = pageViewports s
  /\ drafts (fold_left (fun st move => handleTextPointerMove move st) moves st)
     = drafts s
  /\ boxFits vp
       (textDraftBox
          (fold_left (fun st move => handleTextPointerMove move st) moves st)).
Proof.
  intros (X0 & X1 & Y0 & Y1) Hv. revert st.
  induction moves as [| move moves IH]; intros st B P D F.
  - repeat split; assumption.
  - cbn [fold_left]. destruct B as (dr & Hd & Hp & Hx & Hy).
    assert (V : viewportAt st (drag_pageIndex dr) = Some vp)
      by (rewrite (viewportAt_same s st _ P), Hp; exact Hv).
    apply IH; unfold handleTextPointerMove; rewrite Hd, V.
    + exists (dragged dr). repeat split; assumption.
    + exact P.
    + exact D.
    + cbn [textDraftBox set_textDraftBox]. apply boxInside_fits.
      apply dragBox_inside; rewrite ?Hx, ?Hy; assumption.
Qed.

Lemma drawn_text_page (newId : string) (st : State) (dr : Drag) (d : Draft) :
  textDrag st = Some dr ->
  In d (drafts (handleTextPointerUp newId st)) ->
  In d (drafts st) \/ draft_pageIndex d = drag_pageIndex dr.
Proof.
  intro Hd. unfold handleTextPointerUp. rewrite Hd. cbn zeta. unfold addDraft.
  cbn [drafts set_drafts set_selectedDraftId set_textDraftBox set_textDrag].
  intro H. apply in_app_or in H. destruct H as [H | [H | []]]; [left; exact H |].
  right. subst d. reflexivity.
Qed.

Lemma text_gesture_inside (newId : string) (press : PointerEvent)
  (moves : list PointerEvent) (s : State) (cv : Canvas) (vp : Viewport)
  (d : Draft) :
  startsDrawing TEXT press cv s ->
  viewportAt s (canvas_pageIndex cv) = Some vp ->
  140 <= vp_width vp -> 32 <= vp_height vp ->
  pressedInside press cv vp ->
  In d (drafts (drawTextBox newId press moves s)) ->
  In d (drafts s) \/ (draft_pageIndex d = canvas_pageIndex cv /\ inside vp d).
Proof.
  intros (Hn & Hs & Ht & Ho & Hc) Hv W H Inside. unfold drawTextBox.
  set (pressed := handleViewerPointerDown press s).
  assert (E : pressed
              = set_textDraftBox
                  (Some {| box_pageIndex := canvas_pageIndex cv;
                           box_x := clientX press - canvas_left cv;
                           box_y := clientY press - canvas_top cv;
                           box_width := 1; box_height := 1 |})
                  (set_textDrag
                     (Some {| drag_pageIndex := canvas_pageIndex cv;
                              drag_left := canvas_left cv;
                              drag_top := canvas_top cv;
                              drag_startX := clientX press - canvas_left cv;
                              drag_startY := clientY press - canvas_top cv;
                              drag_didDrag := false |}) s)).
  { subst pressed. unfold handleViewerPointerDown.
    rewrite Hn, Hs, Ht, Ho, Hc. reflexivity. }
  destruct (text_moves_keep press cv vp s moves pressed Inside Hv)
    as ((dr & Hd & Hp & _) & P & D & F).
  - rewrite E. eexists. repeat split.
  - rewrite E. reflexivity.
  - rewrite E. reflexivity.
  - rewrite E. cbn. split; lra.
  - set (st := fold_left (fun st move => handleTextPointerMove move st) moves
                 pressed) in *.
    intro I.
    destruct (drawn_text_page newId st dr d Hd I) as [Old | Page];
      [left; rewrite <- D; exact Old |].
    destruct (drawn_text_inside newId st d I) as [Old | In1];
      [left; rewrite <- D; exact Old |].
    right. split; [rewrite Page; exact Hp |].
    apply In1; try assumption.
    rewrite (viewportAt_same s st _ P), Page, Hp. exact Hv.
Qed.

Lemma field_moves_keep (press : PointerEvent) (cv : Canvas) (vp : Viewport)
  (s : State) (moves : list PointerEvent) (st : State) :
  pressedInside press cv vp ->
  viewportAt s (canvas_pageIndex cv) = Some vp ->
  beganAt press cv (textFieldDrag st) ->
  pageViewports st = pageViewports s ->
  drafts st = drafts s ->
  fieldPreview cv vp (textFieldDraft st) ->
  beganAt press cv
    (textFieldDrag
       (fold_left (fun st move => handleTextFieldPointerMove move st) moves st))
  /\ pageViewports
       (fold_left (fun st move => handleTextFieldPointerMove move st) moves st)
     = pageViewports s
  /\ drafts
       (fold_left (fun st move => handleTextFieldPointerMove move st) moves st)
     = drafts s
  /\ fieldPreview cv vp
       (textFieldDraft
          (fold_left (fun st move => handleTextFieldPointerMove move st)
             moves st)).
Proof.
  intros (X0 & X1 & Y0 & Y1) Hv. revert st.
  induction moves as [| move moves IH]; intros st B P D F.
  - repeat split; assumption.
  - cbn [fold_left]. destruct B as (dr & Hd & Hp & Hx & Hy).
    assert (V : viewportAt st (drag_pageIndex dr) = Some vp)
      by (rewrite (viewportAt_same s st _ P), Hp; exact Hv).
    apply IH; unfold handleTextFieldPointerMove; rewrite Hd, V.
    + exists (dragged dr). repeat split; assumption.
    + exact P.
    + exact D.
    + cbn [textFieldDraft set_textFieldDraft]. eexists.
      split; [reflexivity |]. split; [exact Hp |]. right.
      apply dragBox_inside; rewrite ?Hx, ?Hy; assumption.
Qed.

Lemma field_gesture_inside (newId : string) (press : PointerEvent)
  (moves : list PointerEvent) (s : State) (cv : Canvas) (vp : Viewport)
  (d : Draft) :
  startsDrawing TEXT_FIELD press cv s ->
  viewportAt s (canvas_pageIndex cv) = Some vp ->
  pressedInside press cv vp ->
  In d (drafts (drawTextField newId press moves s)) ->
  In d (drafts s) \/ (draft_pageIndex d = canvas_pageIndex cv /\ inside vp d).
Proof.
  intros (Hn & Hs & Ht & Ho & Hc) Hv Inside. unfold drawTextField.
  set (pressed := handleViewerPointerDown press s).
  assert (E : pressed
              = set_textFieldDraft
                  (Some {| box_pageIndex := canvas_pageIndex cv;
                           box_x := clientX press - canvas_left cv;
                           box_y := clientY press - canvas_top cv;
                           box_width := 1; box_height := 1 |})
                  (set_textFieldDrag
                     (Some {| drag_pageIndex := canvas_pageIndex cv;
                              drag_left := canvas_left cv;
                              drag_top := canvas_top cv;
                              drag_startX := clientX press - canvas_left cv;
                              drag_startY := clientY press - canvas_top cv;
                              drag_didDrag := false |}) s)).
  { subst pressed. unfold handleViewerPointerDown.
    rewrite Hn, Hs, Ht, Ho, Hc. reflexivity. }
  destruct (field_moves_keep press cv vp s moves pressed Inside Hv)
    as ((dr & Hd & _) & P & D & (b & Hb & Hp & Small)).
  - rewrite E. eexists. repeat split.
  - rewrite E. reflexivity.
  - rewrite E. reflexivity.
  - rewrite E. eexists. split; [reflexivity |]. split; [reflexivity |].
    left. reflexivity.
  - set (st := fold_left (fun st move => handleTextFieldPointerMove move st)
                 moves pressed) in *.
    unfold handleTextFieldPointerUp. rewrite Hd. cbn zeta.
    cbn [textFieldDraft set_textFieldDrag]. rewrite Hb.
    destruct (Qle_bool 8 (box_width b)) eqn:Wide; cbn [negb orb].
    + destruct (negb (Qle_bool 8 (box_height b)));
        [intro I; left; rewrite <- D; exact I |].
      unfold addDraft.
      cbn [drafts set_drafts set_selectedDraftId set_textFieldDraft
             set_textFieldDrag].
      intro I. apply in_app_or in I.
      destruct I as [I | [I | []]]; [left; rewrite <- D; exact I |].
      right. subst d. split; [exact Hp |].
      destruct Small as [Small | In1]; [| exact In1].
      apply Qle_bool_iff in Wide. lra.
    + intro I. left. rewrite <- D. exact I.
Qed.

(** C6, as the code has it.  After each gesture, every draft in the store
    was there before or has its rectangle inside the viewport of its page:
    always so after a move or a resize, whatever the pointer does and with
    the minimum sizes applied; after a text field is drawn, when the
    rectangle drawn lies inside the viewport, as it does after a drag that
    began inside it; after a text box is drawn, when the viewport is at
    least 140 by 32 and the rectangle drawn is no larger than it, as it is
    after a drag that began inside it; after a click that places a check box
    or a signature, when the viewport has room for the size the tool places.
    For the whole of a drawing gesture, a press inside the viewport, any
    pointer moves and the release: the text box drawn lies inside a viewport
    that is at least 140 by 32, and the text field drawn lies inside the
    viewport. *)
Theorem draft_rectangles_inside_viewport :
  (forall event s d,
      In d (drafts (handleDraftPointerMove event s)) ->
      In d (drafts s)
      \/ forall vp, viewportAt s (draft_pageIndex d) = Some vp -> inside vp d)
  /\ (forall newId s d,
        In d (drafts (handleTextFieldPointerUp newId s)) ->
        In d (drafts s)
        \/ forall vp, viewportAt s (draft_pageIndex d) = Some vp ->
                      boxInside vp (textFieldDraft s) -> inside vp d)
  /\ (forall event s drag vp,
        textFieldDrag s = Some drag ->
        viewportAt s (drag_pageIndex drag) = Some vp ->
        0 <= drag_startX drag -> drag_startX drag <= vp_width vp ->
        0 <= drag_startY drag -> drag_startY drag <= vp_height vp ->
        boxInside vp (textFieldDraft (handleTextFieldPointerMove event s)))
  /\ (forall newId s d,
        In d (drafts (handleTextPointerUp newId s)) ->
        In d (drafts s)
        \/ forall vp, viewportAt s (draft_pageIndex d) = Some vp ->
                      140 <= vp_width vp -> 32 <= vp_height vp ->
                      boxFits vp (textDraftBox s) -> inside vp d)
  /\ (forall event s drag vp,
        textDrag s = Some drag ->
        viewportAt s (drag_pageIndex drag) = Some vp ->
        0 <= drag_startX drag -> drag_startX drag <= vp_width vp ->
        0 <= drag_startY drag -> drag_startY drag <= vp_height vp ->
        boxFits vp (textDraftBox (handleTextPointerMove event s)))
  /\ (forall newId event s d,
        In d (drafts (handleCanvasClick newId event s)) ->
        In d (drafts s)
        \/ forall vp, viewportAt s (draft_pageIndex d) = Some vp ->
                      placementFits vp (activeTool s) -> inside vp d)
  /\ (forall newId press moves s cv vp d,
        startsDrawing TEXT press cv s ->
        viewportAt s (canvas_pageIndex cv) = Some vp ->
        140 <= vp_width vp -> 32 <= vp_height vp ->
        pressedInside press cv vp ->
        In d (drafts (drawTextBox newId press moves s)) ->
        In d (drafts s)
        \/ (draft_pageIndex d = canvas_pageIndex cv /\ inside vp d))
  /\ (forall newId press moves s cv vp d,
        startsDrawing TEXT_FIELD press cv s ->
        viewportAt s (canvas_pageIndex cv) = Some vp ->
        pressedInside press cv vp ->
        In d (drafts (drawTextField newId press moves s)) ->
        In d (drafts s)
        \/ (draft_pageIndex d = canvas_pageIndex cv /\ inside vp d)).
Proof.
  split; [exact moved_or_resized_inside |].
  split; [exact drawn_field_inside |].
  split; [exact field_box_after_move |].
  split; [exact drawn_text_inside |].
  split; [exact text_box_after_move |].
  split; [exact placed_inside |].
  split; [exact text_gesture_inside | exact field_gesture_inside].
Qed.

Lemma draft_rectangles_inside_viewport_witness :
  inside letterViewport
    (clampDraft (session letterViewport Reference.pdfHeader PAN [checkboxAt 600 10])
       (draggedDraft
          {| ds_id := "draft-1"; ds_startX := 0; ds_startY := 0;
             ds_draft := checkboxAt 600 10; ds_mode := Move; ds_handle := "" |}
          (pointerAt 900 (-50))))
  /\ Forall (inside letterViewport)
       (drafts (drawTextBox "draft-2" (pointerAt 600 10) [pointerAt (-50) 100]
                  (session letterViewport Reference.pdfHeader TEXT []))).
Proof.
  split.
  - destruct (proj1 draft_rectangles_inside_viewport
                (pointerAt 900 (-50))
                (set_dragState
                   (Some {| ds_id := "draft-1"; ds_startX := 0; ds_startY := 0;
                            ds_draft := checkboxAt 600 10; ds_mode := Move;
                            ds_handle := "" |})
                   (session letterViewport Reference.pdfHeader PAN
                      [checkboxAt 600 10]))
                _ (or_introl eq_refl)) as [H | H].
    + exfalso. destruct H as [H | []]. vm_compute in H. discriminate H.
    + exact (H letterViewport eq_refl).
  - apply Forall_forall. intros d I.
    destruct (proj1 (proj2 (proj2 (proj2 (proj2 (proj2 (proj2
                draft_rectangles_inside_viewport))))))
                "draft-2" (pointerAt 600 10) [pointerAt (-50) 100]
                (session letterViewport Reference.pdfHeader TEXT [])
                {| canvas_pageIndex := 0; canvas_left := 0; canvas_top := 0 |}
                letterViewport d) as [[] | [_ H]].
    + repeat split; reflexivity.
    + reflexivity.
    + vm_compute. discriminate.
    + vm_compute. discriminate.
    + repeat split; vm_compute; discriminate.
    + exact I.
    + exact H.
Defined.

(** On a page shown 100 by 100, a text box drawn with the 140 by 32 minimum
    reaches past the right edge, and a signature placed by a click starts left
    of the page. *)
Lemma small_viewport_drafts_overflow :
  ~ Forall (inside stripViewport)
      (drafts (handleTextPointerUp "draft-2"
                 (set_textDrag (Some (dragFrom 10 10))
                    (session stripViewport Reference.pdfHeader TEXT []))))
  /\ ~ Forall (inside stripViewport)
         (drafts (handleCanvasClick "draft-3" (pointerAt 50 50)
                    (session stripViewport Reference.pdfHeader SIGNATURE []))).
Proof.
  split; intro H; inversion H as [| d ds Hd _ E]; subst;
    destruct Hd as (X0 & X1 & Y0 & Y1).
  - vm_compute in X1. apply X1. reflexivity.
  - vm_compute in X0. apply X0. reflexivity.
Qed.

End DraftStore.

(* ================================================================== *)
(** * Export *)
(* ================================================================== *)

Section ExportFlow.

Import PdfUtils App Spec.

Lemma composeDrafts_app (L : Env) (s : State) (data : bytes)
  (pre post : list Draft) :
  composeDrafts L s data (pre ++ post)
  = (before <- composeDrafts L s data pre ;; composeDrafts L s before post).
Proof.
  revert data. induction pre as [| d pre IH]; intro data; [reflexivity |].
  cbn [composeDrafts app].
  destruct (applyDraft L s data d) as [next | e]; cbn [bind]; [apply IH | reflexivity].
Qed.

(** The loop reads the state only for the viewports and the flag. *)
Lemma composeDrafts_ext (L : Env) (s s' : State) (data : bytes)
  (ds : list Draft) :
  pageViewports s' = pageViewports s ->
  includeVisualSignature s' = includeVisualSignature s ->
  composeDrafts L s' data ds = composeDrafts L s data ds.
Proof.
  intros Hv Hi. revert data.
  induction ds as [| d ds IH]; intro data; [reflexivity |].
  cbn [composeDrafts].
  assert (E : applyDraft L s' data d = applyDraft L s data d).
  { unfold applyDraft, resolveDraftRect, viewportAt. rewrite Hv, Hi. reflexivity. }
  rewrite E. destruct (applyDraft L s data d); cbn [bind]; [apply IH | reflexivity].
Qed.

Lemma compositeStep_context (L : Env) (includeVisual : bool) (data : bytes)
  (d : Draft) (rect : PdfRect) (step : Result bytes) (context : string) :
  compositeStep L includeVisual data d rect = Some (step, context) ->
  context = stepName (draft_type d).
Proof.
  unfold compositeStep.
  destruct (draft_type d); cbn [stepName]; try discriminate;
    try (intro H; injection H as _ <-; reflexivity).
  destruct (negb includeVisual); [discriminate |].
  destruct (draft_dataUrl d) as [url |]; [| discriminate].
  destruct (negb (nonEmpty url)); [discriminate |].
  intro H. injection H as _ <-. reflexivity.
Qed.

(** With a document that passes the header check and a save target, the
    handler reaches the [try] block. *)
Lemma handleExport_reaches_try (L : Env) (window : option PdfApi) (s : State)
  (data : bytes) (savePath : option string) :
  noPdf s = false ->
  normalizePdfBytes L (pdfBytes s) = Some data ->
  hasPdfHeader data = true ->
  saveTarget window (pdfName s) savePath ->
  handleExport L window s
  = exportFrom L window savePath data (set_signError "" s).
Proof.
  intros Hn Hb Hh Ht. unfold handleExport. rewrite Hn.
  cbn [pdfBytes set_signError pdfName]. rewrite Hb, Hh. cbn [negb].
  unfold saveTarget in Ht.
  destruct (entry window savePdfPath) as [ask |].
  - destruct Ht as (path & Ha & Hp & ->). rewrite Ha, Hp. reflexivity.
  - subst savePath. reflexivity.
Qed.

Lemma signStage_stop_keeps (L : Env) (window : option PdfApi) (s s' : State)
  (data : bytes) :
  signStage L window s data = Ok (Stop s') ->
  pdfBytes s' = pdfBytes s /\ drafts s' = drafts s.
Proof.
  unfold signStage.
  destruct (lastSignatureDraft s) as [sd |]; [| discriminate].
  destruct (negb (nonEmpty (certificateData s))); [discriminate |].
  destruct (entry window signPdf) as [sign |];
    [| intro H; injection H as <-; split; reflexivity].
  destruct (resolveDraftRect s sd) as [rect |];
    [| intro H; injection H as <-; split; reflexivity].
  destruct (sign (signRequest L s data rect)) as [[[error | reply] |] | e];
    cbn [bind]; try discriminate.
  - destruct (nonEmpty error); [| discriminate].
    intro H; injection H as <-. split; reflexivity.
  - destruct (nonEmpty reply); [| discriminate].
    destruct (base64ToBytes L reply) as [signed | e]; cbn [bind]; [| discriminate].
    destruct (ensurePdf signed "signing"); cbn [bind]; discriminate.
Qed.

(** How the [try] block and the write end, after a loop that went through. *)
Lemma exportFrom_after_loop (L : Env) (window : option PdfApi)
  (savePath : option string) (data composed : bytes) (s : State) :
  composeDrafts L s data (drafts s) = Ok composed ->
  exportFrom L window savePath data (set_signError "" s)
  = match signStage L window (set_signError "" s) composed with
    | Throw error =>
        reportFailure "Export failed" error
          "Export failed. Please try again or reopen the PDF."
          (set_signError "" s)
    | Ok (Stop s') => s'
    | Ok (Proceed final didSign) =>
        let '(effect, written) :=
          deliver window savePath (pdfName s) (bytesToBase64 L final) final in
        match written with
        | Throw error =>
            reportFailure "Write failed" error
              "Failed to write the PDF. Please try again."
              (logEffect effect (set_signError "" s))
        | Ok _ =>
            finishExport savePath final didSign
              (logEffect effect (set_signError "" s))
        end
    end.
Proof.
  intro C. unfold exportFrom.
  change (drafts (set_signError "" s)) with (drafts s).
  rewrite (composeDrafts_ext L s (set_signError "" s)) by reflexivity.
  rewrite C. reflexivity.
Qed.

Lemma exportFrom_changes_after_success (L : Env) (window : option PdfApi)
  (savePath : option string) (data : bytes) (s : State) :
  pdfBytes (exportFrom L window savePath data (set_signError "" s))
  <> pdfBytes s
  \/ drafts (exportFrom L window savePath data (set_signError "" s))
     <> drafts s ->
  exists (composed final : bytes) (didSign : bool) (effect : Effect),
    composeDrafts L s data (drafts s) = Ok composed
    /\ signStage L window (set_signError "" s) composed
       = Ok (Proceed final didSign)
    /\ deliver window savePath (pdfName s) (bytesToBase64 L final) final
       = (effect, Ok tt)
    /\ exportFrom L window savePath data (set_signError "" s)
       = finishExport savePath final didSign
           (logEffect effect (set_signError "" s))
    /\ pdfBytes (exportFrom L window savePath data (set_signError "" s))
       = Some (AsUint8Array final)
    /\ drafts (exportFrom L window savePath data (set_signError "" s)) = [].
Proof.
  intro Changed.
  destruct (composeDrafts L s data (drafts s)) as [composed | e] eqn:Hc.
  - rewrite (exportFrom_after_loop L window savePath data composed s Hc)
      in Changed |- *.
    destruct (signStage L window (set_signError "" s) composed)
      as [[final didSign | s'] | e] eqn:Hs.
    + destruct (deliver window savePath (pdfName s) (bytesToBase64 L final)
                  final) as [effect [[] | error]] eqn:Hw.
      * exists composed, final, didSign, effect.
        split; [reflexivity |]. split; [exact Hs |].
        split; [exact Hw |]. split; [reflexivity |].
        unfold finishExport.
        destruct savePath, didSign;
          try destruct (negb (includesString "signed" (toLowerCase (pdfName _))));
          split; reflexivity.
      * exfalso. destruct Changed as [N | N]; apply N; reflexivity.
    + exfalso. destruct (signStage_stop_keeps L window _ s' composed Hs) as [B D].
      destruct Changed as [N | N]; apply N; [exact B | exact D].
    + exfalso. destruct Changed as [N | N]; apply N; reflexivity.
  - exfalso. unfold exportFrom in Changed.
    change (drafts (set_signError "" s)) with (drafts s) in Changed.
    rewrite (composeDrafts_ext L s (set_signError "" s)) in Changed
      by reflexivity.
    rewrite Hc in Changed. cbn [bind] in Changed.
    destruct Changed as [N | N]; apply N; reflexivity.
Qed.

(** C1.  Let the document in memory pass the header check and the save
    dialog, if any, give a target.  If the drafts before [d] compose without
    error and the composite step of [d] yields bytes that do not begin with
    the PDF header, then the export stops there: the error raised names the
    step of [d] and is written to the console, the user is shown the
    export-failed message, nothing is written, and the document bytes and
    the drafts are those from before the export.  The same holds when every
    step succeeds and the write throws: the failure is written to the
    console, the user is shown the write-failed message, and the document
    bytes and the drafts are kept.  And, whatever the state, the document
    bytes are replaced and the drafts cleared only after everything
    succeeded: whenever an export changes either, the document passed the
    header check, the save dialog gave a target, the loop composed every
    draft, the signing stage let the export proceed and the write returned
    without throwing, which is all the handler looks at; the bytes stored
    are then the bytes written and the store is empty. *)
Theorem export_aborts_on_invalid_step (L : Env) (window : option PdfApi)
  (s : State) :
  (forall (data : bytes) (savePath : option string),
      noPdf s = false ->
      normalizePdfBytes L (pdfBytes s) = Some data ->
      hasPdfHeader data = true ->
      saveTarget window (pdfName s) savePath ->
      (forall (pre post : list Draft) (d : Draft) (rect : PdfRect)
              (before after : bytes) (step : Result bytes) (context : string),
          drafts s = (pre ++ d :: post)%list ->
          composeDrafts L s data pre = Ok before ->
          resolveDraftRect s d = Some rect ->
          compositeStep L (includeVisualSignature s) before d rect
          = Some (step, context) ->
          step = Ok after ->
          hasPdfHeader after = false ->
          handleExport L window s
          = reportFailure "Export failed"
              ("Invalid PDF data after " ++ stepName (draft_type d) ++ ".")
              "Export failed. Please try again or reopen the PDF."
              (set_signError "" s)
          /\ pdfBytes (handleExport L window s) = pdfBytes s
          /\ drafts (handleExport L window s) = drafts s
          /\ log (handleExport L window s)
             = (log s
                ++ [ConsoleError "Export failed"
                      ("Invalid PDF data after "
                       ++ stepName (draft_type d) ++ ".")])%list
          /\ signError (handleExport L window s)
             = "Export failed. Please try again or reopen the PDF.")
      /\ (forall (composed final : bytes) (didSign : bool) (effect : Effect)
                 (error : string),
            composeDrafts L s data (drafts s) = Ok composed ->
            signStage L window (set_signError "" s) composed
            = Ok (Proceed final didSign) ->
            deliver window savePath (pdfName s) (bytesToBase64 L final) final
            = (effect, Throw error) ->
            handleExport L window s
            = reportFailure "Write failed" error
                "Failed to write the PDF. Please try again."
                (logEffect effect (set_signError "" s))
            /\ pdfBytes (handleExport L window s) = pdfBytes s
            /\ drafts (handleExport L window s) = drafts s
            /\ log (handleExport L window s)
               = (log s ++ [effect; ConsoleError "Write failed" error])%list
            /\ signError (handleExport L window s)
               = "Failed to write the PDF. Please try again."))
  /\ (pdfBytes (handleExport L window s) <> pdfBytes s
      \/ drafts (handleExport L window s) <> drafts s ->
      exists (data : bytes) (savePath : option string)
             (composed final : bytes) (didSign : bool) (effect : Effect),
        noPdf s = false
        /\ normalizePdfBytes L (pdfBytes s) = Some data
        /\ hasPdfHeader data = true
        /\ saveTarget window (pdfName s) savePath
        /\ composeDrafts L s data (drafts s) = Ok composed
        /\ signStage L window (set_signError "" s) composed
           = Ok (Proceed final didSign)
        /\ deliver window savePath (pdfName s) (bytesToBase64 L final) final
           = (effect, Ok tt)
        /\ handleExport L window s
           = finishExport savePath final didSign
               (logEffect effect (set_signError "" s))
        /\ pdfBytes (handleExport L window s) = Some (AsUint8Array final)
        /\ drafts (handleExport L window s) = []).
Proof.
  split.
  - intros data savePath Hn Hb Hh Ht.
    pose proof (handleExport_reaches_try L window s data savePath Hn Hb Hh Ht)
      as Reach.
    split.
    + intros pre post d rect before after step context
        Hd Hpre Hrect Hstep Hres Hbad.
      pose proof (compositeStep_context _ _ _ _ _ _ _ Hstep) as Hc. subst context.
      assert (E : handleExport L window s
                  = reportFailure "Export failed"
                      ("Invalid PDF data after " ++ stepName (draft_type d) ++ ".")
                      "Export failed. Please try again or reopen the PDF."
                      (set_signError "" s)).
      { rewrite Reach. unfold exportFrom.
        cbn [drafts set_signError].
        rewrite (composeDrafts_ext L s (set_signError "" s)) by reflexivity.
        rewrite Hd, composeDrafts_app, Hpre. cbn [bind composeDrafts].
        unfold applyDraft. rewrite Hrect, Hstep, Hres. cbn [bind].
        unfold ensurePdf. rewrite Hbad. cbn [negb bind]. reflexivity. }
      rewrite E. repeat split; reflexivity.
    + intros composed final didSign effect error Hc Hs Hw.
      assert (E : handleExport L window s
                  = reportFailure "Write failed" error
                      "Failed to write the PDF. Please try again."
                      (logEffect effect (set_signError "" s))).
      { rewrite Reach, (exportFrom_after_loop L window savePath data composed s Hc).
        rewrite Hs, Hw. reflexivity. }
      rewrite E. split; [reflexivity |]. split; [reflexivity |].
      split; [reflexivity |]. split; [| reflexivity].
      cbn. rewrite <- app_assoc. reflexivity.
  - assert (X : forall data savePath,
               noPdf s = false ->
               normalizePdfBytes L (pdfBytes s) = Some data ->
               hasPdfHeader data = true ->
               saveTarget window (pdfName s) savePath ->
               handleExport L window s
               = exportFrom L window savePath data (set_signError "" s) ->
               pdfBytes (handleExport L window s) <> pdfBytes s
               \/ drafts (handleExport L window s) <> drafts s ->
               exists (data : bytes) (savePath : option string)
                      (composed final : bytes) (didSign : bool)
                      (effect : Effect),
                 noPdf s = false
                 /\ normalizePdfBytes L (pdfBytes s) = Some data
                 /\ hasPdfHeader data = true
                 /\ saveTarget window (pdfName s) savePath
                 /\ composeDrafts L s data (drafts s) = Ok composed
                 /\ signStage L window (set_signError "" s) composed
                    = Ok (Proceed final didSign)
                 /\ deliver window savePath (pdfName s) (bytesToBase64 L final)
                      final = (effect, Ok tt)
                 /\ handleExport L window s
                    = finishExport savePath final didSign
                        (logEffect effect (set_signError "" s))
                 /\ pdfBytes (handleExport L window s)
                    = Some (AsUint8Array final)
                 /\ drafts (handleExport L window s) = []).
    { intros data savePath Hn Hb Hh Ht Reach Changed.
      rewrite Reach in Changed. rewrite Reach.
      destruct (exportFrom_changes_after_success L window savePath data s
                  Changed)
        as (composed & final & didSign & effect & F1 & F2 & F3 & F4 & F5 & F6).
      exists data, savePath, composed, final, didSign, effect.
      repeat (split; [assumption |]). assumption. }
    intro Changed.
    destruct (noPdf s) eqn:Hn.
    { exfalso. unfold handleExport in Changed. rewrite Hn in Changed.
      destruct Changed as [N | N]; apply N; reflexivity. }
    destruct (normalizePdfBytes L (pdfBytes s)) as [data |] eqn:Hb.
    2:{ exfalso. unfold handleExport in Changed. rewrite Hn in Changed.
        cbn [pdfBytes set_signError] in Changed. rewrite Hb in Changed.
        destruct Changed as [N | N]; apply N; reflexivity. }
    destruct (hasPdfHeader data) eqn:Hh.
    2:{ exfalso. unfold handleExport in Changed. rewrite Hn in Changed.
        cbn [pdfBytes set_signError] in Changed. rewrite Hb, Hh in Changed.
        destruct Changed as [N | N]; apply N; reflexivity. }
    destruct (entry window savePdfPath) as [ask |] eqn:He.
    + destruct (ask (pdfName s)) as [[path |] | error] eqn:Ha.
      * destruct (nonEmpty path) eqn:Hp.
        -- assert (Ht : saveTarget window (pdfName s) (Some path)).
           { unfold saveTarget. rewrite He. exists path.
             split; [exact Ha |]. split; [exact Hp | reflexivity]. }
           apply (X data (Some path) eq_refl eq_refl Hh Ht); [| exact Changed].
           apply (handleExport_reaches_try L window s data (Some path)
                    Hn Hb Hh Ht).
        -- exfalso. unfold handleExport in Changed. rewrite Hn in Changed.
           cbn [pdfBytes set_signError pdfName] in Changed.
           rewrite Hb, Hh, He, Ha, Hp in Changed.
           destruct Changed as [N | N]; apply N; reflexivity.
      * exfalso. unfold handleExport in Changed. rewrite Hn in Changed.
        cbn [pdfBytes set_signError pdfName] in Changed.
        rewrite Hb, Hh, He, Ha in Changed.
        destruct Changed as [N | N]; apply N; reflexivity.
      * exfalso. unfold handleExport in Changed. rewrite Hn in Changed.
        cbn [pdfBytes set_signError pdfName] in Changed.
        rewrite Hb, Hh, He, Ha in Changed.
        destruct Changed as [N | N]; apply N; reflexivity.
    + assert (Ht : saveTarget window (pdfName s) None).
      { unfold saveTarget. rewrite He. reflexivity. }
      apply (X data None eq_refl eq_refl Hh Ht); [| exact Changed].
      apply (handleExport_reaches_try L window s data None Hn Hb Hh Ht).
Qed.

(** C8.  With no draft in the store and a document that passes the header
    check, the loop leaves the bytes as they are and no signing is tried.
    Whatever the export then writes, saves or offers for download is the
    input bytes, the other effects being console messages; and the document
    in memory is left as it was or becomes those same bytes.  When the save
    target is given and the write goes through, the export completes with
    that single write. *)
Theorem export_without_drafts (L : Env) (window : option PdfApi) (s : State)
  (data : bytes) :
  noPdf s = false ->
  normalizePdfBytes L (pdfBytes s) = Some data ->
  hasPdfHeader data = true ->
  drafts s = [] ->
  composeDrafts L s data (drafts s) = Ok data
  /\ (forall e,
        In e (log (handleExport L window s)) ->
        In e (log s) \/ carries L data e \/ isConsoleError e)
  /\ (pdfBytes (handleExport L window s) = pdfBytes s
      \/ pdfBytes (handleExport L window s) = Some (AsUint8Array data))
  /\ (forall savePath effect,
        saveTarget window (pdfName s) savePath ->
        deliver window savePath (pdfName s) (bytesToBase64 L data) data
        = (effect, Ok tt) ->
        carries L data effect
        /\ handleExport L window s
           = finishExport savePath data false
               (logEffect effect (set_signError "" s))).
Proof.
  intros Hn Hb Hh Hd.
  assert (X : forall savePath,
             exportFrom L window savePath data (set_signError "" s)
             = let '(effect, written) :=
                 deliver window savePath (pdfName s) (bytesToBase64 L data) data in
               match written with
               | Throw error =>
                   reportFailure "Write failed" error
                     "Failed to write the PDF. Please try again."
                     (logEffect effect (set_signError "" s))
               | Ok _ =>
                   finishExport savePath data false
                     (logEffect effect (set_signError "" s))
               end).
  { intro savePath. unfold exportFrom, signStage, lastSignatureDraft.
    cbn [drafts set_signError]. rewrite Hd. reflexivity. }
  assert (C : forall savePath effect written,
             deliver window savePath (pdfName s) (bytesToBase64 L data) data
             = (effect, written) -> carries L data effect).
  { intros savePath effect written. unfold deliver.
    destruct (entry window writePdf) as [write |], savePath as [path |];
      try (intro H; injection H as <- _; reflexivity);
      destruct (entry window savePdf) as [saveTo |];
      intro H; injection H as <- _; reflexivity. }
  assert (Y : forall savePath,
             (forall e,
                 In e (log (exportFrom L window savePath data (set_signError "" s))) ->
                 In e (log s) \/ carries L data e \/ isConsoleError e)
             /\ (pdfBytes (exportFrom L window savePath data (set_signError "" s))
                 = pdfBytes s
                 \/ pdfBytes (exportFrom L window savePath data (set_signError "" s))
                    = Some (AsUint8Array data))).
  { intro savePath. rewrite X.
    destruct (deliver window savePath (pdfName s) (bytesToBase64 L data) data)
      as [effect written] eqn:D.
    pose proof (C _ _ _ D) as Hc.
    destruct written as [[] | error].
    - split.
      + intros e He.
        assert (L1 : log (finishExport savePath data false
                            (logEffect effect (set_signError "" s)))
                     = (log s ++ [effect])%list)
          by (destruct savePath; reflexivity).
        rewrite L1 in He. apply in_app_or in He.
        destruct He as [He | [<- | []]]; [left; exact He | right; left; exact Hc].
      + right. destruct savePath; reflexivity.
    - split.
      + intros e He. cbn in He. apply in_app_or in He.
        destruct He as [He | [<- | []]]; [| right; right; exact I].
        apply in_app_or in He.
        destruct He as [He | [<- | []]]; [left; exact He | right; left; exact Hc].
      + left. reflexivity. }
  split; [rewrite Hd; reflexivity |].
  split; [| split].
  - unfold handleExport. rewrite Hn. cbn [pdfBytes set_signError pdfName].
    rewrite Hb, Hh. cbn [negb].
    destruct (entry window savePdfPath) as [ask |]; [| apply Y].
    destruct (ask (pdfName s)) as [[path |] | error].
    + destruct (nonEmpty path); [apply Y |]. intros e He. left. exact He.
    + intros e He. left. exact He.
    + intros e He. cbn in He. apply in_app_or in He.
      destruct He as [He | [<- | []]]; [left; exact He | right; right; exact I].
  - unfold handleExport. rewrite Hn. cbn [pdfBytes set_signError pdfName].
    rewrite Hb, Hh. cbn [negb].
    destruct (entry window savePdfPath) as [ask |]; [| apply Y].
    destruct (ask (pdfName s)) as [[path |] | error].
    + destruct (nonEmpty path); [apply Y |]. left. reflexivity.
    + left. reflexivity.
    + left. reflexivity.
  - intros savePath effect Ht D. split; [exact (C _ _ _ D) |].
    rewrite (handleExport_reaches_try L window s data savePath Hn Hb Hh Ht).
    rewrite X, D. reflexivity.
Qed.

Lemma export_aborts_on_invalid_step_witness :
  (drafts (handleExport Reference.broken None
             (session letterViewport Reference.pdfHeader PAN [checkboxAt 100 100]))
   = [checkboxAt 100 100]
   /\ log (handleExport Reference.broken None
             (session letterViewport Reference.pdfHeader PAN [checkboxAt 100 100]))
      = [ConsoleError "Export failed" "Invalid PDF data after adding checkbox."])
  /\ (pdfBytes (handleExport Reference.env (Some fullDisk)
                  (session letterViewport Reference.pdfHeader PAN
                     [checkboxAt 100 100]))
      = Some (AsUint8Array Reference.pdfHeader)
      /\ drafts (handleExport Reference.env (Some fullDisk)
                   (session letterViewport Reference.pdfHeader PAN
                      [checkboxAt 100 100]))
         = [checkboxAt 100 100]).
Proof.
  split.
  - pose proof (proj1 (proj1 (export_aborts_on_invalid_step Reference.broken
                                None
                                (session letterViewport Reference.pdfHeader PAN
                                   [checkboxAt 100 100]))
                         Reference.pdfHeader None
                         eq_refl eq_refl eq_refl eq_refl)
                  [] [] (checkboxAt 100 100)
                  _ Reference.pdfHeader [] (Ok []) "adding checkbox"
                  eq_refl eq_refl eq_refl eq_refl eq_refl eq_refl)
      as (_ & _ & Hd & Hl & _).
    split; [exact Hd | exact Hl].
  - pose proof (proj2 (proj1 (export_aborts_on_invalid_step Reference.env
                                (Some fullDisk)
                                (session letterViewport Reference.pdfHeader PAN
                                   [checkboxAt 100 100]))
                         Reference.pdfHeader None
                         eq_refl eq_refl eq_refl eq_refl)
                  _ _ false _ _ eq_refl eq_refl eq_refl)
      as (_ & Hb & Hd & _).
    split; [exact Hb | exact Hd].
Defined.

Lemma export_without_drafts_witness :
  handleExport Reference.env None
    (session letterViewport Reference.pdfHeader PAN [])
  = finishExport None Reference.pdfHeader false
      (logEffect (Download Reference.pdfHeader "form.pdf")
         (set_signError ""
            (session letterViewport Reference.pdfHeader PAN []))).
Proof.
  exact (proj2 (proj2 (proj2 (proj2
           (export_without_drafts Reference.env None
              (session letterViewport Reference.pdfHeader PAN [])
              Reference.pdfHeader eq_refl eq_refl eq_refl eq_refl)))
           None (Download Reference.pdfHeader "form.pdf") eq_refl eq_refl)).
Defined.

End ExportFlow.

(* ================================================================== *)
(** * Wrapping text *)
(* ================================================================== *)

Section Words.

Import PdfUtils Spec.

Lemma append_nil_r (s : string) : s ++ "" = s.
Proof. induction s as [| c s IH]; cbn; [reflexivity | rewrite IH; reflexivity]. Qed.

Lemma append_assoc (a b c : string) : (a ++ b) ++ c = a ++ (b ++ c).
Proof. induction a as [| x a IH]; cbn; [reflexivity | rewrite IH; reflexivity]. Qed.

Lemma append_empty (a b : string) : a ++ b = "" -> a = "".
Proof. destruct a; [reflexivity | discriminate]. Qed.

Lemma spaceFree_app (a b : string) :
  spaceFree a = true -> spaceFree b = true -> spaceFree (a ++ b) = true.
Proof.
  induction a as [| c a IH]; cbn; [auto |].
  intros H Hb. apply Bool.andb_true_iff in H. destruct H as [Hc Ha].
  rewrite Hc. cbn. apply IH; assumption.
Qed.

Lemma wordsFrom_nil (cur : string) :
  wordsFrom cur "" = if String.eqb cur "" then [] else [cur].
Proof. reflexivity. Qed.

Lemma wordsFrom_space (cur : string) (c : ascii) (rest : string) :
  isWhiteSpace c = true ->
  wordsFrom cur (String c rest) = (wordsFrom cur "" ++ wordsFrom "" rest)%list.
Proof.
  intro H. cbn [wordsFrom]. rewrite H.
  destruct (String.eqb cur ""); reflexivity.
Qed.

Lemma wordsFrom_spaceFree (w s cur : string) :
  spaceFree w = true -> wordsFrom cur (w ++ s) = wordsFrom (cur ++ w) s.
Proof.
  revert cur. induction w as [| c w IH]; intros cur H.
  - rewrite append_nil_r. reflexivity.
  - cbn in H. apply Bool.andb_true_iff in H. destruct H as [Hc Hw].
    apply Bool.negb_true_iff in Hc.
    cbn [append wordsFrom]. rewrite Hc. rewrite IH by exact Hw.
    rewrite append_assoc. reflexivity.
Qed.

Lemma words_word (w : string) : isWord w -> words w = [w].
Proof.
  intros [Hne Hs]. unfold words.
  rewrite <- (append_nil_r w) at 1. rewrite wordsFrom_spaceFree by exact Hs.
  cbn [append wordsFrom].
  destruct (String.eqb_spec w ""); [contradiction | reflexivity].
Qed.

Lemma words_cons (w rest : string) :
  isWord w -> words (w ++ " " ++ rest) = w :: words rest.
Proof.
  intros [Hne Hs]. unfold words.
  rewrite wordsFrom_spaceFree by exact Hs.
  cbn [append]. rewrite wordsFrom_space by reflexivity.
  cbn [append wordsFrom].
  destruct (String.eqb_spec w ""); [contradiction | reflexivity].
Qed.

Lemma words_unwords (ws : list string) :
  Forall isWord ws -> words (unwords ws) = ws.
Proof.
  induction ws as [| w rest IH]; intro H; [reflexivity |].
  inversion H as [| ? ? Hw Hrest]; subst.
  destruct rest as [| x rest'].
  - cbn. apply words_word. exact Hw.
  - change (unwords (w :: x :: rest')) with (w ++ " " ++ unwords (x :: rest')).
    rewrite words_cons by exact Hw. rewrite IH by exact Hrest. reflexivity.
Qed.

Lemma unwords_snoc (g : list string) (w : string) :
  g <> [] -> unwords (g ++ [w]) = unwords g ++ " " ++ w.
Proof.
  induction g as [| a g IH]; intro H; [contradiction |].
  destruct g as [| b g'].
  - reflexivity.
  - change (unwords ((a :: b :: g') ++ [w]))
      with (a ++ " " ++ unwords ((b :: g') ++ [w])).
    rewrite IH by discriminate.
    change (unwords (a :: b :: g')) with (a ++ " " ++ unwords (b :: g')).
    rewrite !append_assoc. reflexivity.
Qed.

Lemma unwords_nonEmpty (g : list string) :
  Forall isWord g -> g <> [] -> nonEmpty (unwords g) = true.
Proof.
  intros H Hne. destruct g as [| a g]; [contradiction |].
  inversion H as [| ? ? [Ha _] _]; subst.
  unfold nonEmpty.
  destruct (String.eqb_spec (unwords (a :: g)) "") as [E |]; [| reflexivity].
  exfalso. apply Ha. destruct g; [exact E |].
  apply (append_empty a _ E).
Qed.

Lemma wordsFrom_are_words (s cur : string) :
  spaceFree cur = true -> Forall isWord (wordsFrom cur s).
Proof.
  revert cur. induction s as [| c s IH]; intros cur H.
  - cbn. destruct (String.eqb_spec cur ""); constructor; [| constructor].
    split; assumption.
  - cbn [wordsFrom]. destruct (isWhiteSpace c) eqn:W.
    + destruct (String.eqb_spec cur ""); [apply IH; reflexivity |].
      constructor; [split; assumption | apply IH; reflexivity].
    + apply IH. apply spaceFree_app; [exact H |].
      cbn. rewrite W. reflexivity.
Qed.

Lemma words_are_words (s : string) : Forall isWord (words s).
Proof. apply wordsFrom_are_words. reflexivity. Qed.

Lemma splitOn_not_nil (c : ascii) (s : string) : splitOn c s <> [].
Proof.
  destruct s as [| d s]; cbn [splitOn]; [discriminate |].
  destruct (Ascii.eqb c d); [discriminate |].
  destruct (splitOn c s); discriminate.
Qed.

Lemma splitOn_words (c : ascii) (s cur : string) :
  isWhiteSpace c = true ->
  match splitOn c s with
  | piece :: pieces => (wordsFrom cur piece ++ List.concat (map words pieces))%list
  | [] => []
  end = wordsFrom cur s.
Proof.
  intro Hc. revert cur. induction s as [| d s IH]; intro cur.
  - cbn [splitOn map List.concat]. apply app_nil_r.
  - cbn [splitOn]. pose proof (splitOn_not_nil c s) as NN.
    destruct (splitOn c s) as [| piece pieces]; [contradiction |].
    destruct (Ascii.eqb_spec c d) as [<- | Hd].
    + rewrite wordsFrom_space by exact Hc. rewrite <- (IH ""). reflexivity.
    + destruct (isWhiteSpace d) eqn:W.
      * rewrite !wordsFrom_space by exact W. rewrite <- (IH "").
        rewrite <- app_assoc. reflexivity.
      * cbn [wordsFrom]. rewrite W. exact (IH (cur ++ String d "")).
Qed.

Lemma splitOn_keeps_words (c : ascii) (s : string) :
  isWhiteSpace c = true -> List.concat (map words (splitOn c s)) = words s.
Proof.
  intro Hc. pose proof (splitOn_words c s "" Hc) as H.
  destruct (splitOn c s) as [| piece pieces]; exact H.
Qed.

End Words.

Section Wrapping.

Import PdfUtils Spec.

Variable measure : string -> Q.
Variable maxWidth : Q.

(** The lines [wrapWords] returns are groups of whole words, each group
    fitting, and the groups in order hold the words taken in. *)
Lemma wrapWords_groups (ws g : list string) :
  Forall isWord g -> Forall isWord ws -> fits measure maxWidth g ->
  exists groups glast,
    wrapWords measure maxWidth (unwords g) ws
    = (map unwords groups, unwords glast)
    /\ Forall (fun group => Forall isWord group /\ fits measure maxWidth group)
         (groups ++ [glast])
    /\ (List.concat groups ++ glast)%list = (g ++ ws)%list.
Proof.
  revert g. induction ws as [| word rest IH]; intros g Hg Hws Hf.
  - exists [], g. split; [reflexivity |]. split.
    + constructor; [split; assumption | constructor].
    + cbn. rewrite app_nil_r. reflexivity.
  - inversion Hws as [| ? ? Hword Hrest]; subst.
    assert (One : Forall isWord [word]) by (constructor; [exact Hword | constructor]).
    assert (FOne : fits measure maxWidth [word]) by (left; cbn; lia).
    cbn [wrapWords]. destruct g as [| a g'].
    + cbn [unwords]. change (nonEmpty "") with false.
      rewrite Bool.andb_false_r.
      destruct (IH [word] One Hrest FOne) as (groups & glast & E & F & C).
      cbn [unwords] in E. rewrite E.
      exists groups, glast. split; [reflexivity |]. split; assumption.
    + rewrite (unwords_nonEmpty (a :: g') Hg) by discriminate.
      rewrite <- (unwords_snoc (a :: g') word) by discriminate.
      destruct (Qle_bool (measure (unwords ((a :: g') ++ [word])%list)) maxWidth)
        eqn:Fit.
      * cbn [negb andb].
        destruct (IH ((a :: g') ++ [word])%list) as (groups & glast & E & F & C).
        -- apply Forall_app. split; assumption.
        -- exact Hrest.
        -- right. apply Qle_bool_iff. exact Fit.
        -- rewrite E. exists groups, glast.
           split; [reflexivity |]. split; [exact F |].
           rewrite C, <- app_assoc. reflexivity.
      * cbn [negb andb].
        destruct (IH [word] One Hrest FOne) as (groups & glast & E & F & C).
        cbn [unwords] in E. rewrite E.
        exists ((a :: g') :: groups), glast.
        split; [reflexivity |]. split.
        -- constructor; [split; assumption | exact F].
        -- cbn [List.concat]. rewrite <- app_assoc, C. reflexivity.
Qed.

Lemma wrapParagraph_groups (paragraph : string) (more : bool) :
  exists groups,
    wrapParagraph measure maxWidth paragraph more = map unwords groups
    /\ Forall (fun group => Forall isWord group /\ fits measure maxWidth group)
         groups
    /\ List.concat groups = words paragraph.
Proof.
  assert (Empty : Forall isWord [] /\ fits measure maxWidth [])
    by (split; [constructor | left; cbn; lia]).
  destruct (wrapWords_groups (words paragraph) [] (proj1 Empty)
              (words_are_words paragraph) (proj2 Empty))
    as (groups & glast & E & F & C).
  cbn [unwords app] in E, C. unfold wrapParagraph. rewrite E.
  apply Forall_app in F. destruct F as [F Flast].
  inversion Flast as [| ? ? Hlast _]; subst.
  set (tail := if more then [[]] else [] : list (list string)).
  assert (T : (if more then [""] else []) = map unwords tail)
    by (subst tail; destruct more; reflexivity).
  assert (FT : Forall (fun group => Forall isWord group
                                    /\ fits measure maxWidth group) tail)
    by (subst tail; destruct more; repeat constructor; try exact (proj2 Empty)).
  assert (CT : List.concat tail = [])
    by (subst tail; destruct more; reflexivity).
  rewrite T.
  destruct (nonEmpty (unwords glast) || String.eqb paragraph "") eqn:Keep.
  - exists (groups ++ [glast] ++ tail)%list. split; [| split].
    + rewrite !map_app. reflexivity.
    + apply Forall_app. split; [exact F |]. constructor; assumption.
    + rewrite !concat_app, CT. cbn [List.concat]. rewrite !app_nil_r. exact C.
  - apply Bool.orb_false_iff in Keep. destruct Keep as [Keep _].
    assert (G : glast = []).
    { destruct glast as [| a g]; [reflexivity |].
      rewrite (unwords_nonEmpty (a :: g) (proj1 Hlast)) in Keep by discriminate.
      discriminate Keep. }
    subst glast. rewrite app_nil_r in C.
    exists (groups ++ tail)%list. split; [| split].
    + rewrite map_app. reflexivity.
    + apply Forall_app. split; assumption.
    + rewrite concat_app, CT, app_nil_r. exact C.
Qed.

Lemma wrapParagraphs_groups (paragraphs : list string) :
  exists groups,
    wrapParagraphs measure maxWidth paragraphs = map unwords groups
    /\ Forall (fun group => Forall isWord group /\ fits measure maxWidth group)
         groups
    /\ List.concat groups = List.concat (map words paragraphs).
Proof.
  induction paragraphs as [| paragraph rest IH].
  - exists []. repeat split. constructor.
  - destruct IH as (groups & E & F & C).
    destruct (wrapParagraph_groups paragraph
                (match rest with [] => false | _ :: _ => true end))
      as (first & E1 & F1 & C1).
    exists (first ++ groups)%list. cbn [wrapParagraphs]. split; [| split].
    + rewrite E1, E, map_app. reflexivity.
    + apply Forall_app. split; assumption.
    + rewrite concat_app, C1, C. reflexivity.
Qed.

Lemma unwords_at_least (group : list string) (w : string) :
  monotone measure -> In w group -> measure w <= measure (unwords group).
Proof.
  intro M. induction group as [| a rest IH]; intro H; [contradiction |].
  destruct rest as [| b rest'].
  - destruct H as [<- | []]. cbn. apply Qle_refl.
  - change (unwords (a :: b :: rest')) with (a ++ " " ++ unwords (b :: rest')).
    destruct (M a (unwords (b :: rest'))) as [Ma Mb].
    destruct H as [<- | H]; [exact Ma |].
    eapply Qle_trans; [apply IH; exact H | exact Mb].
Qed.

(** What follows for the lines from their being fitting groups of words. *)
Lemma lines_of_groups (groups : list (list string)) :
  measure "" <= maxWidth ->
  Forall (fun group => Forall isWord group /\ fits measure maxWidth group)
    groups ->
  List.concat (map words (map unwords groups)) = List.concat groups
  /\ Forall (fun line => line = unwords (words line)) (map unwords groups)
  /\ Forall (fun line =>
               measure line <= maxWidth
               \/ (words line = [line] /\ maxWidth < measure line))
       (map unwords groups)
  /\ (monotone measure ->
      Forall (fun line =>
                forall w, In w (words line) -> maxWidth < measure w -> line = w)
        (map unwords groups)).
Proof.
  intros Hempty H. induction H as [| group rest [Hw Hf] Hrest IH].
  - repeat split; constructor.
  - destruct IH as (I1 & I2 & I3 & I4).
    pose proof (words_unwords group Hw) as WU.
    assert (P3 : measure (unwords group) <= maxWidth
                 \/ (words (unwords group) = [unwords group]
                     /\ maxWidth < measure (unwords group))).
    { destruct (Qlt_le_dec maxWidth (measure (unwords group))) as [Over | Under];
        [| left; exact Under].
      destruct Hf as [Short | Fit]; [| lra].
      right. split; [| exact Over].
      destruct group as [| a [| b g]]; cbn in Short; try lia.
      - cbn in Over. lra.
      - rewrite WU. reflexivity. }
    cbn [map List.concat]. split; [| split; [| split]].
    + rewrite WU, I1. reflexivity.
    + constructor; [rewrite WU; reflexivity | exact I2].
    + constructor; [exact P3 | exact I3].
    + intro M. constructor; [| exact (I4 M)].
      intros w Hin Over.
      destruct P3 as [Under | [Single _]].
      * rewrite WU in Hin. pose proof (unwords_at_least group w M Hin). lra.
      * rewrite Single in Hin. destruct Hin as [<- | []]. reflexivity.
Qed.

End Wrapping.

Section WrapText.

Import PdfUtils Spec.

(** C5.  For a positive maximum width and a font that gives the empty text
    no width, the lines [wrapText] returns are made of whole words: the
    words of the lines, read in order, are the words of the text, and every
    line is its own words joined by single spaces.  Every line measures at
    most the maximum width, unless it is a single word that is wider.  And
    when adding text around a space never makes a text narrower, a word
    wider than the maximum width is a line of its own. *)
Theorem wrapText_breaks_at_words (L : Env) (text : string) (font : Font L)
  (size maxWidth : Q) :
  0 < maxWidth ->
  widthOfTextAtSize L font "" size == 0 ->
  let measure := fun t => widthOfTextAtSize L font t size in
  let lines := wrapText L text font size maxWidth in
  List.concat (map words lines) = words text
  /\ Forall (fun line => line = unwords (words line)) lines
  /\ Forall (fun line =>
               measure line <= maxWidth
               \/ (words line = [line] /\ maxWidth < measure line)) lines
  /\ (monotone measure ->
      Forall (fun line =>
                forall w, In w (words line) -> maxWidth < measure w -> line = w)
        lines).
Proof.
  intros Hpos Hzero measure lines.
  assert (Hempty : measure "" <= maxWidth) by (subst measure; cbn; lra).
  assert (R : exists groups,
             lines = map unwords groups
             /\ Forall (fun group => Forall isWord group
                                     /\ fits measure maxWidth group) groups
             /\ List.concat groups = words text).
  { subst lines. unfold wrapText.
    destruct (nonEmpty text) eqn:E; cbn [negb].
    - rewrite Qeq_bool_false by lra.
      destruct (wrapParagraphs_groups measure maxWidth (splitOn newline text))
        as (groups & E1 & F & C).
      exists groups. split; [exact E1 |]. split; [exact F |].
      rewrite C. apply splitOn_keeps_words. reflexivity.
    - exists [[]]. split; [reflexivity |]. split.
      + constructor; [| constructor]. split; [constructor | left; cbn; lia].
      + unfold nonEmpty in E. apply Bool.negb_false_iff in E.
        apply String.eqb_eq in E. subst text. reflexivity. }
  destruct R as (groups & E & F & C).
  destruct (lines_of_groups measure maxWidth groups Hempty F)
    as (P1 & P2 & P3 & P4).
  rewrite E. rewrite P1. repeat split; assumption.
Qed.

Lemma length_append (a b : string) :
  String.length (a ++ b) = (String.length a + String.length b)%nat.
Proof. induction a as [| c a IH]; cbn; [reflexivity | rewrite IH; reflexivity]. Qed.

Lemma reference_measure_monotone (size : Q) :
  0 <= size ->
  monotone (fun t => widthOfTextAtSize Reference.env Helvetica t size).
Proof.
  intros Hs a b. cbn.
  assert (La : (Z.of_nat (String.length a)
                <= Z.of_nat (String.length (a ++ " " ++ b)))%Z)
    by (rewrite length_append; lia).
  assert (Lb : (Z.of_nat (String.length b)
                <= Z.of_nat (String.length (a ++ " " ++ b)))%Z)
    by (rewrite length_append; cbn; lia).
  rewrite Zle_Qle in La. rewrite Zle_Qle in Lb.
  change (" " ++ b) with (String " " b) in La, Lb.
  split; (apply Qmult_le_compat_r; [| discriminate]);
    apply Qmult_le_compat_r; assumption.
Qed.

Lemma wrapText_breaks_at_words_witness :
  wrapText Reference.env "aaa bbb cc dddddddddddd e" Helvetica 2 6
  = ["aaa"; "bbb cc"; "dddddddddddd"; "e"]
  /\ Forall (fun line =>
               forall w, In w (words line) ->
                         6 < widthOfTextAtSize Reference.env Helvetica w 2 ->
                         line = w)
       (wrapText Reference.env "aaa bbb cc dddddddddddd e" Helvetica 2 6).
Proof.
  split; [reflexivity |].
  assert (H6 : 0 < 6) by reflexivity.
  assert (H0 : widthOfTextAtSize Reference.env Helvetica "" 2 == 0)
    by reflexivity.
  apply (proj2 (proj2 (proj2
           (wrapText_breaks_at_words Reference.env
              "aaa bbb cc dddddddddddd e" Helvetica 2 6 H6 H0)))).
  apply reference_measure_monotone. discriminate.
Defined.

End WrapText.

(* ================================================================== *)
(** * The main process: payload caps, call order, approved paths *)
(* ================================================================== *)

Section MainProcess.

Import PdfUtils Main Spec.

Lemma decodeBase64Payload_accepted {L : Env} (N : Node L) (data : value)
  (maxBytes : Z) (label : string) (buffer : bytes) :
  decodeBase64Payload N data maxBytes label = Ok buffer ->
  exists s,
    data = str s /\ s <> ""
    /\ (Z.of_nat (String.length s) * 3 / 4 <= maxBytes)%Z
    /\ buffer = Buffer_from_base64 N s
    /\ (Z.of_nat (List.length buffer) <= maxBytes)%Z.
Proof.
  intro H. destruct data as [| | b | n | s]; try discriminate H.
  cbn in H. unfold nonEmpty in H.
  destruct (String.eqb_spec s ""); [discriminate H |]. cbn [negb] in H.
  destruct (Z.gtb_spec (Z.of_nat (String.length s) * 3 / 4) maxBytes);
    [discriminate H |].
  destruct (Z.gtb_spec (Z.of_nat (List.length (Buffer_from_base64 N s))) maxBytes);
    [discriminate H |].
  injection H as <-. exists s. repeat split; assumption.
Qed.

(** X1.  A payload that is accepted is a text that is not empty, and neither
    the size estimated from its length nor the decoded buffer exceeds the
    cap; a text whose estimated size exceeds the cap is rejected as too
    large whatever it decodes to. *)
Theorem decodeBase64Payload_caps {L : Env} (N : Node L) (data : value)
  (maxBytes : Z) (label : string) :
  (forall buffer,
      decodeBase64Payload N data maxBytes label = Ok buffer ->
      exists s,
        data = str s /\ s <> ""
        /\ (Z.of_nat (String.length s) * 3 / 4 <= maxBytes)%Z
        /\ buffer = Buffer_from_base64 N s
        /\ (Z.of_nat (List.length buffer) <= maxBytes)%Z)
  /\ (forall s,
        data = str s -> s <> "" ->
        (maxBytes < Z.of_nat (String.length s) * 3 / 4)%Z ->
        decodeBase64Payload N data maxBytes label
        = Throw (label ++ " is too large.")).
Proof.
  split.
  - intros buffer H.
    exact (decodeBase64Payload_accepted N data maxBytes label buffer H).
  - intros s -> Hne Hbig. cbn. unfold nonEmpty.
    destruct (String.eqb_spec s ""); [contradiction |]. cbn [negb].
    destruct (Z.gtb_spec (Z.of_nat (String.length s) * 3 / 4) maxBytes);
      [reflexivity | lia].
Qed.

Lemma decodeBase64Payload_caps_witness :
  decodeBase64Payload (Reference.node Reference.env) (str "JVBERg==") 2 "PDF"
  = Throw "PDF is too large.".
Proof.
  apply (proj2 (decodeBase64Payload_caps (Reference.node Reference.env)
                  (str "JVBERg==") 2 "PDF") "JVBERg==").
  - reflexivity.
  - discriminate.
  - reflexivity.
Defined.

(** X2.  When either payload is rejected, for its absence or for its size,
    the signing handler answers with an error and has called nothing: no
    module is imported and no document parsed. *)
Theorem sign_rejects_payloads_first {L : Env} (N : Node L) (event : Event N)
  (payload : SignPayload) :
  (exists e, decodeBase64Payload N (pdfBase64 payload) MAX_PDF_BYTES "PDF"
             = Throw e)
  \/ (exists e, decodeBase64Payload N (certBase64 payload) MAX_CERT_BYTES
                  "Certificate" = Throw e) ->
  fst (pdf_signWithP12 N event payload) = []
  /\ exists message, snd (pdf_signWithP12 N event payload) = ReplyError message.
Proof.
  intro H. unfold pdf_signWithP12, withTrustedSender.
  destruct (isTrustedSender N event); cbn [negb];
    [| split; [reflexivity | eexists; reflexivity]].
  unfold signWithP12, signWithP12_try.
  destruct (decodeBase64Payload N (pdfBase64 payload) MAX_PDF_BYTES "PDF")
    as [pdfBuffer | e1] eqn:Hp.
  - destruct H as [[e H] | [e H]]; [discriminate H |].
    cbn [quiet tbind]. rewrite H. cbn.
    split; [reflexivity | eexists; reflexivity].
  - cbn. split; [reflexivity | eexists; reflexivity].
Qed.

Lemma sign_rejects_payloads_first_witness :
  fst (pdf_signWithP12 (Reference.node Reference.env) true
         {| pdfBase64 := undefined; certBase64 := str "MII=";
            password := None; name := None; reason := None; location := None;
            contactInfo := None; pageIndex := undefined; rect := RectMissing |})
  = [].
Proof.
  apply (sign_rejects_payloads_first (Reference.node Reference.env) true).
  left. eexists. reflexivity.
Defined.

(** X3.  The signing handler calls its collaborators in one fixed order: the
    three imports, the parser, the placeholder, the serialiser, the signer.
    Whatever happens, the calls made are a beginning of that sequence; and
    an answer that carries data comes from a trusted sender after the whole
    sequence, the placeholder having been reserved with 8192 bytes before
    the document was serialised and signed. *)
Theorem sign_calls_in_order {L : Env} (N : Node L) (event : Event N)
  (payload : SignPayload) :
  exists p rest,
    (fst (pdf_signWithP12 N event payload) ++ rest)%list = signingCalls p
    /\ (forall data,
          snd (pdf_signWithP12 N event payload) = ReplyData data ->
          rest = [] /\ isTrustedSender N event = true
          /\ ph_signatureLength p = 8192%Z).
Proof.
  set (p0 := {| ph_page := None; ph_reason := ""; ph_contactInfo := "";
                ph_name := ""; ph_location := ""; ph_signatureLength := 0;
                ph_widgetRect := [] |}).
  unfold pdf_signWithP12, withTrustedSender.
  destruct (isTrustedSender N event); cbn [negb];
    [| exists p0, (signingCalls p0); split; [reflexivity | discriminate]].
  unfold signWithP12, signWithP12_try.
  destruct (decodeBase64Payload N (pdfBase64 payload) MAX_PDF_BYTES "PDF")
    as [pdfBuffer | e]; cbn [quiet tbind];
    [| exists p0, (signingCalls p0); split; [reflexivity | discriminate]].
  destruct (decodeBase64Payload N (certBase64 payload) MAX_CERT_BYTES "Certificate")
    as [certBuffer | e]; cbn [quiet tbind];
    [| exists p0, (signingCalls p0); split; [reflexivity | discriminate]].
  unfold call.
  destruct (import_placeholder N) as [placeholderModule | e]; cbn [tbind];
    [| exists p0, (tl (signingCalls p0)); split; [reflexivity | discriminate]].
  destruct (import_signer N) as [signerModule | e]; cbn [tbind];
    [| exists p0, (tl (tl (signingCalls p0))); split; [reflexivity | discriminate]].
  destruct (import_signpdf N) as [signModule | e]; cbn [tbind];
    [| exists p0, (tl (tl (tl (signingCalls p0))));
       split; [reflexivity | discriminate]].
  destruct placeholderModule as [pdflibAddPlaceholder |];
    [| exists p0, (tl (tl (tl (signingCalls p0))));
       split; [reflexivity | discriminate]].
  destruct signerModule;
    [| exists p0, (tl (tl (tl (signingCalls p0))));
       split; [reflexivity | discriminate]].
  destruct signModule as [sign |];
    [| exists p0, (tl (tl (tl (signingCalls p0))));
       split; [reflexivity | discriminate]].
  destruct (load L pdfBuffer) as [pdfDoc | e]; cbn [tbind];
    [| exists p0, (tl (tl (tl (tl (signingCalls p0)))));
       split; [reflexivity | discriminate]].
  match goal with
  | |- context [pdflibAddPlaceholder pdfDoc ?q] => set (p := q)
  end.
  destruct (pdflibAddPlaceholder pdfDoc p) as [withPlaceholder | e]; cbn [tbind];
    [| exists p, [CallSave; CallSign]; split; [reflexivity | discriminate]].
  destruct (save_without_object_streams N withPlaceholder) as [serialised | e];
    cbn [tbind];
    [| exists p, [CallSign]; split; [reflexivity | discriminate]].
  destruct (sign serialised certBuffer (orString (password payload) ""))
    as [signedPdf | e]; cbn [tbind tret];
    [| exists p, []; split; [reflexivity | discriminate]].
  exists p, []. split; [reflexivity |]. intros data _. repeat split.
Qed.

Lemma has_add_same (set : list string) (p : string) : has (add set p) p = true.
Proof.
  unfold add. destruct (has set p) eqn:E; [exact E |].
  unfold has. rewrite existsb_app. cbn. rewrite String.eqb_refl.
  rewrite Bool.orb_true_r. reflexivity.
Qed.

Lemma has_add_keeps (set : list string) (p q : string) :
  has set q = true -> has (add set p) q = true.
Proof.
  intro H. unfold add. destruct (has set p); [exact H |].
  unfold has in *. rewrite existsb_app, H. reflexivity.
Qed.

Lemma has_add_origin (set : list string) (p q : string) :
  has (add set p) q = true -> has set q = true \/ q = p.
Proof.
  unfold add. destruct (has set p); [intro H; left; exact H |].
  unfold has. rewrite existsb_app. intro H.
  apply Bool.orb_true_iff in H. destruct H as [H | H]; [left; exact H |].
  right. cbn in H. rewrite Bool.orb_false_r in H.
  apply String.eqb_eq in H. exact H.
Qed.

Lemma chosen_nonEmpty (dialog : DialogResult) (f : string) :
  chosen dialog = Some f -> nonEmpty f = true.
Proof.
  unfold chosen. destruct (canceled dialog); [discriminate |].
  destruct (filePath dialog) as [g |]; [| discriminate].
  destruct (nonEmpty g) eqn:E; [| discriminate].
  intro H. injection H as <-. exact E.
Qed.

Lemma remembered (H : Host) (f : string) (st : MainState) :
  nonEmpty f = true ->
  has (allowedWritePaths (rememberWritePath H (Some f) st))
    (normalizePath H (Some f)) = true.
Proof.
  intro E. unfold rememberWritePath. rewrite E.
  cbn [allowedWritePaths]. apply has_add_same.
Qed.

(** X4.  [file:writePdf] never changes the approved paths, and it writes at
    most one file: the one asked for, on behalf of a trusted sender, with a
    payload within the cap, and only if its normalised path has been
    approved before. A path that has not been approved is refused. *)
Theorem writePdf_only_to_approved_paths {L : Env} (N : Node L) (H : Host)
  (event : Event N) (file : option string) (data : value) (st : MainState) :
  allowedWritePaths (fst (file_writePdf N H event file data st))
  = allowedWritePaths st
  /\ (hostEffects (fst (file_writePdf N H event file data st)) = hostEffects st
      \/ exists f buffer,
           file = Some f
           /\ hostEffects (fst (file_writePdf N H event file data st))
              = (hostEffects st ++ [WriteFile f buffer])%list
           /\ has (allowedWritePaths st) (normalizePath H (Some f)) = true
           /\ isTrustedSender N event = true
           /\ decodeBase64Payload N data MAX_PDF_BYTES "PDF" = Ok buffer
           /\ snd (file_writePdf N H event file data st) = Ok (SavePath f))
  /\ (forall f,
        file = Some f -> f <> "" -> truthy data = true ->
        isTrustedSender N event = true ->
        has (allowedWritePaths st) (normalizePath H (Some f)) = false ->
        file_writePdf N H event file data st
        = (st, Ok (SaveError "Save path not approved."))).
Proof.
  unfold file_writePdf, guarded.
  destruct (isTrustedSender N event) eqn:T; cbn [negb].
  - destruct file as [f |].
    + destruct (negb (nonEmpty f) || negb (truthy data)) eqn:G.
      * split; [reflexivity |]. split; [left; reflexivity |].
        intros g Hg Hne Ht _ _. injection Hg as <-.
        unfold nonEmpty in G. destruct (String.eqb_spec f ""); [contradiction |].
        rewrite Ht in G. discriminate G.
      * destruct (has (allowedWritePaths st) (normalizePath H (Some f))) eqn:A;
          cbn [negb].
        -- destruct (decodeBase64Payload N data MAX_PDF_BYTES "PDF")
             as [buffer | e] eqn:D.
           ++ split; [reflexivity |]. split.
              ** right. exists f, buffer. repeat split. exact A.
              ** intros g Hg _ _ _ Hno. injection Hg as <-.
                 rewrite A in Hno. discriminate Hno.
           ++ split; [reflexivity |]. split; [left; reflexivity |].
              intros g Hg _ _ _ Hno. injection Hg as <-.
              rewrite A in Hno. discriminate Hno.
        -- split; [reflexivity |]. split; [left; reflexivity |].
           intros g Hg _ _ _ _. reflexivity.
    + split; [reflexivity |]. split; [left; reflexivity |].
      intros g Hg. discriminate Hg.
  - split; [reflexivity |]. split; [left; reflexivity |].
    intros g _ _ _ Hf. discriminate Hf.
Qed.

Lemma writePdf_only_to_approved_paths_witness :
  file_writePdf (Reference.node Reference.env) plainHost true
    (Some "/tmp/out.pdf") (str "JVBERg==") freshMain
  = (freshMain, Ok (SaveError "Save path not approved.")).
Proof.
  apply (proj2 (proj2 (writePdf_only_to_approved_paths
                         (Reference.node Reference.env) plainHost true
                         (Some "/tmp/out.pdf") (str "JVBERg==") freshMain))
           "/tmp/out.pdf").
  - reflexivity.
  - discriminate.
  - reflexivity.
  - reflexivity.
  - reflexivity.
Defined.

(** X5.  A path picked in the save dialog is approved by it: a following
    write of an acceptable payload to that path goes through and writes the
    decoded bytes. *)
Theorem approved_path_can_be_written {L : Env} (N : Node L) (H : Host)
  (event : Event N) (dialog : DialogResult) (name : option string)
  (f : string) (data : value) (buffer : bytes) (st : MainState) :
  isTrustedSender N event = true ->
  chosen dialog = Some f ->
  decodeBase64Payload N data MAX_PDF_BYTES "PDF" = Ok buffer ->
  let st1 := fst (dialog_savePdfPath N H event dialog name st) in
  snd (dialog_savePdfPath N H event dialog name st) = Ok (SavePath f)
  /\ file_writePdf N H event (Some f) data st1
     = (perform (WriteFile f buffer) st1, Ok (SavePath f)).
Proof.
  intros T C D st1.
  pose proof (chosen_nonEmpty dialog f C) as E.
  assert (S1 : dialog_savePdfPath N H event dialog name st
               = (rememberWritePath H (Some f)
                    (perform (ShowSaveDialog "Export PDF"
                                (orString name "fillforge-export.pdf")) st),
                  Ok (SavePath f))).
  { unfold dialog_savePdfPath, guarded. rewrite T. cbn [negb]. rewrite C.
    reflexivity. }
  subst st1. rewrite S1. cbn [fst snd]. split; [reflexivity |].
  unfold file_writePdf, guarded. rewrite T. cbn [negb]. rewrite E.
  destruct (decodeBase64Payload_accepted N data MAX_PDF_BYTES "PDF" buffer D)
    as (t & -> & Hne & _).
  assert (Tr : truthy (str t) = true).
  { cbn. destruct (String.eqb_spec t ""); [contradiction | reflexivity]. }
  rewrite Tr. cbn [negb orb].
  rewrite (remembered H f _ E). cbn [negb]. rewrite D. reflexivity.
Qed.

Lemma approved_path_can_be_written_witness :
  file_writePdf (Reference.node Reference.env) plainHost true
    (Some "/tmp/out.pdf") (str "JVBERg==")
    (fst (dialog_savePdfPath (Reference.node Reference.env) plainHost true
            (picked "/tmp/out.pdf") None freshMain))
  = (perform (WriteFile "/tmp/out.pdf" [37; 80; 68; 70]%Z)
       (fst (dialog_savePdfPath (Reference.node Reference.env) plainHost true
               (picked "/tmp/out.pdf") None freshMain)),
     Ok (SavePath "/tmp/out.pdf")).
Proof.
  exact (proj2 (approved_path_can_be_written (Reference.node Reference.env)
                  plainHost true (picked "/tmp/out.pdf") None "/tmp/out.pdf"
                  (str "JVBERg==") [37; 80; 68; 70]%Z freshMain
                  eq_refl eq_refl eq_refl)).
Defined.

(** X6.  No handler revokes an approval, and a path gets approved only by
    being picked in a dialog of [dialog:savePdf], [dialog:savePdfPath] or
    [cert:createSelfSigned]. *)
Theorem approvals_come_from_dialogs {L : Env} (N : Node L) (H : Host)
  (event : Event N) (dialog : DialogResult) (name : option string)
  (data : value) (form : CertForm) (st : MainState) (p : string) :
  (has (allowedWritePaths st) p = true ->
   has (allowedWritePaths (fst (dialog_savePdf N H event dialog name data st))) p
   = true
   /\ has (allowedWritePaths (fst (dialog_savePdfPath N H event dialog name st))) p
      = true
   /\ has (allowedWritePaths (fst (cert_createSelfSigned N H event dialog form st))) p
      = true)
  /\ (has (allowedWritePaths (fst (dialog_savePdf N H event dialog name data st))) p
      = true
      \/ has (allowedWritePaths (fst (dialog_savePdfPath N H event dialog name st))) p
         = true
      \/ has (allowedWritePaths (fst (cert_createSelfSigned N H event dialog form st))) p
         = true ->
      has (allowedWritePaths st) p = true
      \/ exists f, chosen dialog = Some f /\ p = normalizePath H (Some f)).
Proof.
  assert (Grow : forall st',
             allowedWritePaths st' = allowedWritePaths st
             \/ (exists f, chosen dialog = Some f
                           /\ allowedWritePaths st'
                              = add (allowedWritePaths st) (normalizePath H (Some f))) ->
             (has (allowedWritePaths st) p = true ->
              has (allowedWritePaths st') p = true)
             /\ (has (allowedWritePaths st') p = true ->
                 has (allowedWritePaths st) p = true
                 \/ exists f, chosen dialog = Some f /\ p = normalizePath H (Some f))).
  { intros st' [E | (f & C & E)]; rewrite E.
    - split; [auto | intro X; left; exact X].
    - split; [apply has_add_keeps |].
      intro X. destruct (has_add_origin _ _ _ X) as [Y | Y];
        [left; exact Y | right; exists f; split; assumption]. }
  assert (R : forall f st0,
             chosen dialog = Some f ->
             allowedWritePaths st0 = allowedWritePaths st ->
             exists g, chosen dialog = Some g
                       /\ allowedWritePaths (rememberWritePath H (Some f) st0)
                          = add (allowedWritePaths st) (normalizePath H (Some g))).
  { intros f st0 C E. exists f. split; [exact C |].
    unfold rememberWritePath. rewrite (chosen_nonEmpty dialog f C).
    cbn [allowedWritePaths]. rewrite E. reflexivity. }
  assert (S1 : allowedWritePaths (fst (dialog_savePdf N H event dialog name data st))
               = allowedWritePaths st
               \/ (exists f, chosen dialog = Some f
                    /\ allowedWritePaths
                         (fst (dialog_savePdf N H event dialog name data st))
                       = add (allowedWritePaths st) (normalizePath H (Some f)))).
  { unfold dialog_savePdf, guarded.
    destruct (isTrustedSender N event); cbn [negb]; [| left; reflexivity].
    destruct (chosen dialog) as [f |] eqn:C; [| left; reflexivity].
    destruct (decodeBase64Payload N data MAX_PDF_BYTES "PDF"); [| left; reflexivity].
    right. cbn [fst]. apply (R f); reflexivity. }
  assert (S2 : allowedWritePaths (fst (dialog_savePdfPath N H event dialog name st))
               = allowedWritePaths st
               \/ (exists f, chosen dialog = Some f
                    /\ allowedWritePaths
                         (fst (dialog_savePdfPath N H event dialog name st))
                       = add (allowedWritePaths st) (normalizePath H (Some f)))).
  { unfold dialog_savePdfPath, guarded.
    destruct (isTrustedSender N event); cbn [negb]; [| left; reflexivity].
    destruct (chosen dialog) as [f |] eqn:C; [| left; reflexivity].
    right. cbn [fst]. apply (R f); reflexivity. }
  assert (S3 : allowedWritePaths
                 (fst (cert_createSelfSigned N H event dialog form st))
               = allowedWritePaths st
               \/ (exists f, chosen dialog = Some f
                    /\ allowedWritePaths
                         (fst (cert_createSelfSigned N H event dialog form st))
                       = add (allowedWritePaths st) (normalizePath H (Some f)))).
  { unfold cert_createSelfSigned, guarded.
    destruct (isTrustedSender N event); cbn [negb]; [| left; reflexivity].
    destruct (negb (nonEmpty (orString (form_password form) "")));
      [left; reflexivity |].
    destruct (chosen dialog) as [f |] eqn:C; [| left; reflexivity].
    destruct (forge_pkcs12 H _); [| left; reflexivity].
    right. cbn [fst]. apply (R f); reflexivity. }
  split.
  - intro X. repeat split.
    + exact (proj1 (Grow _ S1) X).
    + exact (proj1 (Grow _ S2) X).
    + exact (proj1 (Grow _ S3) X).
  - intros [X | [X | X]].
    + exact (proj2 (Grow _ S1) X).
    + exact (proj2 (Grow _ S2) X).
    + exact (proj2 (Grow _ S3) X).
Qed.

Lemma approvals_come_from_dialogs_witness :
  has (allowedWritePaths
         (fst (dialog_savePdfPath (Reference.node Reference.env) plainHost true
                 (picked "/tmp/b.pdf") None
                 (fst (dialog_savePdfPath (Reference.node Reference.env)
                         plainHost true (picked "/tmp/a.pdf") None freshMain)))))
    "/tmp/a.pdf" = true.
Proof.
  apply (proj1 (approvals_come_from_dialogs (Reference.node Reference.env)
                  plainHost true (picked "/tmp/b.pdf") None undefined
                  (certForm None)
                  (fst (dialog_savePdfPath (Reference.node Reference.env)
                          plainHost true (picked "/tmp/a.pdf") None freshMain))
                  "/tmp/a.pdf")).
  reflexivity.
Defined.

(** X7.  Without a password no certificate is made: the handler answers with
    an error before it shows a dialog, generates a key or writes a file, and
    the approved paths stay as they are. *)
Theorem certificate_requires_password {L : Env} (N : Node L) (H : Host)
  (event : Event N) (dialog : DialogResult) (form : CertForm)
  (st : MainState) :
  orString (form_password form) "" = "" ->
  fst (cert_createSelfSigned N H event dialog form st) = st
  /\ (exists message,
        snd (cert_createSelfSigned N H event dialog form st) = CertError message)
  /\ (isTrustedSender N event = true ->
      snd (cert_createSelfSigned N H event dialog form st)
      = CertError "Certificate password is required.").
Proof.
  intro P. unfold cert_createSelfSigned, guarded. rewrite P.
  destruct (isTrustedSender N event); cbn.
  - split; [reflexivity |]. split; [eexists; reflexivity | reflexivity].
  - split; [reflexivity |]. split; [eexists; reflexivity | discriminate].
Qed.

Lemma certificate_requires_password_witness :
  cert_createSelfSigned (Reference.node Reference.env) plainHost true
    (picked "/tmp/me.p12") (certForm (Some "")) freshMain
  = (freshMain, CertError "Certificate password is required.").
Proof.
  pose proof (certificate_requires_password (Reference.node Reference.env)
                plainHost true (picked "/tmp/me.p12") (certForm (Some ""))
                freshMain eq_refl) as (H1 & _ & H3).
  rewrite (surjective_pairing (cert_createSelfSigned _ _ _ _ _ _)).
  rewrite H1, (H3 eq_refl). reflexivity.
Defined.

(** X8.  With a password and a file picked, the dialog comes first, the key
    pair is generated next and the container is written last; the answer
    carries the path, its base name and the bytes written, and the path is
    approved for later writes. When the dialog is dismissed nothing is
    generated or written. *)
Theorem certificate_created_in_order {L : Env} (N : Node L) (H : Host)
  (event : Event N) (dialog : DialogResult) (form : CertForm)
  (st : MainState) :
  isTrustedSender N event = true ->
  orString (form_password form) "" <> "" ->
  (chosen dialog = None ->
   cert_createSelfSigned N H event dialog form st
   = (perform (ShowSaveDialog "Save Certificate" "fillforge-certificate.p12") st,
      CertNull))
  /\ (forall f buffer,
        chosen dialog = Some f ->
        forge_pkcs12 H (certSpecOf L form) = Ok buffer ->
        snd (cert_createSelfSigned N H event dialog form st)
        = CertCreated f (path_basename H f) (Buffer_to_base64 N buffer)
        /\ hostEffects (fst (cert_createSelfSigned N H event dialog form st))
           = (hostEffects st
              ++ [ShowSaveDialog "Save Certificate" "fillforge-certificate.p12";
                  GenerateKeyPair 2048;
                  WriteFile f buffer])%list
        /\ has (allowedWritePaths
                  (fst (cert_createSelfSigned N H event dialog form st)))
             (normalizePath H (Some f)) = true).
Proof.
  intros T P.
  assert (E : nonEmpty (orString (form_password form) "") = true).
  { unfold nonEmpty.
    destruct (String.eqb_spec (orString (form_password form) "") "");
      [contradiction | reflexivity]. }
  unfold cert_createSelfSigned, guarded. rewrite T, E. cbn [negb].
  split.
  - intro C. rewrite C. reflexivity.
  - intros f buffer C F. rewrite C. unfold certSpecOf in F. rewrite F.
    cbn [fst snd]. split; [reflexivity |]. split.
    + pose proof (chosen_nonEmpty dialog f C) as Ef.
      unfold rememberWritePath. rewrite Ef. cbn.
      rewrite <- !app_assoc. reflexivity.
    + apply remembered. apply (chosen_nonEmpty dialog f C).
Qed.

Lemma certificate_created_in_order_witness :
  snd (cert_createSelfSigned (Reference.node Reference.env) plainHost true
         (picked "/tmp/me.p12") (certForm (Some "secret")) freshMain)
  = CertCreated "/tmp/me.p12" "/tmp/me.p12" "MII=".
Proof.
  assert (P : orString (form_password (certForm (Some "secret"))) "" <> "")
    by discriminate.
  exact (proj1 (proj2 (certificate_created_in_order
                         (Reference.node Reference.env) plainHost true
                         (picked "/tmp/me.p12") (certForm (Some "secret"))
                         freshMain eq_refl P)
                  "/tmp/me.p12" [48; 130]%Z eq_refl eq_refl)).
Defined.

(** X9.  The subject of a certificate starts with a common name that is
    never empty, [FillForge User] when the form gives none; every other
    attribute is there only with a value that is not empty, and there are at
    most seven. *)
Theorem certificate_subject_well_formed (form : CertForm) :
  (exists rest,
      subjectOf form
      = ("commonName", orString (form_commonName form) "FillForge User") :: rest)
  /\ Forall (fun a => snd a <> "") (subjectOf form)
  /\ (List.length (subjectOf form) <= 7)%nat
  /\ (orString (form_commonName form) "" = "" ->
      hd_error (subjectOf form) = Some ("commonName", "FillForge User")).
Proof.
  assert (A : forall label v,
             Forall (fun a : string * string => snd a <> "") (attribute label v)
             /\ (List.length (attribute label v) <= 1)%nat).
  { intros label [text |]; cbn; [| split; [constructor | lia]].
    unfold nonEmpty. destruct (String.eqb_spec text ""); cbn.
    - split; [constructor | lia].
    - split; [constructor; [exact n | constructor] | lia]. }
  assert (C : orString (form_commonName form) "FillForge User" <> "").
  { unfold orString. destruct (form_commonName form) as [cn |]; [| discriminate].
    unfold nonEmpty. destruct (String.eqb_spec cn ""); cbn; [discriminate | assumption]. }
  unfold subjectOf. split; [eexists; reflexivity |]. split; [| split].
  - repeat (apply Forall_app; split); try apply A.
    constructor; [exact C | constructor].
  - rewrite !length_app. cbn [List.length].
    pose proof (proj2 (A "organizationName" (form_organization form))).
    pose proof (proj2 (A "organizationalUnitName" (form_orgUnit form))).
    pose proof (proj2 (A "countryName" (form_country form))).
    pose proof (proj2 (A "stateOrProvinceName" (form_state form))).
    pose proof (proj2 (A "localityName" (form_locality form))).
    pose proof (proj2 (A "emailAddress" (form_email form))).
    lia.
  - intro E. cbn. f_equal. f_equal.
    unfold orString in *. destruct (form_commonName form) as [cn |]; [| reflexivity].
    destruct (nonEmpty cn) eqn:Q; [| reflexivity].
    subst cn. discriminate Q.
Qed.

(** X10.  [dialog:savePdf] writes at most one file, the one picked in its
    dialog. A sender that is not trusted is refused with nothing done.
    Otherwise the dialog is shown first; when it is dismissed, or when the
    payload is rejected, which is found out only after the dialog, nothing
    is written and nothing approved; else the decoded payload is written to
    the file picked, the answer carries its path, and the path is approved. *)
Theorem savePdf_writes_what_was_picked {L : Env} (N : Node L) (H : Host)
  (event : Event N) (dialog : DialogResult) (name : option string)
  (data : value) (st : MainState) :
  (isTrustedSender N event = false
   /\ dialog_savePdf N H event dialog name data st
      = (st, Ok (SaveError "Untrusted request origin.")))
  \/ (isTrustedSender N event = true
      /\ (chosen dialog = None
          \/ exists e,
               decodeBase64Payload N data MAX_PDF_BYTES "PDF" = Throw e
               /\ snd (dialog_savePdf N H event dialog name data st) = Throw e)
      /\ hostEffects (fst (dialog_savePdf N H event dialog name data st))
         = (hostEffects st
            ++ [ShowSaveDialog "Export PDF"
                  (orString name "fillforge-export.pdf")])%list
      /\ allowedWritePaths (fst (dialog_savePdf N H event dialog name data st))
         = allowedWritePaths st)
  \/ (exists f buffer,
        isTrustedSender N event = true
        /\ chosen dialog = Some f
        /\ decodeBase64Payload N data MAX_PDF_BYTES "PDF" = Ok buffer
        /\ hostEffects (fst (dialog_savePdf N H event dialog name data st))
           = (hostEffects st
              ++ [ShowSaveDialog "Export PDF"
                    (orString name "fillforge-export.pdf");
                  WriteFile f buffer])%list
        /\ snd (dialog_savePdf N H event dialog name data st) = Ok (SavePath f)
        /\ has (allowedWritePaths
                  (fst (dialog_savePdf N H event dialog name data st)))
             (normalizePath H (Some f)) = true).
Proof.
  unfold dialog_savePdf, guarded.
  destruct (isTrustedSender N event); cbn [negb];
    [| left; split; reflexivity].
  right. destruct (chosen dialog) as [f |] eqn:C.
  - destruct (decodeBase64Payload N data MAX_PDF_BYTES "PDF")
      as [buffer | e] eqn:D.
    + right. exists f, buffer.
      split; [reflexivity |]. split; [reflexivity |]. split; [reflexivity |].
      pose proof (chosen_nonEmpty dialog f C) as E.
      split; [| split; [reflexivity |]].
      * unfold rememberWritePath. rewrite E.
        cbn [fst hostEffects perform]. rewrite <- app_assoc. reflexivity.
      * cbn [fst]. apply remembered. exact E.
    + left. split; [reflexivity |].
      split; [right; exists e; split; reflexivity |].
      split; reflexivity.
  - left. split; [reflexivity |]. split; [left; reflexivity |].
    split; reflexivity.
Qed.

End MainProcess.

(* ================================================================== *)
(** * More on the export *)
(* ================================================================== *)

Section ExportInvariants.

Import PdfUtils App Spec.

Lemma applyDraft_keeps_header (L : Env) (s : State) (data next : bytes)
  (d : Draft) :
  hasPdfHeader data = true -> applyDraft L s data d = Ok next ->
  hasPdfHeader next = true.
Proof.
  intros Hh. unfold applyDraft.
  destruct (resolveDraftRect s d) as [rect |];
    [| intro H; injection H as <-; exact Hh].
  destruct (compositeStep L (includeVisualSignature s) data d rect)
    as [[step context] |]; [| intro H; injection H as <-; exact Hh].
  destruct step as [out | e]; cbn [bind]; [| discriminate].
  unfold ensurePdf. destruct (hasPdfHeader out) eqn:E; cbn [negb bind].
  - intro H. injection H as <-. exact E.
  - discriminate.
Qed.

Lemma composeDrafts_keeps_header (L : Env) (s : State) (ds : list Draft)
  (data next : bytes) :
  hasPdfHeader data = true -> composeDrafts L s data ds = Ok next ->
  hasPdfHeader next = true.
Proof.
  revert data. induction ds as [| d ds IH]; intros data Hh; cbn [composeDrafts].
  - intro H. injection H as <-. exact Hh.
  - destruct (applyDraft L s data d) as [mid | e] eqn:A; cbn [bind]; [| discriminate].
    apply IH. exact (applyDraft_keeps_header L s data mid d Hh A).
Qed.

Lemma signStage_outcomes (L : Env) (window : option PdfApi) (s : State)
  (data : bytes) (o : Outcome) :
  hasPdfHeader data = true -> signStage L window s data = Ok o ->
  match o with
  | Proceed next didSign =>
      hasPdfHeader next = true
      /\ (didSign = true ->
          lastSignatureDraft s <> None /\ certificateData s <> "")
  | Stop s' => documentUntouched s s'
  end.
Proof.
  intro Hh. unfold signStage.
  destruct (lastSignatureDraft s) as [sd |];
    [| intro H; injection H as <-; split; [exact Hh | discriminate]].
  unfold nonEmpty.
  destruct (String.eqb_spec (certificateData s) ""); cbn [negb];
    [intro H; injection H as <-; split; [exact Hh | discriminate] |].
  destruct (entry window signPdf) as [sign |];
    [| intro H; injection H as <-; repeat split].
  destruct (resolveDraftRect s sd) as [rect |];
    [| intro H; injection H as <-; repeat split].
  destruct (sign (signRequest L s data rect)) as [[[error | reply] |] | e];
    cbn [bind]; try discriminate.
  - destruct (String.eqb_spec error ""); cbn [negb]; intro H; injection H as <-.
    + split; [exact Hh | discriminate].
    + repeat split.
  - destruct (String.eqb_spec reply ""); cbn [negb].
    + intro H; injection H as <-. split; [exact Hh | discriminate].
    + destruct (base64ToBytes L reply) as [signed | e]; cbn [bind]; [| discriminate].
      unfold ensurePdf. destruct (hasPdfHeader signed) eqn:E; cbn [negb bind];
        [| discriminate].
      intro H; injection H as <-. split; [exact E |].
      intros _. split; [discriminate | assumption].
  - intro H; injection H as <-. split; [exact Hh | discriminate].
Qed.

Lemma finishExport_replaces (savePath : option string) (data : bytes)
  (didSign : bool) (s : State) :
  hasPdfHeader data = true ->
  documentReplaced (finishExport savePath data didSign s).
Proof.
  intro Hh. exists data. unfold finishExport.
  destruct savePath, didSign;
    try destruct (negb (includesString "signed" (toLowerCase (pdfName _))));
    repeat split; assumption.
Qed.

Lemma exportFrom_keeps_or_replaces (L : Env) (window : option PdfApi)
  (savePath : option string) (data : bytes) (s : State) :
  hasPdfHeader data = true ->
  documentUntouched s (exportFrom L window savePath data s)
  \/ documentReplaced (exportFrom L window savePath data s).
Proof.
  intro Hh. unfold exportFrom.
  destruct (composeDrafts L s data (drafts s)) as [composed | e] eqn:C;
    cbn [bind]; [| left; repeat split].
  pose proof (composeDrafts_keeps_header L s _ _ _ Hh C) as Hc.
  destruct (signStage L window s composed) as [[next didSign | s'] | e] eqn:S;
    [| | left; repeat split].
  - pose proof (signStage_outcomes L window s composed _ Hc S) as [Hn _].
    destruct (deliver window savePath (pdfName s) (bytesToBase64 L next) next)
      as [effect [[] | e]].
    + right. apply finishExport_replaces. exact Hn.
    + left. repeat split.
  - left. exact (signStage_outcomes L window s composed _ Hc S).
Qed.

(** X11.  Whatever the drafts, the bridge and the collaborators do, an
    export ends in one of two ways: the document bytes, the drafts, the
    selection, the signed flag and the name are all as before; or the
    document has been replaced by bytes that begin with the PDF header and
    the store has been emptied. Bytes without the header are never stored,
    and drafts are never dropped while the old document is kept. *)
Theorem export_keeps_or_replaces (L : Env) (window : option PdfApi)
  (s : State) :
  documentUntouched s (handleExport L window s)
  \/ documentReplaced (handleExport L window s).
Proof.
  unfold handleExport.
  destruct (noPdf s); [left; repeat split |].
  cbn [pdfBytes set_signError pdfName].
  destruct (normalizePdfBytes L (pdfBytes s)) as [data |]; [| left; repeat split].
  destruct (hasPdfHeader data) eqn:Hh; cbn [negb]; [| left; repeat split].
  assert (X : forall savePath,
             documentUntouched s
               (exportFrom L window savePath data (set_signError "" s))
             \/ documentReplaced
                  (exportFrom L window savePath data (set_signError "" s))).
  { intro savePath.
    destruct (exportFrom_keeps_or_replaces L window savePath data
                (set_signError "" s) Hh) as [U | R]; [left; exact U | right; exact R]. }
  destruct (entry window savePdfPath) as [ask |]; [| apply X].
  destruct (ask (pdfName s)) as [[path |] | e];
    [| left; repeat split | left; repeat split].
  destruct (nonEmpty path); [apply X | left; repeat split].
Qed.

(** X12.  A document that is absent makes the export do nothing at all. One
    that cannot be read, or does not begin with the PDF header, makes it
    stop with the invalid-document message before the save dialog: nothing
    is logged or written and the document and drafts are kept. *)
Theorem export_refuses_invalid_document (L : Env) (window : option PdfApi)
  (s : State) :
  (noPdf s = true -> handleExport L window s = s)
  /\ (noPdf s = false ->
      (normalizePdfBytes L (pdfBytes s) = None
       \/ exists data, normalizePdfBytes L (pdfBytes s) = Some data
                       /\ hasPdfHeader data = false) ->
      handleExport L window s
      = flashStatus "PDF data is invalid. Please reopen the document." "error"
          (set_signError "PDF data is invalid. Please reopen the document." s)
      /\ log (handleExport L window s) = log s
      /\ documentUntouched s (handleExport L window s)).
Proof.
  unfold handleExport. split.
  - intros ->. reflexivity.
  - intros -> H. cbn [pdfBytes set_signError].
    destruct H as [H | (data & H & Hh)]; rewrite H; [| rewrite Hh; cbn [negb]];
      repeat split.
Qed.

Lemma export_refuses_invalid_document_witness :
  log (handleExport Reference.env None
         (session letterViewport [1; 2; 3]%Z PAN [checkboxAt 10 10]))
  = []
  /\ drafts (handleExport Reference.env None
               (session letterViewport [1; 2; 3]%Z PAN [checkboxAt 10 10]))
     = [checkboxAt 10 10].
Proof.
  pose proof (proj2 (export_refuses_invalid_document Reference.env None
                       (session letterViewport [1; 2; 3]%Z PAN [checkboxAt 10 10]))
                eq_refl
                (or_intror (ex_intro _ [1; 2; 3]%Z (conj eq_refl eq_refl))))
    as (_ & Hl & _ & Hd & _).
  split; [exact Hl | exact Hd].
Defined.

(** X13.  When the save dialog is dismissed, or answers without a path, the
    export stops there: apart from the old signing error being cleared the
    state is what it was, drafts included, and nothing is written. *)
Theorem export_cancelled_changes_nothing (L : Env) (window : option PdfApi)
  (s : State) (data : bytes) (ask : string -> Result (option string)) :
  noPdf s = false ->
  normalizePdfBytes L (pdfBytes s) = Some data ->
  hasPdfHeader data = true ->
  entry window savePdfPath = Some ask ->
  ask (pdfName s) = Ok None \/ ask (pdfName s) = Ok (Some "") ->
  handleExport L window s = set_signError "" s.
Proof.
  intros Hn Hb Hh Ha Hc. unfold handleExport. rewrite Hn.
  cbn [pdfBytes set_signError pdfName]. rewrite Hb, Hh, Ha. cbn [negb].
  destruct Hc as [-> | ->]; reflexivity.
Qed.

Lemma export_cancelled_changes_nothing_witness :
  handleExport Reference.env
    (Some {| savePdfPath := Some (fun _ => Ok None);
             writePdf := None; savePdf := None; signPdf := None |})
    (session letterViewport Reference.pdfHeader PAN [checkboxAt 10 10])
  = set_signError ""
      (session letterViewport Reference.pdfHeader PAN [checkboxAt 10 10]).
Proof.
  apply (export_cancelled_changes_nothing Reference.env _ _
           Reference.pdfHeader (fun _ => Ok None));
    try reflexivity.
  left. reflexivity.
Defined.

Lemma exportFrom_unsigned (L : Env) (window : option PdfApi)
  (savePath : option string) (data : bytes) (s : State) :
  certificateData s = "" \/ lastSignatureDraft s = None ->
  isSigned (exportFrom L window savePath data s) = isSigned s
  /\ pdfName (exportFrom L window savePath data s) = pdfName s.
Proof.
  intro H. unfold exportFrom.
  destruct (composeDrafts L s data (drafts s)) as [composed | e]; cbn [bind];
    [| split; reflexivity].
  assert (S : signStage L window s composed = Ok (Proceed composed false)).
  { unfold signStage. destruct (lastSignatureDraft s) as [sd |]; [| reflexivity].
    destruct H as [H | H]; [| discriminate H]. rewrite H. reflexivity. }
  rewrite S.
  destruct (deliver window savePath (pdfName s) (bytesToBase64 L composed) composed)
    as [effect [[] | e]]; [| split; reflexivity].
  unfold finishExport. destruct savePath; split; reflexivity.
Qed.

(** X14.  An export marks the document as signed, and renames it, only when
    a certificate is loaded and the store holds a signature draft: without
    either, the signed flag and the name are left as they are. *)
Theorem export_signs_only_with_certificate (L : Env)
  (window : option PdfApi) (s : State) :
  certificateData s = "" \/ lastSignatureDraft s = None ->
  isSigned (handleExport L window s) = isSigned s
  /\ pdfName (handleExport L window s) = pdfName s.
Proof.
  intro H. unfold handleExport.
  destruct (noPdf s); [split; reflexivity |].
  cbn [pdfBytes set_signError pdfName].
  destruct (normalizePdfBytes L (pdfBytes s)) as [data |]; [| split; reflexivity].
  destruct (hasPdfHeader data); cbn [negb]; [| split; reflexivity].
  assert (X : forall savePath,
             isSigned (exportFrom L window savePath data (set_signError "" s))
             = isSigned s
             /\ pdfName (exportFrom L window savePath data (set_signError "" s))
                = pdfName s).
  { intro savePath.
    apply (exportFrom_unsigned L window savePath data (set_signError "" s)).
    exact H. }
  destruct (entry window savePdfPath) as [ask |]; [| apply X].
  destruct (ask (pdfName s)) as [[path |] | e];
    [| split; reflexivity | split; reflexivity].
  destruct (nonEmpty path); [apply X | split; reflexivity].
Qed.

Lemma export_signs_only_with_certificate_witness :
  isSigned (handleExport Reference.env None
              (session letterViewport Reference.pdfHeader PAN
                 [signatureAt "draft-9" 50 50]))
  = false.
Proof.
  apply (export_signs_only_with_certificate Reference.env None
           (session letterViewport Reference.pdfHeader PAN
              [signatureAt "draft-9" 50 50])).
  left. reflexivity.
Defined.

Lemma applyDraft_skipped (L : Env) (s : State) (data : bytes) (d : Draft) :
  composited s d = false -> applyDraft L s data d = Ok data.
Proof.
  unfold composited, applyDraft, compositeStep.
  destruct (resolveDraftRect s d) as [rect |]; [| reflexivity].
  destruct (draft_type d); try discriminate; try reflexivity.
  destruct (includeVisualSignature s); cbn [andb negb]; [| reflexivity].
  destruct (draft_dataUrl d) as [url |]; [| reflexivity].
  intros ->. reflexivity.
Qed.

(** X15.  The export loop passes over a draft whose page has no viewport,
    and over a signature draft when the visual signature is switched off or
    the draft has no image: the bytes composed are those composed from the
    other drafts alone, in the same order. *)
Theorem composeDrafts_skips (L : Env) (s : State) (data : bytes)
  (ds : list Draft) :
  composeDrafts L s data ds = composeDrafts L s data (filter (composited s) ds).
Proof.
  revert data. induction ds as [| d ds IH]; intro data; [reflexivity |].
  cbn [composeDrafts filter]. destruct (composited s d) eqn:C.
  - cbn [composeDrafts].
    destruct (applyDraft L s data d); cbn [bind]; [apply IH | reflexivity].
  - rewrite (applyDraft_skipped L s data d C). cbn [bind]. apply IH.
Qed.

Lemma last_some_snoc (A : Type) (l : list A) (x : A) :
  last (map Some (l ++ [x])) None = Some x.
Proof.
  induction l as [| a l IH]; [reflexivity |].
  cbn [app map]. cbn [map app] in IH.
  destruct (map Some (l ++ [x])) eqn:E.
  - destruct l; discriminate E.
  - cbn [last]. exact IH.
Qed.

Lemma lastSignatureDraft_picks (s : State) (pre post : list Draft)
  (d : Draft) :
  drafts s = (pre ++ d :: post)%list ->
  draft_type d = SIGNATURE ->
  Forall (fun later => draft_type later <> SIGNATURE) post ->
  lastSignatureDraft s = Some d.
Proof.
  assert (F : forall l,
             Forall (fun d => draft_type d <> SIGNATURE) l ->
             filter (fun d => Tool_eqb (draft_type d) SIGNATURE) l = []).
  { induction l as [| a l IH]; intro H; [reflexivity |].
    inversion H as [| ? ? Ha Hl]; subst. cbn [filter].
    destruct (draft_type a); try contradiction; cbn; apply IH; exact Hl. }
  unfold lastSignatureDraft.
  intros E T P. rewrite E, filter_app. cbn [filter].
  rewrite T. cbn [Tool_eqb]. rewrite (F post P).
  apply last_some_snoc.
Qed.

(** The signing stage of an export whose last signature draft is [d], with
    a certificate loaded: what the signer answers to the request for the
    rectangle of [d] decides how it goes on. *)
Lemma signStage_asks (L : Env) (window : option PdfApi)
  (sign : Main.SignPayload -> Result (option Main.Reply)) (s : State)
  (d : Draft) (rect : PdfRect) (composed : bytes) :
  lastSignatureDraft s = Some d ->
  certificateData s <> "" ->
  entry window signPdf = Some sign ->
  resolveDraftRect s d = Some rect ->
  signStage L window (set_signError "" s) composed
  = (result <- sign (signRequest L s composed rect) ;;
     match result with
     | Some (Main.ReplyError error) =>
         if nonEmpty error
         then Ok (Stop (flashStatus error "error"
                          (set_signError error (set_signError "" s))))
         else Ok (Proceed composed false)
     | Some (Main.ReplyData data) =>
         if nonEmpty data then
           signed <- base64ToBytes L data ;;
           _ <- ensurePdf signed "signing" ;;
           Ok (Proceed signed true)
         else Ok (Proceed composed false)
     | None => Ok (Proceed composed false)
     end).
Proof.
  intros K C E R. unfold signStage.
  change (lastSignatureDraft (set_signError "" s)) with (lastSignatureDraft s).
  rewrite K. cbv beta iota.
  change (certificateData (set_signError "" s)) with (certificateData s).
  change (resolveDraftRect (set_signError "" s) d) with (resolveDraftRect s d).
  rewrite E, R. unfold nonEmpty at 1.
  destruct (String.eqb_spec (certificateData s) ""); [contradiction |].
  reflexivity.
Qed.

(** X16.  The signature handed to the signer is the one placed last: of the
    signature drafts in the store, the one that no other signature draft
    follows.  A store without signature drafts gives none.  With a
    certificate loaded and the drafts composed, the export asks the signer
    for one thing, the request built from the rectangle of that draft and
    the composed bytes: when the signer fails on that request the export
    fails with its error; when it answers that request with signed bytes
    that begin with the PDF header and the write goes through, those bytes
    are what the export stores, marked as signed; and a signer that answers
    that request in the same way gives the same export, whatever it would
    answer to other requests. *)
Theorem lastSignatureDraft_is_latest (s : State) :
  (forall pre d post,
      drafts s = (pre ++ d :: post)%list ->
      draft_type d = SIGNATURE ->
      Forall (fun later => draft_type later <> SIGNATURE) post ->
      lastSignatureDraft s = Some d)
  /\ (Forall (fun d => draft_type d <> SIGNATURE) (drafts s) ->
      lastSignatureDraft s = None)
  /\ (forall (L : Env) (api : PdfApi)
             (sign : Main.SignPayload -> Result (option Main.Reply))
             (pre post : list Draft) (d : Draft) (rect : PdfRect)
             (data composed : bytes) (savePath : option string),
        drafts s = (pre ++ d :: post)%list ->
        draft_type d = SIGNATURE ->
        Forall (fun later => draft_type later <> SIGNATURE) post ->
        resolveDraftRect s d = Some rect ->
        certificateData s <> "" ->
        signPdf api = Some sign ->
        noPdf s = false ->
        normalizePdfBytes L (pdfBytes s) = Some data ->
        hasPdfHeader data = true ->
        saveTarget (Some api) (pdfName s) savePath ->
        composeDrafts L s data (drafts s) = Ok composed ->
        (forall e,
            sign (signRequest L s composed rect) = Throw e ->
            handleExport L (Some api) s
            = reportFailure "Export failed" e
                "Export failed. Please try again or reopen the PDF."
                (set_signError "" s))
        /\ (forall reply signed effect,
              sign (signRequest L s composed rect)
              = Ok (Some (Main.ReplyData reply)) ->
              reply <> "" ->
              base64ToBytes L reply = Ok signed ->
              hasPdfHeader signed = true ->
              deliver (Some api) savePath (pdfName s)
                (bytesToBase64 L signed) signed = (effect, Ok tt) ->
              handleExport L (Some api) s
              = finishExport savePath signed true
                  (logEffect effect (set_signError "" s)))
        /\ (forall sign',
              sign' (signRequest L s composed rect)
              = sign (signRequest L s composed rect) ->
              handleExport L (Some (withSigner sign' api)) s
              = handleExport L (Some api) s)).
Proof.
  split; [intros pre d post; exact (lastSignatureDraft_picks s pre post d) |].
  split.
  - intro H. unfold lastSignatureDraft.
    assert (F : filter (fun d => Tool_eqb (draft_type d) SIGNATURE) (drafts s)
                = []).
    { induction H as [| a l Ha _ IH]; [reflexivity |]. cbn [filter].
      destruct (draft_type a); try contradiction; cbn; exact IH. }
    rewrite F. reflexivity.
  - intros L api sign pre post d rect data composed savePath
      E T P R C S Hn Hb Hh Ht Hc.
    pose proof (lastSignatureDraft_picks s pre post d E T P) as K.
    pose proof (handleExport_reaches_try L (Some api) s data savePath
                  Hn Hb Hh Ht) as Reach.
    pose proof (signStage_asks L (Some api) sign s d rect composed K C S R)
      as Asks.
    split; [| split].
    + intros e He.
      rewrite Reach, (exportFrom_after_loop L _ savePath data composed s Hc).
      rewrite Asks, He. reflexivity.
    + intros reply signed effect Hr Hne Hd Hs Hw.
      rewrite Reach, (exportFrom_after_loop L _ savePath data composed s Hc).
      rewrite Asks, Hr. cbn [bind]. unfold nonEmpty.
      destruct (String.eqb_spec reply ""); [contradiction |]. cbn [negb].
      rewrite Hd. cbn [bind]. unfold ensurePdf. rewrite Hs. cbn [negb bind].
      rewrite Hw. reflexivity.
    + intros sign' Same.
      rewrite Reach.
      rewrite (handleExport_reaches_try L (Some (withSigner sign' api)) s data
                 savePath Hn Hb Hh Ht).
      rewrite !(exportFrom_after_loop L _ savePath data composed s Hc).
      rewrite Asks.
      rewrite (signStage_asks L (Some (withSigner sign' api)) sign' s d rect
                 composed K C eq_refl R).
      rewrite Same. reflexivity.
Qed.

Lemma lastSignatureDraft_is_latest_witness :
  lastSignatureDraft
    (signingSession
       [signatureAt "draft-1" 10 10; signatureAt "draft-2" 50 50;
        checkboxAt 100 100])
  = Some (signatureAt "draft-2" 50 50)
  /\ handleExport Reference.env (Some refusingBridge)
       (signingSession
          [signatureAt "draft-1" 10 10; signatureAt "draft-2" 50 50;
           checkboxAt 100 100])
     = reportFailure "Export failed" "no key for the widget at 50"
         "Export failed. Please try again or reopen the PDF."
         (set_signError ""
            (signingSession
               [signatureAt "draft-1" 10 10; signatureAt "draft-2" 50 50;
                checkboxAt 100 100])).
Proof.
  assert (Later : Forall (fun later => draft_type later <> SIGNATURE)
                    [checkboxAt 100 100])
    by (constructor; [discriminate | constructor]).
  assert (Loaded : certificateData
                     (signingSession
                        [signatureAt "draft-1" 10 10;
                         signatureAt "draft-2" 50 50; checkboxAt 100 100])
                   <> "")
    by discriminate.
  split.
  - exact (proj1 (lastSignatureDraft_is_latest
                    (signingSession
                       [signatureAt "draft-1" 10 10;
                        signatureAt "draft-2" 50 50; checkboxAt 100 100]))
             [signatureAt "draft-1" 10 10] (signatureAt "draft-2" 50 50)
             [checkboxAt 100 100] eq_refl eq_refl Later).
  - exact (proj1 (proj2 (proj2 (lastSignatureDraft_is_latest
                    (signingSession
                       [signatureAt "draft-1" 10 10;
                        signatureAt "draft-2" 50 50; checkboxAt 100 100])))
             Reference.env refusingBridge refusingSigner
             [signatureAt "draft-1" 10 10] [checkboxAt 100 100]
             (signatureAt "draft-2" 50 50) _ Reference.pdfHeader _ None
             eq_refl eq_refl Later eq_refl Loaded eq_refl eq_refl eq_refl
             eq_refl eq_refl eq_refl)
             "no key for the widget at 50" eq_refl).
Defined.

Lemma Qmin_plus_abs (a b : Q) : Qmin a b + Qabs (b - a) == Qmax a b.
Proof.
  destruct (Qlt_le_dec b a) as [Lt | Le].
  - rewrite (Q.min_r a b), (Q.max_l a b) by lra.
    rewrite Qabs_neg by lra. ring.
  - rewrite (Q.min_l a b), (Q.max_r a b) by lra.
    rewrite Qabs_pos by lra. ring.
Qed.

Lemma resolveDraftRect_spans (s : State) (d : Draft) (vp : Viewport) :
  viewportAt s (draft_pageIndex d) = Some vp ->
  exists r,
    resolveDraftRect s d = Some r
    /\ rect_pageIndex r = draft_pageIndex d
    /\ 0 <= rect_width r /\ 0 <= rect_height r
    /\ rect_x r
       == Qmin (fst (convertToPdfPoint vp (draft_x d) (draft_y d)))
            (fst (convertToPdfPoint vp (draft_x d + draft_width d)
                    (draft_y d + draft_height d)))
    /\ rect_x r + rect_width r
       == Qmax (fst (convertToPdfPoint vp (draft_x d) (draft_y d)))
            (fst (convertToPdfPoint vp (draft_x d + draft_width d)
                    (draft_y d + draft_height d)))
    /\ rect_y r
       == Qmin (snd (convertToPdfPoint vp (draft_x d) (draft_y d)))
            (snd (convertToPdfPoint vp (draft_x d + draft_width d)
                    (draft_y d + draft_height d)))
    /\ rect_y r + rect_height r
       == Qmax (snd (convertToPdfPoint vp (draft_x d) (draft_y d)))
            (snd (convertToPdfPoint vp (draft_x d + draft_width d)
                    (draft_y d + draft_height d))).
Proof.
  unfold resolveDraftRect. intros ->.
  destruct (convertToPdfPoint vp (draft_x d) (draft_y d)) as [x1 y1].
  destruct (convertToPdfPoint vp (draft_x d + draft_width d)
              (draft_y d + draft_height d)) as [x2 y2].
  eexists. split; [reflexivity |].
  cbn [rect_pageIndex rect_x rect_y rect_width rect_height fst snd].
  split; [reflexivity |].
  split; [apply Qabs_nonneg |]. split; [apply Qabs_nonneg |].
  split; [reflexivity |]. split; [apply Qmin_plus_abs |].
  split; [reflexivity | apply Qmin_plus_abs].
Qed.

(** X17.  A draft whose page has a viewport resolves to a rectangle on the
    same page that has a width and a height that are not negative and that
    spans the two converted corners, whichever way the viewport turns the
    axes; a draft whose page has no viewport resolves to nothing. *)
Theorem resolveDraftRect_normalised (s : State) (d : Draft) :
  (viewportAt s (draft_pageIndex d) = None -> resolveDraftRect s d = None)
  /\ (forall vp,
        viewportAt s (draft_pageIndex d) = Some vp ->
        exists r,
          resolveDraftRect s d = Some r
          /\ rect_pageIndex r = draft_pageIndex d
          /\ 0 <= rect_width r /\ 0 <= rect_height r
          /\ rect_x r
             == Qmin (fst (convertToPdfPoint vp (draft_x d) (draft_y d)))
                  (fst (convertToPdfPoint vp (draft_x d + draft_width d)
                          (draft_y d + draft_height d)))
          /\ rect_x r + rect_width r
             == Qmax (fst (convertToPdfPoint vp (draft_x d) (draft_y d)))
                  (fst (convertToPdfPoint vp (draft_x d + draft_width d)
                          (draft_y d + draft_height d)))
          /\ rect_y r
             == Qmin (snd (convertToPdfPoint vp (draft_x d) (draft_y d)))
                  (snd (convertToPdfPoint vp (draft_x d + draft_width d)
                          (draft_y d + draft_height d)))
          /\ rect_y r + rect_height r
             == Qmax (snd (convertToPdfPoint vp (draft_x d) (draft_y d)))
                  (snd (convertToPdfPoint vp (draft_x d + draft_width d)
                          (draft_y d + draft_height d)))).
Proof.
  split.
  - unfold resolveDraftRect. intros ->. reflexivity.
  - intros vp V. exact (resolveDraftRect_spans s d vp V).
Qed.

Lemma resolveDraftRect_normalised_witness :
  resolveDraftRect (session letterViewport Reference.pdfHeader PAN [])
    (App.mkDraft "draft-7" CHECKBOX 3 0 0 28 28
       None None None None None None None None None)
  = None.
Proof.
  apply (proj1 (resolveDraftRect_normalised
                  (session letterViewport Reference.pdfHeader PAN []) _)).
  reflexivity.
Defined.

(** X18.  Under a viewport that scales by [k] and flips the vertical axis of
    a page of height [pageHeight], a draft at [(x, y)] of size [w] by [h]
    resolves to the rectangle at [(x / k, pageHeight - (y + h) / k)] of size
    [w / k] by [h / k]. *)
Theorem resolveDraftRect_scaled_flip (s : State) (d : Draft) (vp : Viewport)
  (k pageHeight : Q) :
  viewportAt s (draft_pageIndex d) = Some vp ->
  scalesAndFlips vp k pageHeight ->
  0 < k -> 0 <= draft_width d -> 0 <= draft_height d ->
  exists r,
    resolveDraftRect s d = Some r
    /\ rect_x r == draft_x d / k
    /\ rect_y r == pageHeight - (draft_y d + draft_height d) / k
    /\ rect_width r == draft_width d / k
    /\ rect_height r == draft_height d / k.
Proof.
  intros Hv Hs Hk Hw Hh.
  destruct (resolveDraftRect_spans s d vp Hv)
    as (r & E & _ & _ & _ & X0 & X1 & Y0 & Y1).
  exists r. split; [exact E |].
  destruct (Hs (draft_x d) (draft_y d)) as [A1 B1].
  destruct (Hs (draft_x d + draft_width d) (draft_y d + draft_height d))
    as [A2 B2].
  rewrite A1, A2 in X0, X1. rewrite B1, B2 in Y0, Y1.
  assert (Wk : draft_x d / k <= (draft_x d + draft_width d) / k).
  { apply Qmult_le_compat_r; [lra |]. apply Qlt_le_weak. apply Qinv_lt_0_compat. exact Hk. }
  assert (Hk' : draft_y d / k <= (draft_y d + draft_height d) / k).
  { apply Qmult_le_compat_r; [lra |]. apply Qlt_le_weak. apply Qinv_lt_0_compat. exact Hk. }
  rewrite Q.min_l in X0 by exact Wk. rewrite Q.max_r in X1 by exact Wk.
  rewrite Q.min_r in Y0 by lra. rewrite Q.max_l in Y1 by lra.
  assert (D1 : (draft_x d + draft_width d) / k
               == draft_x d / k + draft_width d / k) by (field; lra).
  assert (D2 : (draft_y d + draft_height d) / k
               == draft_y d / k + draft_height d / k) by (field; lra).
  repeat split.
  - exact X0.
  - exact Y0.
  - rewrite X0, D1 in X1. lra.
  - rewrite Y0, D2 in Y1. lra.
Qed.

Lemma resolveDraftRect_scaled_flip_witness :
  exists r,
    resolveDraftRect (session letterViewport Reference.pdfHeader PAN [])
      (App.mkDraft "draft-8" TEXT 0 40 40 200 40
         None None None None None None None None None)
    = Some r
    /\ rect_x r == 40 / 1
    /\ rect_y r == 792 - (40 + 40) / 1
    /\ rect_width r == 200 / 1
    /\ rect_height r == 40 / 1.
Proof.
  apply (resolveDraftRect_scaled_flip
           (session letterViewport Reference.pdfHeader PAN [])
           (App.mkDraft "draft-8" TEXT 0 40 40 200 40
              None None None None None None None None None)
           letterViewport 1 792).
  - reflexivity.
  - intros x y. cbn. split; field.
  - reflexivity.
  - discriminate.
  - discriminate.
Defined.

Lemma code_of_byte (v : Z) :
  (0 <= v < 256)%Z -> code (ascii_of_N (Z.to_N v)) = v.
Proof.
  intro H. unfold code. rewrite N_ascii_embedding by lia. lia.
Qed.

(** X19.  Bytes handed over as base64 come back as they were: when the
    platform decodes what it encoded, decoding the encoding of an array of
    bytes gives the array back. *)
Theorem bytes_survive_base64 (L : Env) (data : bytes) :
  Forall (fun v => (0 <= v < 256)%Z) data ->
  atob L (btoa L (binaryOf data)) = Ok (binaryOf data) ->
  base64ToBytes L (bytesToBase64 L data) = Ok data.
Proof.
  intros Hb Ha. unfold base64ToBytes, bytesToBase64.
  fold (binaryOf data). rewrite Ha. cbn [bind]. f_equal.
  unfold charCodes, binaryOf. rewrite list_ascii_of_string_of_list_ascii.
  rewrite map_map. clear Ha.
  induction Hb as [| v rest Hv Hrest IH]; [reflexivity |].
  cbn [map]. rewrite (code_of_byte v Hv). f_equal. exact IH.
Qed.

Lemma bytes_survive_base64_witness :
  base64ToBytes Reference.env (bytesToBase64 Reference.env [37; 80; 68; 70; 45]%Z)
  = Ok [37; 80; 68; 70; 45]%Z.
Proof.
  apply (bytes_survive_base64 Reference.env [37; 80; 68; 70; 45]%Z).
  - repeat constructor; discriminate.
  - reflexivity.
Defined.

End ExportInvariants.

(** * The draft store: gestures, removal and zoom *)

Section StoreInvariants.

Import PdfUtils App Spec.

(** X20.  Once the document is signed, editing is locked: a click on the
    page, a press that would start drawing, and a press on a draft or on one
    of its handles all leave the state as it is; so a drag that starts on a
    signed document moves nothing. *)
Theorem signed_document_is_locked (newId handle : string)
  (event later : PointerEvent) (d : Draft) (s : State) :
  isSigned s = true ->
  handleCanvasClick newId event s = s
  /\ handleViewerPointerDown event s = s
  /\ handleDraftPointerDown event d s = s
  /\ handleDraftHandlePointerDown event d handle s = s
  /\ (dragState s = None ->
      handleDraftPointerMove later (handleDraftPointerDown event d s) = s).
Proof.
  intro H.
  assert (D : forall mode h, startDrag event d mode h s = s).
  { intros mode h. unfold startDrag. rewrite H. reflexivity. }
  repeat split.
  - unfold handleCanvasClick. rewrite H, Bool.orb_true_r. reflexivity.
  - unfold handleViewerPointerDown. rewrite H, Bool.orb_true_r. reflexivity.
  - apply D.
  - apply D.
  - intro N. unfold handleDraftPointerDown. rewrite D.
    unfold handleDraftPointerMove. rewrite N. reflexivity.
Qed.

Lemma signed_document_is_locked_witness :
  handleCanvasClick "draft-2" (pointerAt 300 300)
    (set_isSigned true
       (session letterViewport Reference.pdfHeader CHECKBOX [checkboxAt 10 10]))
  = set_isSigned true
      (session letterViewport Reference.pdfHeader CHECKBOX [checkboxAt 10 10]).
Proof.
  exact (proj1 (signed_document_is_locked "draft-2" "se" (pointerAt 300 300)
                  (pointerAt 310 310) (checkboxAt 10 10)
                  (set_isSigned true
                     (session letterViewport Reference.pdfHeader CHECKBOX
                        [checkboxAt 10 10]))
                  eq_refl)).
Defined.

Lemma filter_all (A : Type) (f : A -> bool) (l : list A) :
  (forall x, In x l -> f x = true) -> filter f l = l.
Proof.
  induction l as [| a l IH]; intro H; [reflexivity |].
  cbn [filter]. rewrite (H a (or_introl eq_refl)). f_equal.
  apply IH. intros x Hx. apply H. right. exact Hx.
Qed.

(** X21.  Removing a draft removes every draft with that id and no other,
    and clears the selection when it was that draft; removing a draft right
    after it was added, under an id no other draft has, gives the drafts
    back as they were, with nothing selected. *)
Theorem removeDraft_removes_that_draft (draftId : string) (s : State) :
  (forall d,
      In d (drafts (removeDraft draftId s))
      <-> In d (drafts s) /\ draft_id d <> draftId)
  /\ (selectedDraftId s = Some draftId ->
      selectedDraftId (removeDraft draftId s) = None)
  /\ (selectedDraftId s <> Some draftId ->
      selectedDraftId (removeDraft draftId s) = selectedDraftId s)
  /\ (forall d,
        draft_id d = draftId ->
        (forall other, In other (drafts s) -> draft_id other <> draftId) ->
        drafts (removeDraft draftId (addDraft d s)) = drafts s
        /\ selectedDraftId (removeDraft draftId (addDraft d s)) = None).
Proof.
  split; [| split; [| split]].
  - intro d. unfold removeDraft. cbn [drafts set_selectedDraftId set_drafts].
    rewrite filter_In. split; intros [I N]; (split; [exact I |]).
    + intro E. rewrite <- E, String.eqb_refl in N. discriminate N.
    + destruct (String.eqb_spec (draft_id d) draftId); [contradiction | reflexivity].
  - intro E. unfold removeDraft.
    cbn [selectedDraftId set_selectedDraftId set_drafts].
    rewrite E, String.eqb_refl. reflexivity.
  - intro N. unfold removeDraft.
    cbn [selectedDraftId set_selectedDraftId set_drafts].
    destruct (selectedDraftId s) as [current |]; [| reflexivity].
    destruct (String.eqb_spec current draftId) as [-> | _];
      [contradiction N; reflexivity | reflexivity].
  - intros d E F. unfold removeDraft, addDraft.
    cbn [drafts selectedDraftId set_selectedDraftId set_drafts].
    rewrite E, String.eqb_refl. split; [| reflexivity].
    rewrite filter_app. cbn [filter]. rewrite E, String.eqb_refl.
    cbn [negb]. rewrite app_nil_r. apply filter_all.
    intros x Hx. destruct (String.eqb_spec (draft_id x) draftId) as [Ex | _];
      [contradiction (F x Hx Ex) | reflexivity].
Qed.

Lemma removeDraft_removes_that_draft_witness :
  drafts (removeDraft "draft-2"
            (addDraft (signatureAt "draft-2" 50 50)
               (session letterViewport Reference.pdfHeader PAN
                  [checkboxAt 10 10])))
  = [checkboxAt 10 10]
  /\ selectedDraftId
       (removeDraft "draft-2"
          (addDraft (signatureAt "draft-2" 50 50)
             (session letterViewport Reference.pdfHeader PAN
                [checkboxAt 10 10])))
     = None.
Proof.
  apply (proj2 (proj2 (proj2 (removeDraft_removes_that_draft "draft-2"
           (session letterViewport Reference.pdfHeader PAN
              [checkboxAt 10 10]))))).
  - reflexivity.
  - intros other [<- | []]. discriminate.
Defined.

Lemma withRect_withRect (x y w h x' y' w' h' : Q) (d : Draft) :
  withRect x y w h (withRect x' y' w' h' d) = withRect x y w h d.
Proof. reflexivity. Qed.

Lemma sameButRect_withRect (x y w h : Q) (d : Draft) :
  sameButRect d (withRect x y w h d).
Proof. unfold sameButRect. destruct d. reflexivity. Qed.

Lemma sameButRect_refl (d : Draft) : sameButRect d d.
Proof. unfold sameButRect. destruct d. reflexivity. Qed.

Lemma sameButRect_clampDraft (s : State) (d next : Draft) :
  sameButRect d next -> sameButRect d (clampDraft s next).
Proof.
  unfold clampDraft, sameButRect. intro H.
  destruct (viewportAt s (draft_pageIndex next)); [| exact H].
  rewrite withRect_withRect. exact H.
Qed.

Lemma draggedDraft_shape (drag : DragState) (event : PointerEvent) :
  exists x y w h, draggedDraft drag event = withRect x y w h (ds_draft drag).
Proof.
  unfold draggedDraft. destruct (ds_mode drag).
  - do 4 eexists. reflexivity.
  - destruct (includes "w" (ds_handle drag)), (includes "n" (ds_handle drag));
      do 4 eexists; reflexivity.
Qed.

Lemma sameButRect_id (d d' : Draft) : sameButRect d d' -> draft_id d' = draft_id d.
Proof. unfold sameButRect. intros <-. reflexivity. Qed.

Lemma gesture_on_store (event later : PointerEvent) (d : Draft) (mode : Mode)
  (handle : string) (s : State) :
  isSigned s = false ->
  Forall2 (movedOrKept d) (drafts s)
    (drafts (handleDraftPointerMove later (startDrag event d mode handle s)))
  /\ selectedDraftId
       (handleDraftPointerMove later (startDrag event d mode handle s))
     = Some (draft_id d).
Proof.
  intro H. unfold startDrag. rewrite H. unfold handleDraftPointerMove.
  cbn [dragState set_dragState set_selectedDraftId drafts selectedDraftId
       set_drafts ds_id].
  split; [| reflexivity].
  match goal with
  | |- context [clampDraft ?st (draggedDraft ?dr later)] =>
      assert (S : sameButRect d (clampDraft st (draggedDraft dr later)));
      [ apply sameButRect_clampDraft;
        destruct (draggedDraft_shape dr later) as (x & y & w & h & ->);
        apply sameButRect_withRect
      | generalize dependent (clampDraft st (draggedDraft dr later)) ]
  end.
  intros next S.
  induction (drafts s) as [| a rest IH]; [constructor |].
  cbn [map]. constructor; [| exact IH].
  destruct (String.eqb_spec (draft_id a) (draft_id d)) as [E | N].
  - left. split; assumption.
  - right. split; [exact N | reflexivity].
Qed.

Lemma movedOrKept_ids (d : Draft) (l l' : list Draft) :
  Forall2 (movedOrKept d) l l' -> map draft_id l' = map draft_id l.
Proof.
  induction 1 as [| a b l l' R _ IH]; [reflexivity |].
  cbn [map]. f_equal; [| exact IH].
  destruct R as [[E S] | [_ ->]]; [| reflexivity].
  rewrite (sameButRect_id d b S). symmetry. exact E.
Qed.

(** X22.  Moving or resizing a draft changes rectangles only: after a press
    on a draft, or on one of its handles, and a pointer move, the store
    holds the same ids in the same order; every draft with another id is as
    it was; every draft with the id of the pressed draft is the pressed
    draft, as it was at the press, with another rectangle; and the pressed
    draft is selected. *)
Theorem gesture_changes_only_rectangle (event later : PointerEvent)
  (d : Draft) (handle : string) (s : State) :
  isSigned s = false ->
  (Forall2 (movedOrKept d) (drafts s)
     (drafts (handleDraftPointerMove later (handleDraftPointerDown event d s)))
   /\ map draft_id
        (drafts (handleDraftPointerMove later (handleDraftPointerDown event d s)))
      = map draft_id (drafts s)
   /\ selectedDraftId
        (handleDraftPointerMove later (handleDraftPointerDown event d s))
      = Some (draft_id d))
  /\ (Forall2 (movedOrKept d) (drafts s)
        (drafts (handleDraftPointerMove later
                   (handleDraftHandlePointerDown event d handle s)))
      /\ map draft_id
           (drafts (handleDraftPointerMove later
                      (handleDraftHandlePointerDown event d handle s)))
         = map draft_id (drafts s)
      /\ selectedDraftId
           (handleDraftPointerMove later
              (handleDraftHandlePointerDown event d handle s))
         = Some (draft_id d)).
Proof.
  intro H. unfold handleDraftPointerDown, handleDraftHandlePointerDown.
  split.
  - destruct (gesture_on_store event later d Move "" s H) as [F S].
    split; [exact F |]. split; [apply (movedOrKept_ids d); exact F | exact S].
  - destruct (gesture_on_store event later d Resize handle s H) as [F S].
    split; [exact F |]. split; [apply (movedOrKept_ids d); exact F | exact S].
Qed.

Lemma gesture_changes_only_rectangle_witness :
  map draft_id
    (drafts (handleDraftPointerMove (pointerAt 60 70)
               (handleDraftPointerDown (pointerAt 20 20) (checkboxAt 10 10)
                  (session letterViewport Reference.pdfHeader PAN
                     [checkboxAt 10 10; signatureAt "draft-2" 50 50]))))
  = ["draft-1"; "draft-2"].
Proof.
  apply (proj1 (proj2 (proj1 (gesture_changes_only_rectangle
           (pointerAt 20 20) (pointerAt 60 70) (checkboxAt 10 10) "se"
           (session letterViewport Reference.pdfHeader PAN
              [checkboxAt 10 10; signatureAt "draft-2" 50 50])
           eq_refl)))).
Defined.

Lemma draggedDraft_pageIndex (drag : DragState) (event : PointerEvent) :
  draft_pageIndex (draggedDraft drag event) = draft_pageIndex (ds_draft drag).
Proof.
  destruct (draggedDraft_shape drag event) as (x & y & w & h & ->). reflexivity.
Qed.

Lemma draggedDraft_minimum (drag : DragState) (event : PointerEvent) :
  ds_mode drag = Resize ->
  (includes "e" (ds_handle drag) || includes "w" (ds_handle drag) = true ->
   minSize (draft_type (ds_draft drag)) <= draft_width (draggedDraft drag event))
  /\ (includes "s" (ds_handle drag) || includes "n" (ds_handle drag) = true ->
      minSize (draft_type (ds_draft drag))
      <= draft_height (draggedDraft drag event)).
Proof.
  intro M. unfold draggedDraft, minSize. rewrite M.
  destruct (includes "e" (ds_handle drag)), (includes "w" (ds_handle drag)),
    (includes "s" (ds_handle drag)), (includes "n" (ds_handle drag));
    cbn [orb draft_width draft_height withRect];
    split; intro H; try discriminate H; apply Q.le_max_l.
Qed.

(** X23.  A resize never leaves a side the handle moves shorter than the
    minimum for the type of the draft (18 for a check box, 36 otherwise),
    unless the page itself is smaller; this holds after the clamp to the
    viewport. *)
Theorem resize_respects_minimum_size (event : PointerEvent) (s : State)
  (drag : DragState) (vp : Viewport) (d' : Draft) :
  dragState s = Some drag ->
  ds_mode drag = Resize ->
  viewportAt s (draft_pageIndex (ds_draft drag)) = Some vp ->
  In d' (drafts (handleDraftPointerMove event s)) ->
  draft_id d' = ds_id drag ->
  (includes "e" (ds_handle drag) || includes "w" (ds_handle drag) = true ->
   Qmin (minSize (draft_type (ds_draft drag))) (vp_width vp) <= draft_width d')
  /\ (includes "s" (ds_handle drag) || includes "n" (ds_handle drag) = true ->
      Qmin (minSize (draft_type (ds_draft drag))) (vp_height vp)
      <= draft_height d').
Proof.
  intros D M V I E. unfold handleDraftPointerMove in I. rewrite D in I.
  cbn [drafts set_drafts] in I. apply in_map_iff in I.
  destruct I as (a & Fa & _).
  destruct (String.eqb_spec (draft_id a) (ds_id drag)) as [_ | N];
    [| subst d'; contradiction].
  subst d'. unfold clampDraft.
  rewrite draggedDraft_pageIndex, V.
  cbn [draft_width draft_height withRect].
  destruct (draggedDraft_minimum drag event M) as [W Hh].
  split; intro H.
  - apply Q.min_le_compat_r. apply W. exact H.
  - apply Q.min_le_compat_r. apply Hh. exact H.
Qed.

Lemma resize_respects_minimum_size_witness :
  Qmin (minSize CHECKBOX) 612
  <= draft_width
       (clampDraft
          (set_dragState
             (Some {| ds_id := "draft-1"; ds_startX := 38; ds_startY := 38;
                      ds_draft := checkboxAt 10 10; ds_mode := Resize;
                      ds_handle := "se" |})
             (session letterViewport Reference.pdfHeader PAN [checkboxAt 10 10]))
          (draggedDraft
             {| ds_id := "draft-1"; ds_startX := 38; ds_startY := 38;
                ds_draft := checkboxAt 10 10; ds_mode := Resize;
                ds_handle := "se" |}
             (pointerAt 12 12))).
Proof.
  apply (resize_respects_minimum_size (pointerAt 12 12)
           (set_dragState
              (Some {| ds_id := "draft-1"; ds_startX := 38; ds_startY := 38;
                       ds_draft := checkboxAt 10 10; ds_mode := Resize;
                       ds_handle := "se" |})
              (session letterViewport Reference.pdfHeader PAN [checkboxAt 10 10]))
           {| ds_id := "draft-1"; ds_startX := 38; ds_startY := 38;
              ds_draft := checkboxAt 10 10; ds_mode := Resize;
              ds_handle := "se" |}
           letterViewport).
  - reflexivity.
  - reflexivity.
  - reflexivity.
  - left. reflexivity.
  - reflexivity.
  - reflexivity.
Defined.

(** X24.  The handlers that create drafts only append: a click that places a
    check box or a signature, the end of drawing a text field and the end of
    drawing a text box each leave the drafts as they were or add one draft
    at the end, with the new id, and select it. *)
Theorem creation_appends_and_selects (newId : string) (event : PointerEvent)
  (s : State) :
  appendedOrKept newId s (handleCanvasClick newId event s)
  /\ appendedOrKept newId s (handleTextFieldPointerUp newId s)
  /\ appendedOrKept newId s (handleTextPointerUp newId s).
Proof.
  unfold appendedOrKept. split; [| split].
  - unfold handleCanvasClick.
    destruct (noPdf s || isSigned s); [left; reflexivity |].
    destruct (activeTool s); try (left; reflexivity);
      (destruct (canvas event) as [cv |]; [| left; reflexivity]);
      (destruct (viewportAt s (canvas_pageIndex cv)); [| left; reflexivity]);
      cbn [placementDefaults Tool_eqb andb orb].
    + right. eexists. repeat split.
    + destruct (nonEmpty (signatureDataUrl s)); cbn [negb];
        [right; eexists; repeat split | left; reflexivity].
  - unfold handleTextFieldPointerUp.
    destruct (textFieldDrag s); [| left; reflexivity].
    destruct (textFieldDraft s) as [box |]; [| left; reflexivity].
    destruct (negb (Qle_bool 8 (box_width box))
              || negb (Qle_bool 8 (box_height box)));
      [left; reflexivity | right; eexists; repeat split].
  - unfold handleTextPointerUp.
    destruct (textDrag s); [| left; reflexivity].
    right. eexists. repeat split.
Qed.

(** X25.  Drawing a text box always ends with a new text draft, however
    small the rectangle drawn: it is at least 140 wide and 32 high, its font
    size lies between 10 and 36, it carries the trimmed text typed so far,
    and the gesture and its preview rectangle are cleared. *)
Theorem drawn_text_has_minimum_size (newId : string) (s : State)
  (drag : Drag) :
  textDrag s = Some drag ->
  exists d size,
    drafts (handleTextPointerUp newId s) = (drafts s ++ [d])%list
    /\ draft_id d = newId
    /\ draft_type d = TEXT
    /\ draft_pageIndex d = drag_pageIndex drag
    /\ 140 <= draft_width d
    /\ 32 <= draft_height d
    /\ draft_size d = Some size
    /\ 10 <= size /\ size <= 36
    /\ draft_text d = Some (trim (textDraft s))
    /\ textDrag (handleTextPointerUp newId s) = None
    /\ textDraftBox (handleTextPointerUp newId s) = None.
Proof.
  intro H. unfold handleTextPointerUp. rewrite H.
  do 2 eexists.
  split; [reflexivity |]. split; [reflexivity |]. split; [reflexivity |].
  split; [reflexivity |].
  cbn [draft_width draft_height draft_size draft_text].
  split; [apply Q.le_max_r |]. split; [apply Q.le_max_r |].
  split; [reflexivity |].
  split; [| split; [| repeat split]].
  - unfold clamp. apply Q.min_glb; [apply Q.le_max_r | discriminate].
  - unfold clamp. apply Q.le_min_r.
Qed.

Lemma drawn_text_has_minimum_size_witness :
  exists d size,
    drafts (handleTextPointerUp "draft-3"
              (set_textDrag (Some (dragFrom 40 40))
                 (session letterViewport Reference.pdfHeader TEXT [])))
    = ([] ++ [d])%list
    /\ draft_id d = "draft-3"
    /\ draft_type d = TEXT
    /\ draft_pageIndex d = 0%nat
    /\ 140 <= draft_width d
    /\ 32 <= draft_height d
    /\ draft_size d = Some size
    /\ 10 <= size /\ size <= 36
    /\ draft_text d = Some (trim "")
    /\ textDrag (handleTextPointerUp "draft-3"
                   (set_textDrag (Some (dragFrom 40 40))
                      (session letterViewport Reference.pdfHeader TEXT [])))
       = None
    /\ textDraftBox (handleTextPointerUp "draft-3"
                       (set_textDrag (Some (dragFrom 40 40))
                          (session letterViewport Reference.pdfHeader TEXT [])))
       = None.
Proof.
  apply (drawn_text_has_minimum_size "draft-3"
           (set_textDrag (Some (dragFrom 40 40))
              (session letterViewport Reference.pdfHeader TEXT []))
           (dragFrom 40 40)).
  reflexivity.
Defined.

(** X26.  A press and release without a move in between: with the text-field
    tool it creates nothing and clears the preview, the one-by-one rectangle
    of the press being below the eight-point threshold; with the text tool
    it creates a text box of the minimum size, 140 by 32, with font size 19. *)
Theorem click_without_drag (newId : string) (event : PointerEvent)
  (cv : Canvas) (s : State) :
  noPdf s = false ->
  isSigned s = false ->
  onOverlay event = false ->
  canvas event = Some cv ->
  (activeTool s = TEXT_FIELD ->
   drafts (handleTextFieldPointerUp newId (handleViewerPointerDown event s))
   = drafts s
   /\ textFieldDraft
        (handleTextFieldPointerUp newId (handleViewerPointerDown event s))
      = None
   /\ textFieldDrag
        (handleTextFieldPointerUp newId (handleViewerPointerDown event s))
      = None)
  /\ (activeTool s = TEXT ->
      exists d size,
        drafts (handleTextPointerUp newId (handleViewerPointerDown event s))
        = (drafts s ++ [d])%list
        /\ draft_width d == 140
        /\ draft_height d == 32
        /\ draft_size d = Some size
        /\ size == 19).
Proof.
  intros P S O C. unfold handleViewerPointerDown.
  rewrite P, S, O, C. cbn [orb].
  split; intro T; rewrite T; cbn [Tool_eqb negb andb].
  - unfold handleTextFieldPointerUp.
    cbn [textFieldDrag textFieldDraft set_textFieldDraft set_textFieldDrag
         box_width box_height].
    repeat split.
  - unfold handleTextPointerUp.
    cbn [textDrag textDraftBox set_textDraftBox set_textDrag].
    do 2 eexists. split; [reflexivity |].
    cbn [draft_width draft_height draft_size box_width box_height].
    repeat split.
Qed.

Lemma click_without_drag_witness :
  drafts (handleTextFieldPointerUp "draft-4"
            (handleViewerPointerDown (pointerAt 100 100)
               (session letterViewport Reference.pdfHeader TEXT_FIELD [])))
  = [].
Proof.
  apply (proj1 (click_without_drag "draft-4" (pointerAt 100 100)
                  {| canvas_pageIndex := 0; canvas_left := 0; canvas_top := 0 |}
                  (session letterViewport Reference.pdfHeader TEXT_FIELD [])
                  eq_refl eq_refl eq_refl eq_refl)).
  reflexivity.
Defined.

Lemma scaledBy_ratio (r r' : Q) (d d' : Draft) :
  r == r' -> scaledBy r d d' -> scaledBy r' d d'.
Proof.
  intros E (I & X & Y & W & H). unfold scaledBy.
  rewrite <- E. repeat split; assumption.
Qed.

Lemma scaledBy_one (r : Q) (ds : list Draft) :
  r == 1 -> Forall2 (scaledBy r) ds ds.
Proof.
  intro E. induction ds as [| d ds IH]; constructor; [| exact IH].
  unfold scaledBy. rewrite E. repeat split; ring.
Qed.

Lemma scaledBy_trans (r1 r2 : Q) (a b c : list Draft) :
  Forall2 (scaledBy r1) a b -> Forall2 (scaledBy r2) b c ->
  Forall2 (scaledBy (r1 * r2)) a c.
Proof.
  intro H. revert c. induction H as [| x y a b R _ IH]; intros c Hc.
  - inversion Hc. constructor.
  - inversion Hc as [| y' z b' c' R' Hc' ]; subst. constructor; [| apply IH; exact Hc'].
    destruct R as (I & X & Y & W & H), R' as (I' & X' & Y' & W' & H').
    unfold scaledBy. rewrite I', I, X', X, Y', Y, W', W, H', H.
    repeat split; ring.
Qed.

Lemma changeScale_scales (value : Q) (s : State) :
  ~ lastScale s == 0 ->
  Forall2 (scaledBy (value / lastScale s)) (drafts s)
    (drafts (changeScale value s)).
Proof.
  intro N. rewrite changeScale_drafts.
  rewrite (Qeq_bool_false _ _ N). cbn [negb andb]. rewrite Bool.andb_true_r.
  destruct (Qeq_bool value (lastScale s)) eqn:E.
  - rewrite Bool.andb_false_r. apply scaledBy_one.
    apply Qeq_bool_iff in E. rewrite E. field. exact N.
  - cbn [negb]. rewrite Bool.andb_true_r.
    destruct (drafts s) as [| d ds]; [constructor |].
    cbn [List.length Nat.eqb negb]. apply scaledBy_map.
Qed.

Lemma last_default (A : Type) (x : A) (l : list A) (d d' : A) :
  last (x :: l) d = last (x :: l) d'.
Proof.
  revert x. induction l as [| y l IH]; intro x; [reflexivity |].
  change (last (y :: l) d = last (y :: l) d'). apply IH.
Qed.

(** X27.  Zooming in steps is zooming at once: after any sequence of changes
    of scale, none of them to zero, the store holds the same drafts in the
    same order, and the rectangle of each is the one before the sequence
    multiplied by the last scale over the first, in exact arithmetic. *)
Theorem zoom_sequence_scales_once (vs : list Q) (s : State) :
  ~ lastScale s == 0 ->
  Forall (fun v => ~ v == 0) vs ->
  lastScale (zoom vs s) = last vs (lastScale s)
  /\ Forall2 (scaledBy (lastScale (zoom vs s) / lastScale s))
       (drafts s) (drafts (zoom vs s)).
Proof.
  revert s. induction vs as [| v vs IH]; intros s N F.
  - split; [reflexivity |]. apply scaledBy_one. cbn. field. exact N.
  - inversion F as [| ? ? Fv Fvs]; subst.
    change (zoom (v :: vs) s) with (zoom vs (changeScale v s)).
    destruct (IH (changeScale v s)) as [L R].
    { rewrite changeScale_lastScale. exact Fv. }
    { exact Fvs. }
    rewrite changeScale_lastScale in L, R. split.
    + rewrite L. destruct vs as [| w vs]; [reflexivity |].
      change (last (v :: w :: vs) (lastScale s)) with (last (w :: vs) (lastScale s)).
      apply last_default.
    + pose proof (scaledBy_trans _ _ _ _ _ (changeScale_scales v s N) R) as T.
      revert T. apply Forall2_impl. intros a b. apply scaledBy_ratio.
      field. split; assumption.
Qed.

Lemma zoom_sequence_scales_once_witness :
  lastScale (zoom [2; 3 # 2; 1 # 2]
               (session letterViewport Reference.pdfHeader PAN
                  [checkboxAt 100 100]))
  = last [2; 3 # 2; 1 # 2] 1
  /\ Forall2
       (scaledBy
          (lastScale (zoom [2; 3 # 2; 1 # 2]
                        (session letterViewport Reference.pdfHeader PAN
                           [checkboxAt 100 100]))
           / 1))
       [checkboxAt 100 100]
       (drafts (zoom [2; 3 # 2; 1 # 2]
                  (session letterViewport Reference.pdfHeader PAN
                     [checkboxAt 100 100]))).
Proof.
  apply (zoom_sequence_scales_once [2; 3 # 2; 1 # 2]
           (session letterViewport Reference.pdfHeader PAN [checkboxAt 100 100])).
  - discriminate.
  - repeat constructor; discriminate.
Defined.

End StoreInvariants.

(** * pdfUtils: greedy wrapping and failures *)

Section GreedyWrap.

Import PdfUtils Spec.

Section Lines.

Variable measure : string -> Q.
Variable maxWidth : Q.

Lemma brokenLate_glue (l : list string) (x : string) (l2 : list string) :
  brokenLate measure maxWidth (l ++ [x]) ->
  brokenLate measure maxWidth (x :: l2) ->
  brokenLate measure maxWidth (l ++ x :: l2).
Proof.
  induction l as [| a l IH]; intros H1 H2; [exact H2 |].
  destruct l as [| b l'].
  - cbn [app brokenLate] in *. split; [exact (proj1 H1) | exact H2].
  - cbn [app] in *. destruct H1 as [C H1]. split; [exact C |].
    apply IH; assumption.
Qed.

Lemma brokenLate_empty_first (l : list string) :
  brokenLate measure maxWidth l -> brokenLate measure maxWidth ("" :: l).
Proof.
  intro H. destruct l as [| b l]; [exact I |].
  split; [| exact H]. intro N. contradiction N. reflexivity.
Qed.

Lemma brokenLate_snoc_empty (l : list string) :
  brokenLate measure maxWidth l -> brokenLate measure maxWidth (l ++ [""]).
Proof.
  induction l as [| a l IH]; intro H; [exact I |].
  destruct l as [| b l'].
  - cbn [app brokenLate]. split; [| exact I].
    intros _ N. contradiction N. reflexivity.
  - cbn [app] in *. destruct H as [C H]. split; [exact C | apply IH; exact H].
Qed.

Lemma brokenLate_prefix (l l' : list string) :
  brokenLate measure maxWidth (l ++ l') -> brokenLate measure maxWidth l.
Proof.
  induction l as [| a l IH]; intro H; [exact I |].
  destruct l as [| b l2]; [exact I |].
  cbn [app] in *. destruct H as [C H]. split; [exact C | apply IH; exact H].
Qed.

Lemma wrapWords_late (ws g : list string) :
  Forall isWord g -> Forall isWord ws ->
  exists pushed last more tl,
    wrapWords measure maxWidth (unwords g) ws = (pushed, last)
    /\ brokenLate measure maxWidth (pushed ++ [last])
    /\ (pushed ++ [last])%list = unwords (g ++ more) :: tl
    /\ Forall isWord more.
Proof.
  revert g. induction ws as [| word rest IH]; intros g Hg Hws.
  - exists [], (unwords g), [], []. cbn [wrapWords app brokenLate].
    rewrite app_nil_r. repeat split. constructor.
  - inversion Hws as [| ? ? Hword Hrest]; subst.
    assert (One : Forall isWord [word])
      by (constructor; [exact Hword | constructor]).
    cbn [wrapWords]. destruct g as [| a g'].
    + cbn [unwords]. change (nonEmpty "") with false.
      rewrite Bool.andb_false_r.
      destruct (IH [word] One Hrest) as (pushed & last & more & tl & E & B & H & M).
      cbn [unwords] in E.
      exists pushed, last, (word :: more), tl.
      split; [exact E |]. split; [exact B |]. split; [exact H |].
      constructor; assumption.
    + rewrite (unwords_nonEmpty (a :: g') Hg) by discriminate.
      rewrite <- (unwords_snoc (a :: g') word) by discriminate.
      destruct (Qle_bool (measure (unwords ((a :: g') ++ [word])%list)) maxWidth)
        eqn:Fit; cbn [negb andb].
      * destruct (IH ((a :: g') ++ [word])%list)
          as (pushed & last & more & tl & E & B & H & M).
        { apply Forall_app. split; assumption. }
        { exact Hrest. }
        exists pushed, last, (word :: more), tl.
        split; [exact E |]. split; [exact B |].
        split; [| constructor; assumption].
        rewrite H, <- app_assoc. reflexivity.
      * destruct (IH [word] One Hrest)
          as (pushed & last & more & tl & E & B & H & M).
        cbn [unwords] in E. rewrite E.
        exists (unwords (a :: g') :: pushed), last, [], (pushed ++ [last])%list.
        split; [reflexivity |]. split; [| split; [| constructor]].
        -- cbn [app]. rewrite H. rewrite H in B.
           split; [| exact B]. intros _ _. exists word. split.
           ++ rewrite words_unwords; [reflexivity |].
              constructor; assumption.
           ++ rewrite <- (unwords_snoc (a :: g') word) by discriminate.
              apply Qnot_le_lt. intro Le. apply Qle_bool_iff in Le.
              rewrite Le in Fit. discriminate Fit.
        -- rewrite app_nil_r. reflexivity.
Qed.

Lemma wrapParagraph_late (paragraph : string) (more : bool) :
  brokenLate measure maxWidth (wrapParagraph measure maxWidth paragraph more)
  /\ (more = true ->
      exists l,
        wrapParagraph measure maxWidth paragraph more = (l ++ [""])%list).
Proof.
  destruct (wrapWords_late (words paragraph) [] (Forall_nil _)
              (words_are_words paragraph))
    as (pushed & last & _ & _ & E & B & _ & _).
  cbn [unwords] in E. unfold wrapParagraph. rewrite E. split.
  - destruct (nonEmpty last || String.eqb paragraph "") eqn:K.
    + destruct more.
      * rewrite app_assoc. apply brokenLate_snoc_empty. exact B.
      * cbn [app]. exact B.
    + apply Bool.orb_false_iff in K. destruct K as [K _].
      unfold nonEmpty in K. apply Bool.negb_false_iff in K.
      apply String.eqb_eq in K. subst last.
      destruct more; cbn [app]; [exact B |].
      rewrite app_nil_r. apply (brokenLate_prefix pushed [""]). exact B.
  - intros ->. eexists. rewrite app_assoc. reflexivity.
Qed.

Lemma wrapParagraphs_late (paragraphs : list string) :
  brokenLate measure maxWidth (wrapParagraphs measure maxWidth paragraphs).
Proof.
  induction paragraphs as [| paragraph rest IH]; [exact I |].
  cbn [wrapParagraphs]. destruct rest as [| next rest'].
  - cbn [wrapParagraphs]. rewrite app_nil_r.
    apply (proj1 (wrapParagraph_late paragraph false)).
  - destruct (wrapParagraph_late paragraph true) as [B More].
    destruct (More eq_refl) as [l E]. rewrite E in *.
    rewrite <- app_assoc. cbn [app].
    apply brokenLate_glue; [exact B |].
    apply brokenLate_empty_first. exact IH.
Qed.

End Lines.

(** X28.  The wrap is greedy: [wrapText] starts a new line only when the
    next word would not fit. For a width that is not zero, of two lines of
    the result that follow each other, neither empty, the first with the
    first word of the second added after a space measures more than the
    width. *)
Theorem wrapText_breaks_late (L : Env) (text : string) (font : Font L)
  (size maxWidth : Q) :
  ~ maxWidth == 0 ->
  brokenLate (fun t => widthOfTextAtSize L font t size) maxWidth
    (wrapText L text font size maxWidth).
Proof.
  intro N. unfold wrapText.
  destruct (nonEmpty text); cbn [negb]; [| exact I].
  destruct (Qeq_bool maxWidth 0) eqn:E.
  - apply Qeq_bool_iff in E. contradiction.
  - apply wrapParagraphs_late.
Qed.

Lemma wrapText_breaks_late_witness :
  brokenLate (fun t => widthOfTextAtSize Reference.env Helvetica t 2) 6
    (wrapText Reference.env "aaa bbb cc dddddddddddd e" Helvetica 2 6).
Proof.
  apply (wrapText_breaks_late Reference.env "aaa bbb cc dddddddddddd e"
           Helvetica 2 6).
  discriminate.
Defined.

(** X29.  Every operation of the bridge loads the document before anything
    else: bytes that pdf-lib cannot load make each of them fail with the
    error of the load, [setFormFieldValue] and [addSignatureToPdf] included,
    which otherwise hand back their input. *)
Theorem bridge_propagates_load_failure (L : Env) (data : bytes) (e : string)
  (text : TextOptions) (field : TextFieldOptions) (box : CheckBoxOptions)
  (fieldName : string) (v : value) (signature : SignatureOptions) :
  load L data = Throw e ->
  addTextToPdf L data text = Throw e
  /\ addTextFieldToPdf L data field = Throw e
  /\ addCheckBoxToPdf L data box = Throw e
  /\ setFormFieldValue L data fieldName v = Throw e
  /\ addSignatureToPdf L data signature = Throw e.
Proof.
  intro H.
  unfold addTextToPdf, addTextFieldToPdf, addCheckBoxToPdf, setFormFieldValue,
    addSignatureToPdf.
  rewrite H. repeat split.
Qed.

Lemma bridge_propagates_load_failure_witness :
  setFormFieldValue Reference.env [60; 104; 116; 109]%Z "name" (str "Ada")
  = Throw "Failed to parse PDF document: no PDF header found".
Proof.
  apply (bridge_propagates_load_failure Reference.env [60; 104; 116; 109]%Z
           "Failed to parse PDF document: no PDF header found"
           {| text_pageIndex := 0; text_x := 72; text_y := 700;
              text_text := "Ada"; text_size := 12; text_fontFamily := None;
              text_fontWeight := None; text_fontStyle := None;
              text_underline := false; text_color := None;
              text_maxWidth := 0; text_lineHeight := 0 |}
           {| tf_pageIndex := 0; tf_x := 72; tf_y := 700; tf_width := 220;
              tf_height := 36; tf_name := None |}
           {| cb_pageIndex := 0; cb_x := 72; cb_y := 700; cb_size := 28;
              cb_name := None |}
           "name" (str "Ada") (stamp None)).
  reflexivity.
Defined.

End GreedyWrap.

(** * The renderer and the main process *)

Section Agreement.

Import PdfUtils App Spec.



End Agreement.
